(** * The block C-DNS writer of compactor (src/blockcborwriter.cpp)

    A shallow embedding of [BlockCborWriter] and of the address masking
    helper [addr_to_string], with the properties its specification states
    and further properties of the code.

    Conventions of the embedding.
    - C++ integers are [Z]; a store into a narrower unsigned type is written
      out with [mod]. A [byte_string] is a list of bytes, each a [Z].
    - [boost::optional<T>] is [option T]; time points are [Z] (ticks of the
      system clock since the epoch).
    - The writer object is a record that every member function takes and
      returns. A conditional assignment [if (c) x.f = v;] is the update
      [set_f_if c v x], which stores [if c then v else f x] into field [f].
    - The encoder [enc_] is the log of the calls made on it. *)

From Stdlib Require Import ZArith Lia Bool String.
From stdpp Require Import base decidable option list.

Local Open Scope Z_scope.

(** ** Addresses and configuration *)

(** A [byte_string] is a list of bytes. *)
Abbreviation byte_string := (list Z).

(** An [IPAddress]: its family and its network-order bytes (4 for IPv4,
    16 for IPv6). *)
Record IPAddress := {
  is_ipv6 : bool;
  asNetworkBinary : byte_string
}.

(** [HintsExcluded]: one boolean per optional field. *)
Record HintsExcluded := {
  excl_server_address : bool;
  excl_server_port : bool;
  excl_transport : bool;
  excl_transaction_type : bool;
  excl_dns_flags : bool;
  excl_timestamp : bool;
  excl_client_address : bool;
  excl_client_port : bool;
  excl_transaction_id : bool;
  excl_query_qdcount : bool;
  excl_query_class_type : bool;
  excl_query_name : bool;
  excl_query_size : bool;
  excl_client_hoplimit : bool;
  excl_query_opcode : bool;
  excl_query_rcode : bool;
  excl_query_ancount : bool;
  excl_query_arcount : bool;
  excl_query_nscount : bool;
  excl_query_udp_size : bool;
  excl_query_edns_version : bool;
  excl_query_opt_rdata : bool;
  excl_response_size : bool;
  excl_response_rcode : bool;
  excl_response_delay : bool;
  excl_qr_flags : bool;
  excl_qr_signature : bool;
  excl_rr_ttl : bool;
  excl_rr_rdata : bool;
  excl_address_events : bool
}.

(** The part of [Configuration] the writer reads. *)
Record Configuration := {
  client_address_prefix_ipv4 : Z;
  client_address_prefix_ipv6 : Z;
  server_address_prefix_ipv4 : Z;
  server_address_prefix_ipv6 : Z;
  max_block_items : Z;
  max_output_size : Z;
  start_end_times_from_data : bool;
  exclude_hints : HintsExcluded
}.

(** Arithmetic on [unsigned] wraps at 32 bits; a [uint8_t] keeps 8 bits. *)
Definition to_unsigned (z : Z) : Z := z mod 2 ^ 32.
Definition to_uint8 (z : Z) : Z := z mod 2 ^ 8.

(** The prefix length [addr_to_string] selects, by family and role. *)
Definition selected_prefix_len (addr : IPAddress) (config : Configuration)
    (is_client : bool) : Z :=
  if is_ipv6 addr
  then (if is_client then client_address_prefix_ipv6 config
        else server_address_prefix_ipv6 config)
  else (if is_client then client_address_prefix_ipv4 config
        else server_address_prefix_ipv4 config).

(** [addr_to_string], blockcborwriter.cpp lines 31-43. [resize] truncates or
    pads with zero bytes, as [std::basic_string::resize] does. *)
Definition addr_to_string (addr : IPAddress) (config : Configuration)
    (is_client : bool) : byte_string :=
  let prefix_len := selected_prefix_len addr config is_client in
  let prefix_nbytes := to_unsigned (prefix_len + 7) / 8 in
  let res := asNetworkBinary addr in
  let res := resize (Z.to_nat prefix_nbytes) 0 res in
  if 0 <? prefix_nbytes
  then alter
         (fun b => to_uint8
            (Z.land b (Z.shiftl 255 (to_unsigned (prefix_nbytes * 8 - prefix_len)))))
         (Z.to_nat (prefix_nbytes - 1)) res
  else res.

(** The address whose bytes are replaced by [bs], family kept. *)
Definition with_bytes (addr : IPAddress) (bs : byte_string) : IPAddress :=
  {| is_ipv6 := is_ipv6 addr; asNetworkBinary := bs |}.

(** Bit [j] of a byte string, counted from the most significant bit of the
    first byte (network order); [None] past the end. *)
Definition bit_at (bs : byte_string) (j : Z) : option bool :=
  (fun b => Z.testbit b (7 - j mod 8)) <$> (bs !! Z.to_nat (j / 8)).

(** ** DNS messages, as the writer reads them

    [DNSMessage], [CaptureDNS] and [QueryResponse] are declared in headers
    outside this file's source; the records below hold the members and
    accessors that blockcborwriter.cpp uses. *)

Record DNSQuery := {
  dname : byte_string;
  query_type : Z;
  query_class : Z
}.

(** The OPT pseudo-record of a message, [dns.edns0()]. *)
Record EDNS0 := {
  extended_rcode : Z;
  udp_payload_size : Z;
  edns_version : Z;
  opt_rr_data : byte_string
}.

Record CaptureDNS := {
  dns_id : Z;
  opcode : Z;
  rcode : Z;
  questions_count : Z;
  answers_count : Z;
  authority_count : Z;
  additional_count : Z;
  queries : list DNSQuery;
  edns0 : option EDNS0
}.

Record DNSMessage := {
  timestamp : Z;
  clientIP : option IPAddress;
  serverIP : option IPAddress;
  clientPort : option Z;
  serverPort : option Z;
  hoplimit : option Z;
  wire_size : option Z;
  dns : CaptureDNS
}.

(** A [QueryResponse] holds a query, a response, or both. *)
Inductive QueryResponse :=
| QueryOnly (q : DNSMessage)
| ResponseOnly (r : DNSMessage)
| QueryAndResponse (q r : DNSMessage).

Definition has_query (qr : QueryResponse) : bool :=
  match qr with ResponseOnly _ => false | _ => true end.

Definition has_response (qr : QueryResponse) : bool :=
  match qr with QueryOnly _ => false | _ => true end.

Definition query (qr : QueryResponse) : option DNSMessage :=
  match qr with
  | QueryOnly q | QueryAndResponse q _ => Some q
  | ResponseOnly _ => None
  end.

Definition response (qr : QueryResponse) : option DNSMessage :=
  match qr with
  | ResponseOnly r | QueryAndResponse _ r => Some r
  | QueryOnly _ => None
  end.

(** [qr->has_query() ? qr->query() : qr->response()], the message that
    opens [startRecord] and [writeBasic]. *)
Definition leading_message (qr : QueryResponse) : DNSMessage :=
  match qr with
  | QueryOnly q | QueryAndResponse q _ => q
  | ResponseOnly r => r
  end.

(** [*o] for an optional. The source dereferences an optional only under a
    guard that it is engaged; [d] is what the model returns otherwise. *)
Definition deref {A} (d : A) (o : option A) : A :=
  match o with Some a => a | None => d end.

Definition engaged {A} (o : option A) : bool :=
  match o with Some _ => true | None => false end.

Definition no_address : IPAddress :=
  {| is_ipv6 := false; asNetworkBinary := [] |}.

(** ** Block data (blockcbordata.hpp, not part of this file's source) *)

(** Modelled from the spec: [PacketStatistics], the cumulative capture
    counters (section 6: processed, queries, responses and malformed
    counts). Its default value has every counter zero. *)
Record PacketStatistics := {
  processed_count : Z;
  query_count : Z;
  response_count : Z;
  malformed_count : Z
}.

Definition default_statistics : PacketStatistics :=
  {| processed_count := 0; query_count := 0; response_count := 0;
     malformed_count := 0 |}.

Record ClassType := {
  qtype : Z;
  qclass : Z
}.

(** [QueryResponseSignature]; every member is optional. The members stand in
    the order [writeBasic] assigns them. *)
Record QueryResponseSignature := {
  server_address : option nat;
  server_port : option Z;
  qr_transport_flags : option Z;
  qr_type : option Z;
  dns_flags : option Z;
  qdcount : option Z;
  query_classtype : option nat;
  query_opcode : option Z;
  query_rcode : option Z;
  query_ancount : option Z;
  query_nscount : option Z;
  query_arcount : option Z;
  query_edns_payload_size : option Z;
  query_edns_version : option Z;
  query_opt_rdata : option nat;
  response_rcode : option Z;
  qr_flags : option Z
}.

(** A default-constructed signature: nothing set. *)
Definition empty_signature : QueryResponseSignature :=
  {| server_address := None; server_port := None; qr_transport_flags := None;
     qr_type := None; dns_flags := None; qdcount := None;
     query_classtype := None; query_opcode := None; query_rcode := None;
     query_ancount := None; query_nscount := None; query_arcount := None;
     query_edns_payload_size := None; query_edns_version := None;
     query_opt_rdata := None; response_rcode := None; qr_flags := None |}.

(** [QueryResponseItem], the record of one transaction. *)
Record QueryResponseItem := {
  qri_qr_flags : Z;
  qri_tstamp : option Z;
  qri_client_address : option nat;
  qri_client_port : option Z;
  qri_id : option Z;
  qri_qname : option nat;
  qri_signature : option nat;
  qri_query_size : option Z;
  qri_response_size : option Z;
  qri_hoplimit : option Z;
  qri_response_delay : option Z
}.

(** [QueryResponseItem::clear()] leaves a default-constructed item. *)
Definition empty_item : QueryResponseItem :=
  {| qri_qr_flags := 0; qri_tstamp := None; qri_client_address := None;
     qri_client_port := None; qri_id := None; qri_qname := None;
     qri_signature := None; qri_query_size := None;
     qri_response_size := None; qri_hoplimit := None;
     qri_response_delay := None |}.

(** Modelled from the spec: the key of an entry of the address-event counts
    (section 6): the type and the code of the event, the index of its
    address in the address table of the block, and the family of the
    address, which the transport flags of the entry record. *)
Record AddressEventKey := {
  ae_type : Z;
  ae_code : Z;
  ae_address_index : nat;
  ae_is_ipv6 : bool
}.

(** [BlockData]: the times and statistics of a block, its intern tables in
    insertion order, its items and the multiset of its address events, each
    distinct event with its count. The question and resource-record tables,
    which only the extended groups fill, are left out. *)
Record BlockData := {
  earliest_time : Z;
  start_time : option Z;
  end_time : option Z;
  start_packet_statistics : PacketStatistics;
  last_packet_statistics : PacketStatistics;
  addresses : list byte_string;
  class_types : list ClassType;
  names_rdatas : list byte_string;
  query_response_signatures : list QueryResponseSignature;
  query_response_items : list QueryResponseItem;
  address_event_counts : list (AddressEventKey * Z)
}.

#[global] Instance PacketStatistics_eq_dec : EqDecision PacketStatistics.
Proof. solve_decision. Defined.

#[global] Instance ClassType_eq_dec : EqDecision ClassType.
Proof. solve_decision. Defined.

#[global] Instance QueryResponseSignature_eq_dec :
  EqDecision QueryResponseSignature.
Proof. solve_decision. Defined.

#[global] Instance AddressEventKey_eq_dec : EqDecision AddressEventKey.
Proof. solve_decision. Defined.

(** *** Field updates

    [set_f_if c v x] is the statement [if (c) x.f = v;]. *)

Definition set_server_address_if (c : bool) (v : option nat)
    (s : QueryResponseSignature) : QueryResponseSignature :=
  {| server_address := if c then v else server_address s;
     server_port := server_port s; qr_transport_flags := qr_transport_flags s;
     qr_type := qr_type s; dns_flags := dns_flags s; qdcount := qdcount s;
     query_classtype := query_classtype s; query_opcode := query_opcode s;
     query_rcode := query_rcode s; query_ancount := query_ancount s;
     query_nscount := query_nscount s; query_arcount := query_arcount s;
     query_edns_payload_size := query_edns_payload_size s;
     query_edns_version := query_edns_version s;
     query_opt_rdata := query_opt_rdata s; response_rcode := response_rcode s;
     qr_flags := qr_flags s |}.

Definition set_server_port_if (c : bool) (v : option Z)
    (s : QueryResponseSignature) : QueryResponseSignature :=
  {| server_address := server_address s;
     server_port := if c then v else server_port s;
     qr_transport_flags := qr_transport_flags s; qr_type := qr_type s;
     dns_flags := dns_flags s; qdcount := qdcount s;
     query_classtype := query_classtype s; query_opcode := query_opcode s;
     query_rcode := query_rcode s; query_ancount := query_ancount s;
     query_nscount := query_nscount s; query_arcount := query_arcount s;
     query_edns_payload_size := query_edns_payload_size s;
     query_edns_version := query_edns_version s;
     query_opt_rdata := query_opt_rdata s; response_rcode := response_rcode s;
     qr_flags := qr_flags s |}.

Definition set_qr_transport_flags_if (c : bool) (v : option Z)
    (s : QueryResponseSignature) : QueryResponseSignature :=
  {| server_address := server_address s; server_port := server_port s;
     qr_transport_flags := if c then v else qr_transport_flags s;
     qr_type := qr_type s; dns_flags := dns_flags s; qdcount := qdcount s;
     query_classtype := query_classtype s; query_opcode := query_opcode s;
     query_rcode := query_rcode s; query_ancount := query_ancount s;
     query_nscount := query_nscount s; query_arcount := query_arcount s;
     query_edns_payload_size := query_edns_payload_size s;
     query_edns_version := query_edns_version s;
     query_opt_rdata := query_opt_rdata s; response_rcode := response_rcode s;
     qr_flags := qr_flags s |}.

Definition set_qr_type_if (c : bool) (v : option Z)
    (s : QueryResponseSignature) : QueryResponseSignature :=
  {| server_address := server_address s; server_port := server_port s;
     qr_transport_flags := qr_transport_flags s;
     qr_type := if c then v else qr_type s; dns_flags := dns_flags s;
     qdcount := qdcount s; query_classtype := query_classtype s;
     query_opcode := query_opcode s; query_rcode := query_rcode s;
     query_ancount := query_ancount s; query_nscount := query_nscount s;
     query_arcount := query_arcount s;
     query_edns_payload_size := query_edns_payload_size s;
     query_edns_version := query_edns_version s;
     query_opt_rdata := query_opt_rdata s; response_rcode := response_rcode s;
     qr_flags := qr_flags s |}.

Definition set_dns_flags_if (c : bool) (v : option Z)
    (s : QueryResponseSignature) : QueryResponseSignature :=
  {| server_address := server_address s; server_port := server_port s;
     qr_transport_flags := qr_transport_flags s; qr_type := qr_type s;
     dns_flags := if c then v else dns_flags s; qdcount := qdcount s;
     query_classtype := query_classtype s; query_opcode := query_opcode s;
     query_rcode := query_rcode s; query_ancount := query_ancount s;
     query_nscount := query_nscount s; query_arcount := query_arcount s;
     query_edns_payload_size := query_edns_payload_size s;
     query_edns_version := query_edns_version s;
     query_opt_rdata := query_opt_rdata s; response_rcode := response_rcode s;
     qr_flags := qr_flags s |}.

Definition set_qdcount_if (c : bool) (v : option Z)
    (s : QueryResponseSignature) : QueryResponseSignature :=
  {| server_address := server_address s; server_port := server_port s;
     qr_transport_flags := qr_transport_flags s; qr_type := qr_type s;
     dns_flags := dns_flags s; qdcount := if c then v else qdcount s;
     query_classtype := query_classtype s; query_opcode := query_opcode s;
     query_rcode := query_rcode s; query_ancount := query_ancount s;
     query_nscount := query_nscount s; query_arcount := query_arcount s;
     query_edns_payload_size := query_edns_payload_size s;
     query_edns_version := query_edns_version s;
     query_opt_rdata := query_opt_rdata s; response_rcode := response_rcode s;
     qr_flags := qr_flags s |}.

Definition set_query_classtype_if (c : bool) (v : option nat)
    (s : QueryResponseSignature) : QueryResponseSignature :=
  {| server_address := server_address s; server_port := server_port s;
     qr_transport_flags := qr_transport_flags s; qr_type := qr_type s;
     dns_flags := dns_flags s; qdcount := qdcount s;
     query_classtype := if c then v else query_classtype s;
     query_opcode := query_opcode s; query_rcode := query_rcode s;
     query_ancount := query_ancount s; query_nscount := query_nscount s;
     query_arcount := query_arcount s;
     query_edns_payload_size := query_edns_payload_size s;
     query_edns_version := query_edns_version s;
     query_opt_rdata := query_opt_rdata s; response_rcode := response_rcode s;
     qr_flags := qr_flags s |}.

Definition set_query_opcode_if (c : bool) (v : option Z)
    (s : QueryResponseSignature) : QueryResponseSignature :=
  {| server_address := server_address s; server_port := server_port s;
     qr_transport_flags := qr_transport_flags s; qr_type := qr_type s;
     dns_flags := dns_flags s; qdcount := qdcount s;
     query_classtype := query_classtype s;
     query_opcode := if c then v else query_opcode s;
     query_rcode := query_rcode s; query_ancount := query_ancount s;
     query_nscount := query_nscount s; query_arcount := query_arcount s;
     query_edns_payload_size := query_edns_payload_size s;
     query_edns_version := query_edns_version s;
     query_opt_rdata := query_opt_rdata s; response_rcode := response_rcode s;
     qr_flags := qr_flags s |}.

Definition set_query_rcode_if (c : bool) (v : option Z)
    (s : QueryResponseSignature) : QueryResponseSignature :=
  {| server_address := server_address s; server_port := server_port s;
     qr_transport_flags := qr_transport_flags s; qr_type := qr_type s;
     dns_flags := dns_flags s; qdcount := qdcount s;
     query_classtype := query_classtype s; query_opcode := query_opcode s;
     query_rcode := if c then v else query_rcode s;
     query_ancount := query_ancount s; query_nscount := query_nscount s;
     query_arcount := query_arcount s;
     query_edns_payload_size := query_edns_payload_size s;
     query_edns_version := query_edns_version s;
     query_opt_rdata := query_opt_rdata s; response_rcode := response_rcode s;
     qr_flags := qr_flags s |}.

Definition set_query_ancount_if (c : bool) (v : option Z)
    (s : QueryResponseSignature) : QueryResponseSignature :=
  {| server_address := server_address s; server_port := server_port s;
     qr_transport_flags := qr_transport_flags s; qr_type := qr_type s;
     dns_flags := dns_flags s; qdcount := qdcount s;
     query_classtype := query_classtype s; query_opcode := query_opcode s;
     query_rcode := query_rcode s;
     query_ancount := if c then v else query_ancount s;
     query_nscount := query_nscount s; query_arcount := query_arcount s;
     query_edns_payload_size := query_edns_payload_size s;
     query_edns_version := query_edns_version s;
     query_opt_rdata := query_opt_rdata s; response_rcode := response_rcode s;
     qr_flags := qr_flags s |}.

Definition set_query_nscount_if (c : bool) (v : option Z)
    (s : QueryResponseSignature) : QueryResponseSignature :=
  {| server_address := server_address s; server_port := server_port s;
     qr_transport_flags := qr_transport_flags s; qr_type := qr_type s;
     dns_flags := dns_flags s; qdcount := qdcount s;
     query_classtype := query_classtype s; query_opcode := query_opcode s;
     query_rcode := query_rcode s; query_ancount := query_ancount s;
     query_nscount := if c then v else query_nscount s;
     query_arcount := query_arcount s;
     query_edns_payload_size := query_edns_payload_size s;
     query_edns_version := query_edns_version s;
     query_opt_rdata := query_opt_rdata s; response_rcode := response_rcode s;
     qr_flags := qr_flags s |}.

Definition set_query_arcount_if (c : bool) (v : option Z)
    (s : QueryResponseSignature) : QueryResponseSignature :=
  {| server_address := server_address s; server_port := server_port s;
     qr_transport_flags := qr_transport_flags s; qr_type := qr_type s;
     dns_flags := dns_flags s; qdcount := qdcount s;
     query_classtype := query_classtype s; query_opcode := query_opcode s;
     query_rcode := query_rcode s; query_ancount := query_ancount s;
     query_nscount := query_nscount s;
     query_arcount := if c then v else query_arcount s;
     query_edns_payload_size := query_edns_payload_size s;
     query_edns_version := query_edns_version s;
     query_opt_rdata := query_opt_rdata s; response_rcode := response_rcode s;
     qr_flags := qr_flags s |}.

Definition set_query_edns_payload_size_if (c : bool) (v : option Z)
    (s : QueryResponseSignature) : QueryResponseSignature :=
  {| server_address := server_address s; server_port := server_port s;
     qr_transport_flags := qr_transport_flags s; qr_type := qr_type s;
     dns_flags := dns_flags s; qdcount := qdcount s;
     query_classtype := query_classtype s; query_opcode := query_opcode s;
     query_rcode := query_rcode s; query_ancount := query_ancount s;
     query_nscount := query_nscount s; query_arcount := query_arcount s;
     query_edns_payload_size := if c then v else query_edns_payload_size s;
     query_edns_version := query_edns_version s;
     query_opt_rdata := query_opt_rdata s; response_rcode := response_rcode s;
     qr_flags := qr_flags s |}.

Definition set_query_edns_version_if (c : bool) (v : option Z)
    (s : QueryResponseSignature) : QueryResponseSignature :=
  {| server_address := server_address s; server_port := server_port s;
     qr_transport_flags := qr_transport_flags s; qr_type := qr_type s;
     dns_flags := dns_flags s; qdcount := qdcount s;
     query_classtype := query_classtype s; query_opcode := query_opcode s;
     query_rcode := query_rcode s; query_ancount := query_ancount s;
     query_nscount := query_nscount s; query_arcount := query_arcount s;
     query_edns_payload_size := query_edns_payload_size s;
     query_edns_version := if c then v else query_edns_version s;
     query_opt_rdata := query_opt_rdata s; response_rcode := response_rcode s;
     qr_flags := qr_flags s |}.

Definition set_query_opt_rdata_if (c : bool) (v : option nat)
    (s : QueryResponseSignature) : QueryResponseSignature :=
  {| server_address := server_address s; server_port := server_port s;
     qr_transport_flags := qr_transport_flags s; qr_type := qr_type s;
     dns_flags := dns_flags s; qdcount := qdcount s;
     query_classtype := query_classtype s; query_opcode := query_opcode s;
     query_rcode := query_rcode s; query_ancount := query_ancount s;
     query_nscount := query_nscount s; query_arcount := query_arcount s;
     query_edns_payload_size := query_edns_payload_size s;
     query_edns_version := query_edns_version s;
     query_opt_rdata := if c then v else query_opt_rdata s;
     response_rcode := response_rcode s; qr_flags := qr_flags s |}.

Definition set_response_rcode_if (c : bool) (v : option Z)
    (s : QueryResponseSignature) : QueryResponseSignature :=
  {| server_address := server_address s; server_port := server_port s;
     qr_transport_flags := qr_transport_flags s; qr_type := qr_type s;
     dns_flags := dns_flags s; qdcount := qdcount s;
     query_classtype := query_classtype s; query_opcode := query_opcode s;
     query_rcode := query_rcode s; query_ancount := query_ancount s;
     query_nscount := query_nscount s; query_arcount := query_arcount s;
     query_edns_payload_size := query_edns_payload_size s;
     query_edns_version := query_edns_version s;
     query_opt_rdata := query_opt_rdata s;
     response_rcode := if c then v else response_rcode s;
     qr_flags := qr_flags s |}.

Definition set_qr_flags_if (c : bool) (v : option Z)
    (s : QueryResponseSignature) : QueryResponseSignature :=
  {| server_address := server_address s; server_port := server_port s;
     qr_transport_flags := qr_transport_flags s; qr_type := qr_type s;
     dns_flags := dns_flags s; qdcount := qdcount s;
     query_classtype := query_classtype s; query_opcode := query_opcode s;
     query_rcode := query_rcode s; query_ancount := query_ancount s;
     query_nscount := query_nscount s; query_arcount := query_arcount s;
     query_edns_payload_size := query_edns_payload_size s;
     query_edns_version := query_edns_version s;
     query_opt_rdata := query_opt_rdata s; response_rcode := response_rcode s;
     qr_flags := if c then v else qr_flags s |}.

Definition set_qri_qr_flags_if (c : bool) (v : Z)
    (i : QueryResponseItem) : QueryResponseItem :=
  {| qri_qr_flags := if c then v else qri_qr_flags i;
     qri_tstamp := qri_tstamp i; qri_client_address := qri_client_address i;
     qri_client_port := qri_client_port i; qri_id := qri_id i;
     qri_qname := qri_qname i; qri_signature := qri_signature i;
     qri_query_size := qri_query_size i;
     qri_response_size := qri_response_size i; qri_hoplimit := qri_hoplimit i;
     qri_response_delay := qri_response_delay i |}.

Definition set_qri_tstamp_if (c : bool) (v : option Z)
    (i : QueryResponseItem) : QueryResponseItem :=
  {| qri_qr_flags := qri_qr_flags i;
     qri_tstamp := if c then v else qri_tstamp i;
     qri_client_address := qri_client_address i;
     qri_client_port := qri_client_port i; qri_id := qri_id i;
     qri_qname := qri_qname i; qri_signature := qri_signature i;
     qri_query_size := qri_query_size i;
     qri_response_size := qri_response_size i; qri_hoplimit := qri_hoplimit i;
     qri_response_delay := qri_response_delay i |}.

Definition set_qri_client_address_if (c : bool) (v : option nat)
    (i : QueryResponseItem) : QueryResponseItem :=
  {| qri_qr_flags := qri_qr_flags i; qri_tstamp := qri_tstamp i;
     qri_client_address := if c then v else qri_client_address i;
     qri_client_port := qri_client_port i; qri_id := qri_id i;
     qri_qname := qri_qname i; qri_signature := qri_signature i;
     qri_query_size := qri_query_size i;
     qri_response_size := qri_response_size i; qri_hoplimit := qri_hoplimit i;
     qri_response_delay := qri_response_delay i |}.

Definition set_qri_client_port_if (c : bool) (v : option Z)
    (i : QueryResponseItem) : QueryResponseItem :=
  {| qri_qr_flags := qri_qr_flags i; qri_tstamp := qri_tstamp i;
     qri_client_address := qri_client_address i;
     qri_client_port := if c then v else qri_client_port i;
     qri_id := qri_id i; qri_qname := qri_qname i;
     qri_signature := qri_signature i; qri_query_size := qri_query_size i;
     qri_response_size := qri_response_size i; qri_hoplimit := qri_hoplimit i;
     qri_response_delay := qri_response_delay i |}.

Definition set_qri_id_if (c : bool) (v : option Z)
    (i : QueryResponseItem) : QueryResponseItem :=
  {| qri_qr_flags := qri_qr_flags i; qri_tstamp := qri_tstamp i;
     qri_client_address := qri_client_address i;
     qri_client_port := qri_client_port i;
     qri_id := if c then v else qri_id i; qri_qname := qri_qname i;
     qri_signature := qri_signature i; qri_query_size := qri_query_size i;
     qri_response_size := qri_response_size i; qri_hoplimit := qri_hoplimit i;
     qri_response_delay := qri_response_delay i |}.

Definition set_qri_qname_if (c : bool) (v : option nat)
    (i : QueryResponseItem) : QueryResponseItem :=
  {| qri_qr_flags := qri_qr_flags i; qri_tstamp := qri_tstamp i;
     qri_client_address := qri_client_address i;
     qri_client_port := qri_client_port i; qri_id := qri_id i;
     qri_qname := if c then v else qri_qname i;
     qri_signature := qri_signature i; qri_query_size := qri_query_size i;
     qri_response_size := qri_response_size i; qri_hoplimit := qri_hoplimit i;
     qri_response_delay := qri_response_delay i |}.

Definition set_qri_signature_if (c : bool) (v : option nat)
    (i : QueryResponseItem) : QueryResponseItem :=
  {| qri_qr_flags := qri_qr_flags i; qri_tstamp := qri_tstamp i;
     qri_client_address := qri_client_address i;
     qri_client_port := qri_client_port i; qri_id := qri_id i;
     qri_qname := qri_qname i;
     qri_signature := if c then v else qri_signature i;
     qri_query_size := qri_query_size i;
     qri_response_size := qri_response_size i; qri_hoplimit := qri_hoplimit i;
     qri_response_delay := qri_response_delay i |}.

Definition set_qri_query_size_if (c : bool) (v : option Z)
    (i : QueryResponseItem) : QueryResponseItem :=
  {| qri_qr_flags := qri_qr_flags i; qri_tstamp := qri_tstamp i;
     qri_client_address := qri_client_address i;
     qri_client_port := qri_client_port i; qri_id := qri_id i;
     qri_qname := qri_qname i; qri_signature := qri_signature i;
     qri_query_size := if c then v else qri_query_size i;
     qri_response_size := qri_response_size i; qri_hoplimit := qri_hoplimit i;
     qri_response_delay := qri_response_delay i |}.

Definition set_qri_response_size_if (c : bool) (v : option Z)
    (i : QueryResponseItem) : QueryResponseItem :=
  {| qri_qr_flags := qri_qr_flags i; qri_tstamp := qri_tstamp i;
     qri_client_address := qri_client_address i;
     qri_client_port := qri_client_port i; qri_id := qri_id i;
     qri_qname := qri_qname i; qri_signature := qri_signature i;
     qri_query_size := qri_query_size i;
     qri_response_size := if c then v else qri_response_size i;
     qri_hoplimit := qri_hoplimit i;
     qri_response_delay := qri_response_delay i |}.

Definition set_qri_hoplimit_if (c : bool) (v : option Z)
    (i : QueryResponseItem) : QueryResponseItem :=
  {| qri_qr_flags := qri_qr_flags i; qri_tstamp := qri_tstamp i;
     qri_client_address := qri_client_address i;
     qri_client_port := qri_client_port i; qri_id := qri_id i;
     qri_qname := qri_qname i; qri_signature := qri_signature i;
     qri_query_size := qri_query_size i;
     qri_response_size := qri_response_size i;
     qri_hoplimit := if c then v else qri_hoplimit i;
     qri_response_delay := qri_response_delay i |}.

Definition set_qri_response_delay_if (c : bool) (v : option Z)
    (i : QueryResponseItem) : QueryResponseItem :=
  {| qri_qr_flags := qri_qr_flags i; qri_tstamp := qri_tstamp i;
     qri_client_address := qri_client_address i;
     qri_client_port := qri_client_port i; qri_id := qri_id i;
     qri_qname := qri_qname i; qri_signature := qri_signature i;
     qri_query_size := qri_query_size i;
     qri_response_size := qri_response_size i; qri_hoplimit := qri_hoplimit i;
     qri_response_delay := if c then v else qri_response_delay i |}.

Definition set_earliest_time_if (c : bool) (v : Z)
    (b : BlockData) : BlockData :=
  {| earliest_time := if c then v else earliest_time b;
     start_time := start_time b; end_time := end_time b;
     start_packet_statistics := start_packet_statistics b;
     last_packet_statistics := last_packet_statistics b;
     addresses := addresses b; class_types := class_types b;
     names_rdatas := names_rdatas b;
     query_response_signatures := query_response_signatures b;
     query_response_items := query_response_items b;
     address_event_counts := address_event_counts b |}.

Definition set_start_time_if (c : bool) (v : option Z)
    (b : BlockData) : BlockData :=
  {| earliest_time := earliest_time b;
     start_time := if c then v else start_time b; end_time := end_time b;
     start_packet_statistics := start_packet_statistics b;
     last_packet_statistics := last_packet_statistics b;
     addresses := addresses b; class_types := class_types b;
     names_rdatas := names_rdatas b;
     query_response_signatures := query_response_signatures b;
     query_response_items := query_response_items b;
     address_event_counts := address_event_counts b |}.

Definition set_end_time_if (c : bool) (v : option Z)
    (b : BlockData) : BlockData :=
  {| earliest_time := earliest_time b; start_time := start_time b;
     end_time := if c then v else end_time b;
     start_packet_statistics := start_packet_statistics b;
     last_packet_statistics := last_packet_statistics b;
     addresses := addresses b; class_types := class_types b;
     names_rdatas := names_rdatas b;
     query_response_signatures := query_response_signatures b;
     query_response_items := query_response_items b;
     address_event_counts := address_event_counts b |}.

Definition set_start_packet_statistics_if (c : bool) (v : PacketStatistics)
    (b : BlockData) : BlockData :=
  {| earliest_time := earliest_time b; start_time := start_time b;
     end_time := end_time b;
     start_packet_statistics := if c then v else start_packet_statistics b;
     last_packet_statistics := last_packet_statistics b;
     addresses := addresses b; class_types := class_types b;
     names_rdatas := names_rdatas b;
     query_response_signatures := query_response_signatures b;
     query_response_items := query_response_items b;
     address_event_counts := address_event_counts b |}.

Definition set_last_packet_statistics_if (c : bool) (v : PacketStatistics)
    (b : BlockData) : BlockData :=
  {| earliest_time := earliest_time b; start_time := start_time b;
     end_time := end_time b;
     start_packet_statistics := start_packet_statistics b;
     last_packet_statistics := if c then v else last_packet_statistics b;
     addresses := addresses b; class_types := class_types b;
     names_rdatas := names_rdatas b;
     query_response_signatures := query_response_signatures b;
     query_response_items := query_response_items b;
     address_event_counts := address_event_counts b |}.

Definition set_addresses_if (c : bool) (v : list byte_string)
    (b : BlockData) : BlockData :=
  {| earliest_time := earliest_time b; start_time := start_time b;
     end_time := end_time b;
     start_packet_statistics := start_packet_statistics b;
     last_packet_statistics := last_packet_statistics b;
     addresses := if c then v else addresses b; class_types := class_types b;
     names_rdatas := names_rdatas b;
     query_response_signatures := query_response_signatures b;
     query_response_items := query_response_items b;
     address_event_counts := address_event_counts b |}.

Definition set_class_types_if (c : bool) (v : list ClassType)
    (b : BlockData) : BlockData :=
  {| earliest_time := earliest_time b; start_time := start_time b;
     end_time := end_time b;
     start_packet_statistics := start_packet_statistics b;
     last_packet_statistics := last_packet_statistics b;
     addresses := addresses b; class_types := if c then v else class_types b;
     names_rdatas := names_rdatas b;
     query_response_signatures := query_response_signatures b;
     query_response_items := query_response_items b;
     address_event_counts := address_event_counts b |}.

Definition set_names_rdatas_if (c : bool) (v : list byte_string)
    (b : BlockData) : BlockData :=
  {| earliest_time := earliest_time b; start_time := start_time b;
     end_time := end_time b;
     start_packet_statistics := start_packet_statistics b;
     last_packet_statistics := last_packet_statistics b;
     addresses := addresses b; class_types := class_types b;
     names_rdatas := if c then v else names_rdatas b;
     query_response_signatures := query_response_signatures b;
     query_response_items := query_response_items b;
     address_event_counts := address_event_counts b |}.

Definition set_query_response_signatures_if (c : bool) (v : list QueryResponseSignature)
    (b : BlockData) : BlockData :=
  {| earliest_time := earliest_time b; start_time := start_time b;
     end_time := end_time b;
     start_packet_statistics := start_packet_statistics b;
     last_packet_statistics := last_packet_statistics b;
     addresses := addresses b; class_types := class_types b;
     names_rdatas := names_rdatas b;
     query_response_signatures := if c then v else query_response_signatures b;
     query_response_items := query_response_items b;
     address_event_counts := address_event_counts b |}.

Definition set_query_response_items_if (c : bool) (v : list QueryResponseItem)
    (b : BlockData) : BlockData :=
  {| earliest_time := earliest_time b; start_time := start_time b;
     end_time := end_time b;
     start_packet_statistics := start_packet_statistics b;
     last_packet_statistics := last_packet_statistics b;
     addresses := addresses b; class_types := class_types b;
     names_rdatas := names_rdatas b;
     query_response_signatures := query_response_signatures b;
     query_response_items := if c then v else query_response_items b;
     address_event_counts := address_event_counts b |}.

Definition set_address_event_counts_if (c : bool)
    (v : list (AddressEventKey * Z))
    (b : BlockData) : BlockData :=
  {| earliest_time := earliest_time b; start_time := start_time b;
     end_time := end_time b;
     start_packet_statistics := start_packet_statistics b;
     last_packet_statistics := last_packet_statistics b;
     addresses := addresses b; class_types := class_types b;
     names_rdatas := names_rdatas b;
     query_response_signatures := query_response_signatures b;
     query_response_items := query_response_items b;
     address_event_counts := if c then v else address_event_counts b |}.

(** *** Intern tables

    Modelled from the spec: the intern tables of [BlockData] (section 4.2).
    A table is the vector of its values in insertion order; [add] returns the
    index of an equal value already there, else appends the value and
    returns the fresh index. Indices count from 0, as positions of the
    vector. *)
Section InternTable.
Context {T : Type} `{EqDecision T}.

Fixpoint find_index (v : T) (tbl : list T) : option nat :=
  match tbl with
  | [] => None
  | x :: tbl' =>
      if decide (x = v) then Some 0%nat else S <$> find_index v tbl'
  end.

Definition intern_index (v : T) (tbl : list T) : nat :=
  match find_index v tbl with Some i => i | None => length tbl end.

Definition intern_table (v : T) (tbl : list T) : list T :=
  match find_index v tbl with Some _ => tbl | None => tbl ++ [v] end.

End InternTable.

(** Modelled from the spec: the mutation API of [BlockData] (section 4.3).
    [add_x v b] is the call [b.add_x(v)]: the index it returns and the block
    after it. [add_x_if c v b] is the block after a call made under the
    guard [c]. *)
Definition add_address_if (c : bool) (a : byte_string) (b : BlockData) :
    BlockData :=
  set_addresses_if c (intern_table a (addresses b)) b.

Definition add_address (a : byte_string) (b : BlockData) : nat * BlockData :=
  (intern_index a (addresses b), add_address_if true a b).

Definition add_classtype_if (c : bool) (ct : ClassType) (b : BlockData) :
    BlockData :=
  set_class_types_if c (intern_table ct (class_types b)) b.

Definition add_classtype (ct : ClassType) (b : BlockData) : nat * BlockData :=
  (intern_index ct (class_types b), add_classtype_if true ct b).

Definition add_name_rdata_if (c : bool) (n : byte_string) (b : BlockData) :
    BlockData :=
  set_names_rdatas_if c (intern_table n (names_rdatas b)) b.

Definition add_name_rdata (n : byte_string) (b : BlockData) : nat * BlockData :=
  (intern_index n (names_rdatas b), add_name_rdata_if true n b).

Definition add_query_response_signature_if (c : bool)
    (qs : QueryResponseSignature) (b : BlockData) : BlockData :=
  set_query_response_signatures_if c
    (intern_table qs (query_response_signatures b)) b.

Definition add_query_response_signature (qs : QueryResponseSignature)
    (b : BlockData) : nat * BlockData :=
  (intern_index qs (query_response_signatures b),
   add_query_response_signature_if true qs b).

(** Modelled from the spec: [count_address_event] increments the count of
    the event in the block's multiset of address events (section 4.3). Equal
    events share one entry and an event not seen yet gets an entry with
    count 1 (section 8, E5); the entry holds the index of the address in the
    address table (section 6), so the address is interned first. The
    entries stand in the order of their first event. *)
Fixpoint increment_count (key : AddressEventKey)
    (counts : list (AddressEventKey * Z)) : list (AddressEventKey * Z) :=
  match counts with
  | [] => [(key, 1)]
  | (k, n) :: counts' =>
      if decide (k = key) then (k, n + 1) :: counts'
      else (k, n) :: increment_count key counts'
  end.

Definition count_address_event (type code : Z) (address : byte_string)
    (ipv6 : bool) (b : BlockData) : BlockData :=
  let r := add_address address b in
  set_address_event_counts_if true
    (increment_count
       {| ae_type := type; ae_code := code; ae_address_index := r.1;
          ae_is_ipv6 := ipv6 |}
       (address_event_counts r.2)) r.2.

(** Modelled from the spec: a [BlockData] is created empty (section 3,
    lifecycle): no time bound set, empty tables. The spec does not say what
    statistics a new block holds; they are the value-initialised, zero
    counters here. *)
Definition new_BlockData : BlockData :=
  {| earliest_time := 0; start_time := None; end_time := None;
     start_packet_statistics := default_statistics;
     last_packet_statistics := default_statistics;
     addresses := []; class_types := []; names_rdatas := [];
     query_response_signatures := []; query_response_items := [];
     address_event_counts := [] |}.

(** Modelled from the spec: [BlockData::clear()] drops all tables and the
    item list (section 4.3), leaving the block as created (section 3: a
    block is created empty after every flush). *)
Definition clear (b : BlockData) : BlockData := new_BlockData.

(** Modelled from the spec: [BlockData::is_full()] is true iff
    [query_response_items.size() >= max_block_items] (section 4.3). *)
Definition is_full (config : Configuration) (b : BlockData) : bool :=
  max_block_items config <=? Z.of_nat (length (query_response_items b)).

(** Modelled from the spec: the bits of [qr_flags] (section 6). *)
Definition HAS_QUERY : Z := Z.shiftl 1 0.
Definition HAS_RESPONSE : Z := Z.shiftl 1 1.
Definition QUERY_HAS_OPT : Z := Z.shiftl 1 2.
Definition RESPONSE_HAS_OPT : Z := Z.shiftl 1 3.
Definition QUERY_HAS_NO_QUESTION : Z := Z.shiftl 1 4.
Definition RESPONSE_HAS_NO_QUESTION : Z := Z.shiftl 1 5.

(** Modelled from the spec: [CaptureDNS::Rcode(x)], the conversion to the
    rcode enumeration of capturedns.hpp. The spec reads rcodes as numbers
    (section 4.5); the conversion keeps the number. *)
Definition Rcode (x : Z) : Z := x.

(** ** The encoder

    Modelled from the spec: the CBOR encoder [enc_] (cborencoder.hpp). Its
    state is whether a file is open and the calls made on it so far, oldest
    first; [open] and [close] switch [is_open]. What a call puts on the wire
    is not modelled, only which calls are made and in which order. *)

Inductive FilePreambleField :=
| major_format_version
| minor_format_version
| private_version
| block_parameters.

Inductive EncoderCall :=
| Open                                        (* open(filename_, ...)      *)
| Close                                       (* close()                   *)
| WriteArrayHeader (len : option Z)           (* None: indefinite length   *)
| WriteMapHeader (len : option Z)
| WriteFileFormatId                           (* write(FILE_FORMAT_ID)     *)
| WritePreambleIndex (f : FilePreambleField)  (* write(<f>_index)          *)
| WriteFormatVersion (f : FilePreambleField)  (* write(FILE_FORMAT_10_<f>) *)
| WriteBlockParameters                        (* block_parameters.writeCbor *)
| WriteBlock (b : BlockData)                  (* data_->writeCbor          *)
| WriteBreak.

Record Encoder := {
  is_open : bool;
  calls : list EncoderCall
}.

Definition enc_call (c : EncoderCall) (e : Encoder) : Encoder :=
  {| is_open := is_open e; calls := calls e ++ [c] |}.

Definition enc_open (e : Encoder) : Encoder :=
  {| is_open := true; calls := calls e ++ [Open] |}.

Definition enc_close (e : Encoder) : Encoder :=
  {| is_open := false; calls := calls e ++ [Close] |}.

Definition new_Encoder : Encoder := {| is_open := false; calls := [] |}.

(** The blocks serialised so far, in order. *)
Definition flushed_blocks (e : Encoder) : list BlockData :=
  omap (fun c => match c with WriteBlock b => Some b | _ => None end) (calls e).

(** The files of a log, in order: for each [Open], the calls up to the next
    [Close] (or up to the next [Open], should a file be opened over one that
    is still open). [cur] is the content of the file now open, if any; the
    file still open at the end of the log is not listed, [open_file] gives
    it. *)
Fixpoint files_from (cur : option (list EncoderCall))
    (log : list EncoderCall) : list (list EncoderCall) :=
  match log with
  | [] => []
  | Open :: log =>
      match cur with
      | Some f => f :: files_from (Some []) log
      | None => files_from (Some []) log
      end
  | Close :: log =>
      match cur with
      | Some f => f :: files_from None log
      | None => files_from None log
      end
  | c :: log => files_from ((fun f => f ++ [c]) <$> cur) log
  end.

(** The content of the file left open at the end of a log, if any. *)
Fixpoint open_file (cur : option (list EncoderCall))
    (log : list EncoderCall) : option (list EncoderCall) :=
  match log with
  | [] => cur
  | Open :: log => open_file (Some []) log
  | Close :: log => open_file None log
  | c :: log => open_file ((fun f => f ++ [c]) <$> cur) log
  end.

Definition closed_files (e : Encoder) : list (list EncoderCall) :=
  files_from None (calls e).

(** The calls of [writeFileHeader] before it starts the array of blocks:
    the file type id and the file preamble. *)
Definition file_preamble : list EncoderCall :=
  [WriteArrayHeader (Some 3); WriteFileFormatId; WriteMapHeader (Some 4);
   WritePreambleIndex major_format_version;
   WriteFormatVersion major_format_version;
   WritePreambleIndex minor_format_version;
   WriteFormatVersion minor_format_version;
   WritePreambleIndex private_version;
   WriteFormatVersion private_version;
   WritePreambleIndex block_parameters;
   WriteArrayHeader (Some 1); WriteBlockParameters].

(** A whole file holding the blocks [bs]: the preamble, the header of the
    indefinite-length array of blocks (byte 0x9f on the wire), one map per
    block, and the break (byte 0xff). *)
Definition file_of_blocks (bs : list BlockData) : list EncoderCall :=
  file_preamble ++ [WriteArrayHeader None] ++ (WriteBlock <$> bs)
  ++ [WriteBreak].

(** The file-blocks section of a file: what follows the preamble. *)
Definition file_blocks (f : list EncoderCall) : list EncoderCall :=
  drop (length file_preamble) f.

(** ** The writer *)

(** The data members of [BlockCborWriter] that the modelled member functions
    use. The scratch lists and pointers of the extended groups ([ext_rr_],
    [ext_group_], [extra_questions_] and the like) are left out together
    with the member functions that fill them; those touch neither the
    encoder, nor the statistics, nor the times of the block. *)
Record BlockCborWriter := {
  config_ : Configuration;
  enc_ : Encoder;
  live_ : bool;
  data_ : BlockData;
  query_response_ : QueryResponseItem;
  last_end_block_statistics_ : PacketStatistics;
  need_start_block_stats_ : bool
}.

Definition set_enc_ (e : Encoder) (w : BlockCborWriter) : BlockCborWriter :=
  {| config_ := config_ w; enc_ := e; live_ := live_ w; data_ := data_ w;
     query_response_ := query_response_ w;
     last_end_block_statistics_ := last_end_block_statistics_ w;
     need_start_block_stats_ := need_start_block_stats_ w |}.

Definition set_data_ (b : BlockData) (w : BlockCborWriter) : BlockCborWriter :=
  {| config_ := config_ w; enc_ := enc_ w; live_ := live_ w; data_ := b;
     query_response_ := query_response_ w;
     last_end_block_statistics_ := last_end_block_statistics_ w;
     need_start_block_stats_ := need_start_block_stats_ w |}.

Definition set_query_response_ (i : QueryResponseItem) (w : BlockCborWriter) :
    BlockCborWriter :=
  {| config_ := config_ w; enc_ := enc_ w; live_ := live_ w; data_ := data_ w;
     query_response_ := i;
     last_end_block_statistics_ := last_end_block_statistics_ w;
     need_start_block_stats_ := need_start_block_stats_ w |}.

Definition set_last_end_block_statistics_ (s : PacketStatistics)
    (w : BlockCborWriter) : BlockCborWriter :=
  {| config_ := config_ w; enc_ := enc_ w; live_ := live_ w; data_ := data_ w;
     query_response_ := query_response_ w;
     last_end_block_statistics_ := s;
     need_start_block_stats_ := need_start_block_stats_ w |}.

Definition set_need_start_block_stats_ (f : bool) (w : BlockCborWriter) :
    BlockCborWriter :=
  {| config_ := config_ w; enc_ := enc_ w; live_ := live_ w; data_ := data_ w;
     query_response_ := query_response_ w;
     last_end_block_statistics_ := last_end_block_statistics_ w;
     need_start_block_stats_ := f |}.

(** The constructor, lines 46-64. [now] is the reading of the system clock,
    taken only when [live]. *)
Definition new_BlockCborWriter (config : Configuration) (live : bool)
    (now : Z) : BlockCborWriter :=
  {| config_ := config;
     enc_ := new_Encoder;
     live_ := live;
     data_ := set_start_time_if live (Some now) new_BlockData;
     query_response_ := empty_item;
     last_end_block_statistics_ := default_statistics;
     need_start_block_stats_ := true |}.

(** [updateBlockStats], lines 400-408. *)
Definition updateBlockStats (w : BlockCborWriter) (stats : PacketStatistics) :
    BlockCborWriter :=
  let w :=
    set_data_
      (set_start_packet_statistics_if (need_start_block_stats_ w)
         (last_end_block_statistics_ w) (data_ w)) w in
  let w := set_need_start_block_stats_ false w in
  set_last_end_block_statistics_ stats w.

(** [writeBlock], lines 392-398. *)
Definition writeBlock (w : BlockCborWriter) : BlockCborWriter :=
  let w :=
    set_data_
      (set_last_packet_statistics_if true (last_end_block_statistics_ w)
         (data_ w)) w in
  let w := set_enc_ (enc_call (WriteBlock (data_ w)) (enc_ w)) w in
  let w := set_data_ (clear (data_ w)) w in
  set_need_start_block_stats_ true w.

(** [writeFileFooter], lines 387-390. *)
Definition writeFileFooter (w : BlockCborWriter) : BlockCborWriter :=
  set_enc_ (enc_call WriteBreak (enc_ w)) w.

(** [writeBlockParameters], lines 376-385. *)
Definition writeBlockParameters (w : BlockCborWriter) : BlockCborWriter :=
  let w := set_enc_ (enc_call (WriteArrayHeader (Some 1)) (enc_ w)) w in
  set_enc_ (enc_call WriteBlockParameters (enc_ w)) w.

(** [writeFileHeader], lines 350-374. *)
Definition writeFileHeader (w : BlockCborWriter) : BlockCborWriter :=
  let w := set_enc_ (enc_call (WriteArrayHeader (Some 3)) (enc_ w)) w in
  let w := set_enc_ (enc_call WriteFileFormatId (enc_ w)) w in
  (* File preamble. *)
  let w := set_enc_ (enc_call (WriteMapHeader (Some 4)) (enc_ w)) w in
  let w := set_enc_ (enc_call (WritePreambleIndex major_format_version) (enc_ w)) w in
  let w := set_enc_ (enc_call (WriteFormatVersion major_format_version) (enc_ w)) w in
  let w := set_enc_ (enc_call (WritePreambleIndex minor_format_version) (enc_ w)) w in
  let w := set_enc_ (enc_call (WriteFormatVersion minor_format_version) (enc_ w)) w in
  let w := set_enc_ (enc_call (WritePreambleIndex private_version) (enc_ w)) w in
  let w := set_enc_ (enc_call (WriteFormatVersion private_version) (enc_ w)) w in
  let w := set_enc_ (enc_call (WritePreambleIndex block_parameters) (enc_ w)) w in
  let w := writeBlockParameters w in
  (* Start of file blocks. *)
  set_enc_ (enc_call (WriteArrayHeader None) (enc_ w)) w.

(** [close], lines 71-81. [now] is the reading of the system clock. *)
Definition close (w : BlockCborWriter) (now : Z) : BlockCborWriter :=
  if is_open (enc_ w)
  then
    let w :=
      set_data_
        (set_end_time_if (live_ w && negb (engaged (end_time (data_ w))))
           (Some now) (data_ w)) w in
    let w := writeBlock w in
    let w := writeFileFooter w in
    set_enc_ (enc_close (enc_ w)) w
  else w.

(** The destructor, lines 66-69. *)
Definition destroy (w : BlockCborWriter) (now : Z) : BlockCborWriter :=
  close w now.

(** An [AddressEvent] as [writeAE] reads it. *)
Record AddressEvent := {
  event_type : Z;
  event_code : Z;
  event_address : IPAddress
}.

(** [writeAE], lines 83-92. *)
Definition writeAE (w : BlockCborWriter) (ae : AddressEvent)
    (stats : PacketStatistics) : BlockCborWriter :=
  let w :=
    if negb (excl_address_events (exclude_hints (config_ w)))
    then set_data_
           (count_address_event (event_type ae) (event_code ae)
              (addr_to_string (event_address ae) (config_ w) true)
              (is_ipv6 (event_address ae)) (data_ w)) w
    else w in
  updateBlockStats w stats.

(** [checkForRotation], lines 94-112. [bytes_written] is what
    [enc_->bytes_written()] returns and [need_rotate] what
    [output_pattern_.need_rotate(timestamp, config_)] returns; the file name
    and the log line are not modelled. *)
Definition checkForRotation (w : BlockCborWriter) (timestamp : Z)
    (bytes_written : Z) (need_rotate : bool) (now : Z) : BlockCborWriter :=
  if negb (is_open (enc_ w))
     || ((0 <? max_output_size (config_ w))
         && (max_output_size (config_ w) <=? bytes_written))
     || need_rotate
  then
    let w :=
      if is_open (enc_ w)
      then
        let w := set_data_ (set_end_time_if true (Some timestamp) (data_ w)) w in
        let w := close w now in
        set_data_ (set_start_time_if true (Some timestamp) (data_ w)) w
      else w in
    let w := set_enc_ (enc_open (enc_ w)) w in
    writeFileHeader w
  else w.

(** [startRecord], lines 114-125. [clear_in_progress_extra_info()] resets
    the scratch lists of the extended groups, which are outside the model. *)
Definition startRecord (w : BlockCborWriter) (qr : QueryResponse) :
    BlockCborWriter :=
  let w :=
    if is_full (config_ w) (data_ w)
    then
      let d := leading_message qr in
      let w := set_data_ (set_end_time_if true (Some (timestamp d)) (data_ w)) w in
      let w := writeBlock w in
      set_data_ (set_start_time_if true (Some (timestamp d)) (data_ w)) w
    else w in
  set_query_response_ empty_item w.

(** [endRecord], lines 127-131. *)
Definition endRecord (w : BlockCborWriter) : BlockCborWriter :=
  let w :=
    set_data_
      (set_query_response_items_if true
         (query_response_items (data_ w) ++ [query_response_ w]) (data_ w)) w in
  set_query_response_ empty_item w.

Section WriteBasic.

(** [block_cbor::transport_flags], [block_cbor::transaction_type] and
    [block_cbor::dns_flags] are defined outside this file's source; each
    computes a number from the query/response pair, and is a parameter
    here. *)
Variables transport_flags transaction_type block_dns_flags :
  QueryResponse -> Z.

(** The working state of [writeBasic]: the block, the item [qri] and the
    signature [qs]. *)
Definition BasicState : Type :=
  BlockData * QueryResponseItem * QueryResponseSignature.

(** Lines 181-195, "Get first query info", for the leading message [d]. *)
Definition first_query_info (exclude : HintsExcluded) (d : DNSMessage)
    (st : BasicState) : BasicState :=
  let '(data, qri, qs) := st in
  match queries (dns d) with
  | [] =>
      let qri :=
        set_qri_qr_flags_if true
          (Z.lor (qri_qr_flags qri) QUERY_HAS_NO_QUESTION) qri in
      (data, qri, qs)
  | query :: _ =>
      let ct := {| qtype := query_type query; qclass := query_class query |} in
      let c := negb (excl_query_class_type exclude) in
      let qs := set_query_classtype_if c (Some (add_classtype ct data).1) qs in
      let data := add_classtype_if c ct data in
      let c := negb (excl_query_name exclude) in
      let qri := set_qri_qname_if c (Some (add_name_rdata (dname query) data).1) qri in
      let data := add_name_rdata_if c (dname query) data in
      (data, qri, qs)
  end.

(** Lines 197-231, the block under [if ( qr->has_query() )], for the query
    [q]. *)
Definition query_info (exclude : HintsExcluded) (q : DNSMessage)
    (st : BasicState) : BasicState :=
  let '(data, qri, qs) := st in
  let qri := set_qri_qr_flags_if true (Z.lor (qri_qr_flags qri) HAS_QUERY) qri in
  let qri :=
    set_qri_query_size_if
      (negb (excl_query_size exclude) && engaged (wire_size q))
      (Some (deref 0 (wire_size q))) qri in
  let qri :=
    set_qri_hoplimit_if
      (negb (excl_client_hoplimit exclude) && engaged (hoplimit q))
      (Some (deref 0 (hoplimit q))) qri in
  let qs :=
    set_query_opcode_if (negb (excl_query_opcode exclude))
      (Some (opcode (dns q))) qs in
  let qs :=
    set_query_rcode_if (negb (excl_query_rcode exclude))
      (Some (Rcode (rcode (dns q)))) qs in
  let qs :=
    set_query_ancount_if (negb (excl_query_ancount exclude))
      (Some (answers_count (dns q))) qs in
  let qs :=
    set_query_nscount_if (negb (excl_query_arcount exclude))
      (Some (authority_count (dns q))) qs in
  let qs :=
    set_query_arcount_if (negb (excl_query_nscount exclude))
      (Some (additional_count (dns q))) qs in
  match edns0 (dns q) with
  | Some edns0 =>
      let qs :=
        set_query_rcode_if (negb (excl_query_rcode exclude))
          (Some (Rcode (deref 0 (query_rcode qs)
                        + Z.shiftl (extended_rcode edns0) 4))) qs in
      let qri :=
        set_qri_qr_flags_if true (Z.lor (qri_qr_flags qri) QUERY_HAS_OPT) qri in
      let qs :=
        set_query_edns_payload_size_if (negb (excl_query_udp_size exclude))
          (Some (udp_payload_size edns0)) qs in
      let qs :=
        set_query_edns_version_if (negb (excl_query_edns_version exclude))
          (Some (edns_version edns0)) qs in
      let c := negb (excl_query_opt_rdata exclude) in
      let qs :=
        set_query_opt_rdata_if c
          (Some (add_name_rdata (opt_rr_data edns0) data).1) qs in
      let data := add_name_rdata_if c (opt_rr_data edns0) data in
      (data, qri, qs)
  | None => (data, qri, qs)
  end.

(** Lines 233-256, the block under [if ( qr->has_response() )], for the
    response [r]. *)
Definition response_info (exclude : HintsExcluded) (r : DNSMessage)
    (st : BasicState) : BasicState :=
  let '(data, qri, qs) := st in
  let qri :=
    set_qri_qr_flags_if true (Z.lor (qri_qr_flags qri) HAS_RESPONSE) qri in
  let qri :=
    set_qri_response_size_if
      (negb (excl_response_size exclude) && engaged (wire_size r))
      (Some (deref 0 (wire_size r))) qri in
  (* Set from response if not already set. *)
  let qs :=
    set_query_opcode_if
      (negb (excl_query_opcode exclude) && negb (engaged (query_opcode qs)))
      (Some (opcode (dns r))) qs in
  let qs :=
    set_response_rcode_if (negb (excl_response_rcode exclude))
      (Some (Rcode (rcode (dns r)))) qs in
  let '(qri, qs) :=
    match edns0 (dns r) with
    | Some edns0 =>
        let qs :=
          set_response_rcode_if (negb (excl_response_rcode exclude))
            (Some (Rcode (deref 0 (response_rcode qs)
                          + Z.shiftl (extended_rcode edns0) 4))) qs in
        let qri :=
          set_qri_qr_flags_if true
            (Z.lor (qri_qr_flags qri) RESPONSE_HAS_OPT) qri in
        (qri, qs)
    | None => (qri, qs)
    end in
  let qri :=
    set_qri_qr_flags_if (questions_count (dns r) =? 0)
      (Z.lor (qri_qr_flags qri) RESPONSE_HAS_NO_QUESTION) qri in
  (data, qri, qs).

(** Lines 145-155: the time bounds of the block, for the leading message
    [d]. *)
Definition block_times (config : Configuration) (d : DNSMessage)
    (data : BlockData) : BlockData :=
  let data :=
    set_earliest_time_if
      ((length (query_response_items data) =? 0)%nat
       || (timestamp d <? earliest_time data))
      (timestamp d) data in
  let data :=
    set_end_time_if
      (start_end_times_from_data config
       && (negb (engaged (end_time data))
           || (deref 0 (end_time data) <? timestamp d)))
      (Some (timestamp d)) data in
  set_start_time_if
    (start_end_times_from_data config
     && (negb (engaged (start_time data))
         || (timestamp d <? deref 0 (start_time data))))
    (Some (timestamp d)) data.

(** Lines 157-179, "Basic query signature info" and "Basic query/response
    info", for the leading message [d]. *)
Definition basic_info (config : Configuration) (qr : QueryResponse)
    (d : DNSMessage) (st : BasicState) : BasicState :=
  let '(data, qri, qs) := st in
  let exclude := exclude_hints config in
  (* Basic query signature info. *)
  let c := negb (excl_server_address exclude) && engaged (serverIP d) in
  let a := addr_to_string (deref no_address (serverIP d)) config false in
  let qs := set_server_address_if c (Some (add_address a data).1) qs in
  let data := add_address_if c a data in
  let qs :=
    set_server_port_if
      (negb (excl_server_port exclude) && engaged (serverPort d))
      (Some (deref 0 (serverPort d))) qs in
  let qs :=
    set_qr_transport_flags_if (negb (excl_transport exclude))
      (Some (transport_flags qr)) qs in
  let qs :=
    set_qr_type_if (negb (excl_transaction_type exclude))
      (Some (transaction_type qr)) qs in
  let qs :=
    set_dns_flags_if (negb (excl_dns_flags exclude))
      (Some (block_dns_flags qr)) qs in
  (* Basic query/response info. *)
  let qri :=
    set_qri_tstamp_if (negb (excl_timestamp exclude))
      (Some (timestamp d)) qri in
  let c := negb (excl_client_address exclude) && engaged (clientIP d) in
  let a := addr_to_string (deref no_address (clientIP d)) config true in
  let qri := set_qri_client_address_if c (Some (add_address a data).1) qri in
  let data := add_address_if c a data in
  let qri :=
    set_qri_client_port_if
      (negb (excl_client_port exclude) && engaged (clientPort d))
      (Some (deref 0 (clientPort d))) qri in
  let qri :=
    set_qri_id_if (negb (excl_transaction_id exclude))
      (Some (dns_id (dns d))) qri in
  let qs :=
    set_qdcount_if (negb (excl_query_qdcount exclude))
      (Some (questions_count (dns d))) qs in
  (data, qri, qs).

(** Lines 258-264: the response delay, then the flags and the interning of
    the signature. *)
Definition delay_and_signature (exclude : HintsExcluded)
    (qr : QueryResponse) (st : BasicState) : BasicState :=
  let '(data, qri, qs) := st in
  let qri :=
    match qr with
    | QueryAndResponse q r =>
        set_qri_response_delay_if (negb (excl_response_delay exclude))
          (Some (timestamp r - timestamp q)) qri
    | _ => qri
    end in
  let qs :=
    set_qr_flags_if (negb (excl_qr_flags exclude))
      (Some (qri_qr_flags qri)) qs in
  let c := negb (excl_qr_signature exclude) in
  let qri :=
    set_qri_signature_if c
      (Some (add_query_response_signature qs data).1) qri in
  let data := add_query_response_signature_if c qs data in
  (data, qri, qs).

(** [writeBasic], lines 133-265, returning with the writer the signature
    [qs] it built (a local of the source, interned on the last line). The
    body runs the parts above in the order of the source. *)
Definition writeBasic_qs (w : BlockCborWriter) (qr : QueryResponse)
    (stats : PacketStatistics) : BlockCborWriter * QueryResponseSignature :=
  let d := leading_message qr in
  let qri := query_response_ w in
  let qs := empty_signature in
  let config := config_ w in
  let exclude := exclude_hints config in
  let qri := set_qri_qr_flags_if true 0 qri in
  let w := updateBlockStats w stats in
  let data := block_times config d (data_ w) in
  let st := basic_info config qr d (data, qri, qs) in
  let st := first_query_info exclude d st in
  let st :=
    match query qr with
    | Some q => query_info exclude q st
    | None => st
    end in
  let st :=
    match response qr with
    | Some r => response_info exclude r st
    | None => st
    end in
  let st := delay_and_signature exclude qr st in
  (set_query_response_ st.1.2 (set_data_ st.1.1 w), st.2).

Definition writeBasic (w : BlockCborWriter) (qr : QueryResponse)
    (stats : PacketStatistics) : BlockCborWriter :=
  (writeBasic_qs w qr stats).1.

(** The signature [writeBasic] builds for [qr]. *)
Definition signature_of (w : BlockCborWriter) (qr : QueryResponse)
    (stats : PacketStatistics) : QueryResponseSignature :=
  (writeBasic_qs w qr stats).2.

(** The in-progress item and the block that [writeBasic] leaves. *)
Definition item_of (w : BlockCborWriter) (qr : QueryResponse)
    (stats : PacketStatistics) : QueryResponseItem :=
  query_response_ (writeBasic w qr stats).

Definition block_of (w : BlockCborWriter) (qr : QueryResponse)
    (stats : PacketStatistics) : BlockData :=
  data_ (writeBasic w qr stats).

(** ** Calls on the writer, and their sequences *)

Inductive Call :=
| CheckForRotation (timestamp bytes_written : Z) (need_rotate : bool) (now : Z)
| StartRecord (qr : QueryResponse)
| WriteBasic (qr : QueryResponse) (stats : PacketStatistics)
| EndRecord
| WriteAE (ae : AddressEvent) (stats : PacketStatistics)
| CloseFile (now : Z).

Definition call (w : BlockCborWriter) (c : Call) : BlockCborWriter :=
  match c with
  | CheckForRotation ts bytes need now => checkForRotation w ts bytes need now
  | StartRecord qr => startRecord w qr
  | WriteBasic qr stats => writeBasic w qr stats
  | EndRecord => endRecord w
  | WriteAE ae stats => writeAE w ae stats
  | CloseFile now => close w now
  end.

Definition run (w : BlockCborWriter) (cs : list Call) : BlockCborWriter :=
  foldl call w cs.

(** The calls that reach [updateBlockStats]. *)
Definition updates_statistics (c : Call) : Prop :=
  match c with
  | WriteBasic _ _ | WriteAE _ _ => True
  | _ => False
  end.

(** [writeBasic] then [endRecord] for each transaction of a list: the
    records go into the current block, none is flushed. *)
Definition add_records (w : BlockCborWriter)
    (rs : list (QueryResponse * PacketStatistics)) : BlockCborWriter :=
  foldl (fun w r => endRecord (writeBasic w r.1 r.2)) w rs.

(** The leading timestamps of a list of transactions. *)
Definition leading_timestamps
    (rs : list (QueryResponse * PacketStatistics)) : list Z :=
  (fun r => timestamp (leading_message r.1)) <$> rs.

End WriteBasic.

(** ** The extended groups (lines 267-348)

    The functions that record the questions and the resource records of a
    message beyond what [writeBasic] keeps. They use members of the writer
    that the functions above leave alone: the optional extra-info structures
    of the record in progress, the pointers [ext_group_] and [ext_rr_], the
    four scratch lists, and four more tables of the block. *)

(** [CaptureDNS::resource], as far as [writeResourceRecord] reads it. *)
Record DNSResource := {
  res_dname : byte_string;
  res_query_type : Z;
  res_query_class : Z;
  res_ttl : Z;
  res_data : byte_string
}.

(** Modelled from the spec: [block_cbor::Question], [ResourceRecord] and
    [QueryResponseExtraInfo] (section 3); every member is optional. *)
Record Question := {
  question_qname : option nat;
  question_classtype : option nat
}.

Record ResourceRecord := {
  rr_name : option nat;
  rr_classtype : option nat;
  rr_ttl : option Z;
  rr_rdata : option nat
}.

Record QueryResponseExtraInfo := {
  questions_list : option nat;
  answers_list : option nat;
  authority_list : option nat;
  additional_list : option nat
}.

(** [make_unique<block_cbor::QueryResponseExtraInfo>()]. *)
Definition empty_extra_info : QueryResponseExtraInfo :=
  {| questions_list := None; answers_list := None; authority_list := None;
     additional_list := None |}.

#[global] Instance Question_eq_dec : EqDecision Question.
Proof. solve_decision. Defined.

#[global] Instance ResourceRecord_eq_dec : EqDecision ResourceRecord.
Proof. solve_decision. Defined.

#[global] Instance QueryResponseExtraInfo_eq_dec :
  EqDecision QueryResponseExtraInfo.
Proof. solve_decision. Defined.

(** What [ext_group_] points at: the extra info of the query or of the
    response of the record in progress. *)
Inductive ExtraInfoSide := QuerySide | ResponseSide.

(** What [ext_rr_] points at: one of the three scratch lists of resource
    records. *)
Inductive RRSection := ExtraAnswers | ExtraAuthority | ExtraAdditional.

#[global] Instance ExtraInfoSide_eq_dec : EqDecision ExtraInfoSide.
Proof. solve_decision. Defined.

#[global] Instance RRSection_eq_dec : EqDecision RRSection.
Proof. solve_decision. Defined.

(** The members of the writer that the extended-group functions read and
    write. [eg_data] is [*data_] as far as [BlockData] above goes; the next
    four members are the other tables of [*data_]; the two extra infos are
    those of [query_response_]. A null pointer is [None]. *)
Record ExtendedWriter := {
  eg_config : Configuration;
  eg_data : BlockData;
  eg_questions : list Question;
  eg_resource_records : list ResourceRecord;
  eg_questions_lists : list (list nat);
  eg_rrs_lists : list (list nat);
  eg_query_extra_info : option QueryResponseExtraInfo;
  eg_response_extra_info : option QueryResponseExtraInfo;
  ext_group_ : option ExtraInfoSide;
  ext_rr_ : option RRSection;
  extra_questions_ : list nat;
  extra_answers_ : list nat;
  extra_authority_ : list nat;
  extra_additional_ : list nat
}.

Definition set_eg_data (v : BlockData)
    (g : ExtendedWriter) : ExtendedWriter :=
  {| eg_config := eg_config g; eg_data := v; eg_questions := eg_questions g;
     eg_resource_records := eg_resource_records g;
     eg_questions_lists := eg_questions_lists g;
     eg_rrs_lists := eg_rrs_lists g;
     eg_query_extra_info := eg_query_extra_info g;
     eg_response_extra_info := eg_response_extra_info g;
     ext_group_ := ext_group_ g; ext_rr_ := ext_rr_ g;
     extra_questions_ := extra_questions_ g;
     extra_answers_ := extra_answers_ g;
     extra_authority_ := extra_authority_ g;
     extra_additional_ := extra_additional_ g |}.

Definition set_eg_questions (v : list Question)
    (g : ExtendedWriter) : ExtendedWriter :=
  {| eg_config := eg_config g; eg_data := eg_data g; eg_questions := v;
     eg_resource_records := eg_resource_records g;
     eg_questions_lists := eg_questions_lists g;
     eg_rrs_lists := eg_rrs_lists g;
     eg_query_extra_info := eg_query_extra_info g;
     eg_response_extra_info := eg_response_extra_info g;
     ext_group_ := ext_group_ g; ext_rr_ := ext_rr_ g;
     extra_questions_ := extra_questions_ g;
     extra_answers_ := extra_answers_ g;
     extra_authority_ := extra_authority_ g;
     extra_additional_ := extra_additional_ g |}.

Definition set_eg_resource_records (v : list ResourceRecord)
    (g : ExtendedWriter) : ExtendedWriter :=
  {| eg_config := eg_config g; eg_data := eg_data g;
     eg_questions := eg_questions g; eg_resource_records := v;
     eg_questions_lists := eg_questions_lists g;
     eg_rrs_lists := eg_rrs_lists g;
     eg_query_extra_info := eg_query_extra_info g;
     eg_response_extra_info := eg_response_extra_info g;
     ext_group_ := ext_group_ g; ext_rr_ := ext_rr_ g;
     extra_questions_ := extra_questions_ g;
     extra_answers_ := extra_answers_ g;
     extra_authority_ := extra_authority_ g;
     extra_additional_ := extra_additional_ g |}.

Definition set_eg_questions_lists (v : list (list nat))
    (g : ExtendedWriter) : ExtendedWriter :=
  {| eg_config := eg_config g; eg_data := eg_data g;
     eg_questions := eg_questions g;
     eg_resource_records := eg_resource_records g; eg_questions_lists := v;
     eg_rrs_lists := eg_rrs_lists g;
     eg_query_extra_info := eg_query_extra_info g;
     eg_response_extra_info := eg_response_extra_info g;
     ext_group_ := ext_group_ g; ext_rr_ := ext_rr_ g;
     extra_questions_ := extra_questions_ g;
     extra_answers_ := extra_answers_ g;
     extra_authority_ := extra_authority_ g;
     extra_additional_ := extra_additional_ g |}.

Definition set_eg_rrs_lists (v : list (list nat))
    (g : ExtendedWriter) : ExtendedWriter :=
  {| eg_config := eg_config g; eg_data := eg_data g;
     eg_questions := eg_questions g;
     eg_resource_records := eg_resource_records g;
     eg_questions_lists := eg_questions_lists g; eg_rrs_lists := v;
     eg_query_extra_info := eg_query_extra_info g;
     eg_response_extra_info := eg_response_extra_info g;
     ext_group_ := ext_group_ g; ext_rr_ := ext_rr_ g;
     extra_questions_ := extra_questions_ g;
     extra_answers_ := extra_answers_ g;
     extra_authority_ := extra_authority_ g;
     extra_additional_ := extra_additional_ g |}.

Definition set_eg_query_extra_info (v : option QueryResponseExtraInfo)
    (g : ExtendedWriter) : ExtendedWriter :=
  {| eg_config := eg_config g; eg_data := eg_data g;
     eg_questions := eg_questions g;
     eg_resource_records := eg_resource_records g;
     eg_questions_lists := eg_questions_lists g;
     eg_rrs_lists := eg_rrs_lists g; eg_query_extra_info := v;
     eg_response_extra_info := eg_response_extra_info g;
     ext_group_ := ext_group_ g; ext_rr_ := ext_rr_ g;
     extra_questions_ := extra_questions_ g;
     extra_answers_ := extra_answers_ g;
     extra_authority_ := extra_authority_ g;
     extra_additional_ := extra_additional_ g |}.

Definition set_eg_response_extra_info (v : option QueryResponseExtraInfo)
    (g : ExtendedWriter) : ExtendedWriter :=
  {| eg_config := eg_config g; eg_data := eg_data g;
     eg_questions := eg_questions g;
     eg_resource_records := eg_resource_records g;
     eg_questions_lists := eg_questions_lists g;
     eg_rrs_lists := eg_rrs_lists g;
     eg_query_extra_info := eg_query_extra_info g;
     eg_response_extra_info := v; ext_group_ := ext_group_ g;
     ext_rr_ := ext_rr_ g; extra_questions_ := extra_questions_ g;
     extra_answers_ := extra_answers_ g;
     extra_authority_ := extra_authority_ g;
     extra_additional_ := extra_additional_ g |}.

Definition set_ext_group_ (v : option ExtraInfoSide)
    (g : ExtendedWriter) : ExtendedWriter :=
  {| eg_config := eg_config g; eg_data := eg_data g;
     eg_questions := eg_questions g;
     eg_resource_records := eg_resource_records g;
     eg_questions_lists := eg_questions_lists g;
     eg_rrs_lists := eg_rrs_lists g;
     eg_query_extra_info := eg_query_extra_info g;
     eg_response_extra_info := eg_response_extra_info g; ext_group_ := v;
     ext_rr_ := ext_rr_ g; extra_questions_ := extra_questions_ g;
     extra_answers_ := extra_answers_ g;
     extra_authority_ := extra_authority_ g;
     extra_additional_ := extra_additional_ g |}.

Definition set_ext_rr_ (v : option RRSection)
    (g : ExtendedWriter) : ExtendedWriter :=
  {| eg_config := eg_config g; eg_data := eg_data g;
     eg_questions := eg_questions g;
     eg_resource_records := eg_resource_records g;
     eg_questions_lists := eg_questions_lists g;
     eg_rrs_lists := eg_rrs_lists g;
     eg_query_extra_info := eg_query_extra_info g;
     eg_response_extra_info := eg_response_extra_info g;
     ext_group_ := ext_group_ g; ext_rr_ := v;
     extra_questions_ := extra_questions_ g;
     extra_answers_ := extra_answers_ g;
     extra_authority_ := extra_authority_ g;
     extra_additional_ := extra_additional_ g |}.

Definition set_extra_questions_ (v : list nat)
    (g : ExtendedWriter) : ExtendedWriter :=
  {| eg_config := eg_config g; eg_data := eg_data g;
     eg_questions := eg_questions g;
     eg_resource_records := eg_resource_records g;
     eg_questions_lists := eg_questions_lists g;
     eg_rrs_lists := eg_rrs_lists g;
     eg_query_extra_info := eg_query_extra_info g;
     eg_response_extra_info := eg_response_extra_info g;
     ext_group_ := ext_group_ g; ext_rr_ := ext_rr_ g; extra_questions_ := v;
     extra_answers_ := extra_answers_ g;
     extra_authority_ := extra_authority_ g;
     extra_additional_ := extra_additional_ g |}.

Definition set_extra_answers_ (v : list nat)
    (g : ExtendedWriter) : ExtendedWriter :=
  {| eg_config := eg_config g; eg_data := eg_data g;
     eg_questions := eg_questions g;
     eg_resource_records := eg_resource_records g;
     eg_questions_lists := eg_questions_lists g;
     eg_rrs_lists := eg_rrs_lists g;
     eg_query_extra_info := eg_query_extra_info g;
     eg_response_extra_info := eg_response_extra_info g;
     ext_group_ := ext_group_ g; ext_rr_ := ext_rr_ g;
     extra_questions_ := extra_questions_ g; extra_answers_ := v;
     extra_authority_ := extra_authority_ g;
     extra_additional_ := extra_additional_ g |}.

Definition set_extra_authority_ (v : list nat)
    (g : ExtendedWriter) : ExtendedWriter :=
  {| eg_config := eg_config g; eg_data := eg_data g;
     eg_questions := eg_questions g;
     eg_resource_records := eg_resource_records g;
     eg_questions_lists := eg_questions_lists g;
     eg_rrs_lists := eg_rrs_lists g;
     eg_query_extra_info := eg_query_extra_info g;
     eg_response_extra_info := eg_response_extra_info g;
     ext_group_ := ext_group_ g; ext_rr_ := ext_rr_ g;
     extra_questions_ := extra_questions_ g;
     extra_answers_ := extra_answers_ g; extra_authority_ := v;
     extra_additional_ := extra_additional_ g |}.

Definition set_extra_additional_ (v : list nat)
    (g : ExtendedWriter) : ExtendedWriter :=
  {| eg_config := eg_config g; eg_data := eg_data g;
     eg_questions := eg_questions g;
     eg_resource_records := eg_resource_records g;
     eg_questions_lists := eg_questions_lists g;
     eg_rrs_lists := eg_rrs_lists g;
     eg_query_extra_info := eg_query_extra_info g;
     eg_response_extra_info := eg_response_extra_info g;
     ext_group_ := ext_group_ g; ext_rr_ := ext_rr_ g;
     extra_questions_ := extra_questions_ g;
     extra_answers_ := extra_answers_ g;
     extra_authority_ := extra_authority_ g; extra_additional_ := v |}.

(** Modelled from the spec: [add_question], [add_resource_record],
    [add_questions_list] and [add_rrs_list] of [BlockData] (section 4.3),
    each on its own intern table: the index returned and the writer after
    the call. *)
Definition add_question (q : Question) (g : ExtendedWriter) :
    nat * ExtendedWriter :=
  (intern_index q (eg_questions g),
   set_eg_questions (intern_table q (eg_questions g)) g).

Definition add_resource_record (rr : ResourceRecord) (g : ExtendedWriter) :
    nat * ExtendedWriter :=
  (intern_index rr (eg_resource_records g),
   set_eg_resource_records (intern_table rr (eg_resource_records g)) g).

Definition add_questions_list (l : list nat) (g : ExtendedWriter) :
    nat * ExtendedWriter :=
  (intern_index l (eg_questions_lists g),
   set_eg_questions_lists (intern_table l (eg_questions_lists g)) g).

Definition add_rrs_list (l : list nat) (g : ExtendedWriter) :
    nat * ExtendedWriter :=
  (intern_index l (eg_rrs_lists g),
   set_eg_rrs_lists (intern_table l (eg_rrs_lists g)) g).

(** Modelled from the spec: [clear_in_progress_extra_info()] empties the
    four scratch lists (section 4.5: clear scratch). *)
Definition clear_in_progress_extra_info (g : ExtendedWriter) :
    ExtendedWriter :=
  set_extra_additional_ []
    (set_extra_authority_ []
       (set_extra_answers_ [] (set_extra_questions_ [] g))).

(** Lines 267-272. *)
Definition startExtendedQueryGroup (g : ExtendedWriter) : ExtendedWriter :=
  let g :=
    match eg_query_extra_info g with
    | None => set_eg_query_extra_info (Some empty_extra_info) g
    | Some _ => g
    end in
  set_ext_group_ (Some QuerySide) g.

(** Lines 274-279. *)
Definition startExtendedResponseGroup (g : ExtendedWriter) : ExtendedWriter :=
  let g :=
    match eg_response_extra_info g with
    | None => set_eg_response_extra_info (Some empty_extra_info) g
    | Some _ => g
    end in
  set_ext_group_ (Some ResponseSide) g.

(** An assignment [ext_group_->member = v], where [f] stores [v] in the
    member. Through a null pointer, or one whose extra info is gone, there
    is no result. *)
Definition assign_ext_group
    (f : QueryResponseExtraInfo -> QueryResponseExtraInfo)
    (g : ExtendedWriter) : option ExtendedWriter :=
  match ext_group_ g with
  | None => None
  | Some QuerySide =>
      match eg_query_extra_info g with
      | None => None
      | Some info => Some (set_eg_query_extra_info (Some (f info)) g)
      end
  | Some ResponseSide =>
      match eg_response_extra_info g with
      | None => None
      | Some info => Some (set_eg_response_extra_info (Some (f info)) g)
      end
  end.

Definition with_questions_list (i : nat) (info : QueryResponseExtraInfo) :
    QueryResponseExtraInfo :=
  {| questions_list := Some i; answers_list := answers_list info;
     authority_list := authority_list info;
     additional_list := additional_list info |}.

Definition with_answers_list (i : nat) (info : QueryResponseExtraInfo) :
    QueryResponseExtraInfo :=
  {| questions_list := questions_list info; answers_list := Some i;
     authority_list := authority_list info;
     additional_list := additional_list info |}.

Definition with_authority_list (i : nat) (info : QueryResponseExtraInfo) :
    QueryResponseExtraInfo :=
  {| questions_list := questions_list info;
     answers_list := answers_list info; authority_list := Some i;
     additional_list := additional_list info |}.

Definition with_additional_list (i : nat) (info : QueryResponseExtraInfo) :
    QueryResponseExtraInfo :=
  {| questions_list := questions_list info;
     answers_list := answers_list info;
     authority_list := authority_list info; additional_list := Some i |}.

(** Lines 281-293. *)
Definition endExtendedGroup (g : ExtendedWriter) : option ExtendedWriter :=
  g ← (if (0 <? length (extra_questions_ g))%nat
       then
         let r := add_questions_list (extra_questions_ g) g in
         assign_ext_group (with_questions_list r.1) r.2
       else Some g);
  g ← (if (0 <? length (extra_answers_ g))%nat
       then
         let r := add_rrs_list (extra_answers_ g) g in
         assign_ext_group (with_answers_list r.1) r.2
       else Some g);
  g ← (if (0 <? length (extra_authority_ g))%nat
       then
         let r := add_rrs_list (extra_authority_ g) g in
         assign_ext_group (with_authority_list r.1) r.2
       else Some g);
  g ← (if (0 <? length (extra_additional_ g))%nat
       then
         let r := add_rrs_list (extra_additional_ g) g in
         assign_ext_group (with_additional_list r.1) r.2
       else Some g);
  Some (clear_in_progress_extra_info g).

(** Lines 295-297 and 313-315. *)
Definition startQuestionsSection (g : ExtendedWriter) : ExtendedWriter := g.

Definition endSection (g : ExtendedWriter) : ExtendedWriter := g.

(** Lines 299-311. *)
Definition writeQuestionRecord (g : ExtendedWriter) (question : DNSQuery) :
    ExtendedWriter :=
  let exclude := exclude_hints (eg_config g) in
  let data := eg_data g in
  let c := negb (excl_query_name exclude) in
  let q_qname :=
    if c then Some (add_name_rdata (dname question) data).1 else None in
  let data := add_name_rdata_if c (dname question) data in
  let ct :=
    {| qtype := query_type question; qclass := query_class question |} in
  let c := negb (excl_query_class_type exclude) in
  let q_classtype :=
    if c then Some (add_classtype ct data).1 else None in
  let data := add_classtype_if c ct data in
  let q :=
    {| question_qname := q_qname; question_classtype := q_classtype |} in
  let r := add_question q (set_eg_data data g) in
  set_extra_questions_ (extra_questions_ r.2 ++ [r.1]) r.2.

(** Lines 317-320, 340-343 and 345-348. *)
Definition startAnswersSection (g : ExtendedWriter) : ExtendedWriter :=
  set_ext_rr_ (Some ExtraAnswers) g.

Definition startAuthoritySection (g : ExtendedWriter) : ExtendedWriter :=
  set_ext_rr_ (Some ExtraAuthority) g.

Definition startAdditionalSection (g : ExtendedWriter) : ExtendedWriter :=
  set_ext_rr_ (Some ExtraAdditional) g.

(** [ext_rr_->push_back(i)]; through a null pointer there is no result. *)
Definition push_back_ext_rr (i : nat) (g : ExtendedWriter) :
    option ExtendedWriter :=
  match ext_rr_ g with
  | None => None
  | Some ExtraAnswers => Some (set_extra_answers_ (extra_answers_ g ++ [i]) g)
  | Some ExtraAuthority =>
      Some (set_extra_authority_ (extra_authority_ g ++ [i]) g)
  | Some ExtraAdditional =>
      Some (set_extra_additional_ (extra_additional_ g ++ [i]) g)
  end.

(** Lines 322-338. *)
Definition writeResourceRecord (g : ExtendedWriter) (resource : DNSResource) :
    option ExtendedWriter :=
  let exclude := exclude_hints (eg_config g) in
  let data := eg_data g in
  let c := negb (excl_query_name exclude) in
  let r_name :=
    if c then Some (add_name_rdata (res_dname resource) data).1 else None in
  let data := add_name_rdata_if c (res_dname resource) data in
  let ct :=
    {| qtype := res_query_type resource;
       qclass := res_query_class resource |} in
  let c := negb (excl_query_class_type exclude) in
  let r_classtype :=
    if c then Some (add_classtype ct data).1 else None in
  let data := add_classtype_if c ct data in
  let r_ttl :=
    if negb (excl_rr_ttl exclude) then Some (res_ttl resource) else None in
  let c := negb (excl_rr_rdata exclude) in
  let r_rdata :=
    if c then Some (add_name_rdata (res_data resource) data).1 else None in
  let data := add_name_rdata_if c (res_data resource) data in
  let rr :=
    {| rr_name := r_name; rr_classtype := r_classtype; rr_ttl := r_ttl;
       rr_rdata := r_rdata |} in
  let r := add_resource_record rr (set_eg_data data g) in
  push_back_ext_rr r.1 r.2.

(** The same members as the constructor leaves them (lines 46-64): null
    pointers, no extra info, empty scratch lists and an empty block. *)
Definition new_ExtendedWriter (config : Configuration) : ExtendedWriter :=
  {| eg_config := config; eg_data := new_BlockData; eg_questions := [];
     eg_resource_records := []; eg_questions_lists := [];
     eg_rrs_lists := []; eg_query_extra_info := None;
     eg_response_extra_info := None; ext_group_ := None; ext_rr_ := None;
     extra_questions_ := []; extra_answers_ := []; extra_authority_ := [];
     extra_additional_ := [] |}.

(** ** Notions used in the properties *)

(** The blocks a writer has serialised so far. *)
Definition flushed (w : BlockCborWriter) : list BlockData :=
  flushed_blocks (enc_ w).

(** What one call does to the statistics window: it passes through
    [updateBlockStats] once, or leaves the window alone, or flushes the
    block [B]. *)
Inductive window_step (w w' : BlockCborWriter) : Prop :=
| step_update (stats : PacketStatistics) :
    flushed w' = flushed w ->
    start_packet_statistics (data_ w')
    = (if need_start_block_stats_ w then last_end_block_statistics_ w
       else start_packet_statistics (data_ w)) ->
    need_start_block_stats_ w' = false ->
    last_end_block_statistics_ w' = stats ->
    window_step w w'
| step_neutral :
    flushed w' = flushed w ->
    start_packet_statistics (data_ w') = start_packet_statistics (data_ w) ->
    need_start_block_stats_ w' = need_start_block_stats_ w ->
    last_end_block_statistics_ w' = last_end_block_statistics_ w ->
    window_step w w'
| step_flush (B : BlockData) :
    flushed w' = flushed w ++ [B] ->
    start_packet_statistics B = start_packet_statistics (data_ w) ->
    last_packet_statistics B = last_end_block_statistics_ w ->
    need_start_block_stats_ w' = true ->
    last_end_block_statistics_ w' = last_end_block_statistics_ w ->
    window_step w w'.

(** The part of a block that the interning of [writeBasic] leaves alone:
    its times, its statistics and its items. *)
Definition frame (b : BlockData) :
    Z * option Z * option Z * PacketStatistics * PacketStatistics
    * list QueryResponseItem :=
  (earliest_time b, start_time b, end_time b, start_packet_statistics b,
   last_packet_statistics b, query_response_items b).

(** The block that [close] serialises. *)
Definition closing_block (w : BlockCborWriter) (now : Z) : BlockData :=
  set_last_packet_statistics_if true (last_end_block_statistics_ w)
    (set_end_time_if (live_ w && negb (engaged (end_time (data_ w))))
       (Some now) (data_ w)).

(** The window after the flush of a block whose last statistics are [L]:
    either no call has updated the statistics yet, or one has and the block
    started from [L]. *)
Definition window_after (L : PacketStatistics) (w : BlockCborWriter) : Prop :=
  (need_start_block_stats_ w = true /\ last_end_block_statistics_ w = L)
  \/ (need_start_block_stats_ w = false
      /\ start_packet_statistics (data_ w) = L).

Definition window_started (L : PacketStatistics) (w : BlockCborWriter) :
    Prop :=
  need_start_block_stats_ w = false
  /\ start_packet_statistics (data_ w) = L.

(** The least and the greatest of the timestamps [t :: ts]. *)
Definition minimum (t : Z) (ts : list Z) : Z := foldl Z.min t ts.
Definition maximum (t : Z) (ts : list Z) : Z := foldl Z.max t ts.

(** A bound already set, lowered or raised to take in [t]. *)
Definition lowered (o : option Z) (t : Z) : Z :=
  match o with Some s => Z.min s t | None => t end.
Definition raised (o : option Z) (t : Z) : Z :=
  match o with Some e => Z.max e t | None => t end.

(** A file is framed when it is the preamble, the header of the blocks
    array, whole blocks, and one final break. *)
Definition framed (f : list EncoderCall) : Prop :=
  exists bs, f = file_of_blocks bs.

(** The files of a writer are in order: closed files are framed, and the
    file being written holds the preamble, the header of the blocks array and
    whole blocks. *)
Definition files_in_order (e : Encoder) : Prop :=
  Forall framed (closed_files e)
  /\ (if is_open e
      then exists bs,
             open_file None (calls e)
             = Some (file_preamble ++ [WriteArrayHeader None]
                     ++ (WriteBlock <$> bs))
      else open_file None (calls e) = None).

(** What one call does to the encoder. *)
Inductive encoder_step (e e' : Encoder) : Prop :=
| enc_same : e' = e -> encoder_step e e'
| enc_block (B : BlockData) :
    is_open e' = is_open e -> calls e' = calls e ++ [WriteBlock B] ->
    encoder_step e e'
| enc_closing (B : BlockData) :
    is_open e = true -> is_open e' = false ->
    calls e' = calls e ++ [WriteBlock B; WriteBreak; Close] ->
    encoder_step e e'
| enc_opening :
    is_open e = false -> is_open e' = true ->
    calls e' = calls e ++ Open :: file_preamble ++ [WriteArrayHeader None] ->
    encoder_step e e'
| enc_rotating (B : BlockData) :
    is_open e = true -> is_open e' = true ->
    calls e'
    = (calls e ++ [WriteBlock B; WriteBreak; Close])
      ++ Open :: file_preamble ++ [WriteArrayHeader None] ->
    encoder_step e e'.

(** The counters a call hands to [updateBlockStats], if it reaches it. *)
Definition statistics_of (c : Call) : option PacketStatistics :=
  match c with
  | WriteBasic _ stats | WriteAE _ stats => Some stats
  | _ => None
  end.
(** One transaction through [startRecord], [writeBasic] and [endRecord],
    and a list of them in turn. *)
Definition record_cycle (tf tt df : QueryResponse -> Z) (w : BlockCborWriter)
    (r : QueryResponse * PacketStatistics) : BlockCborWriter :=
  endRecord (writeBasic tf tt df (startRecord w r.1) r.1 r.2).

Definition record_cycles (tf tt df : QueryResponse -> Z)
    (w : BlockCborWriter) (rs : list (QueryResponse * PacketStatistics)) :
    BlockCborWriter :=
  foldl (record_cycle tf tt df) w rs.

(** The tables of block [b'] extend those of [b]: every entry keeps its
    index; and a table whose fields are all excluded by the hints [ex] is
    the same. *)
Definition tables_grow (ex : HintsExcluded) (b b' : BlockData) : Prop :=
  addresses b `prefix_of` addresses b'
  /\ class_types b `prefix_of` class_types b'
  /\ names_rdatas b `prefix_of` names_rdatas b'
  /\ query_response_signatures b `prefix_of` query_response_signatures b'
  /\ (excl_server_address ex = true -> excl_client_address ex = true ->
      addresses b' = addresses b)
  /\ (excl_query_class_type ex = true -> class_types b' = class_types b)
  /\ (excl_query_name ex = true -> excl_query_opt_rdata ex = true ->
      names_rdatas b' = names_rdatas b)
  /\ (excl_qr_signature ex = true ->
      query_response_signatures b' = query_response_signatures b).

(** The byte that [addr_to_string] leaves at the last kept position: the
    address byte [b] under the mask [0xff << k]. *)
Definition masked_byte (k b : Z) : Z :=
  to_uint8 (Z.land b (Z.shiftl 255 k)).

(** The extra info of one side of the record in progress, and the scratch
    list of one section. *)
Definition extra_info (side : ExtraInfoSide) (g : ExtendedWriter) :
    option QueryResponseExtraInfo :=
  match side with
  | QuerySide => eg_query_extra_info g
  | ResponseSide => eg_response_extra_info g
  end.

Definition startExtendedGroup (side : ExtraInfoSide) (g : ExtendedWriter) :
    ExtendedWriter :=
  match side with
  | QuerySide => startExtendedQueryGroup g
  | ResponseSide => startExtendedResponseGroup g
  end.

(** The questions and resource records of one message, by section, and the
    calls that record them as one extended group. *)
Record MessageSections := {
  sec_questions : list DNSQuery;
  sec_answers : list DNSResource;
  sec_authority : list DNSResource;
  sec_additional : list DNSResource
}.

Definition write_questions (g : ExtendedWriter) (qs : list DNSQuery) :
    ExtendedWriter :=
  endSection (foldl writeQuestionRecord (startQuestionsSection g) qs).

Definition write_resources (g : ExtendedWriter) (rs : list DNSResource) :
    option ExtendedWriter :=
  endSection <$>
    foldl (fun og r => og ≫= fun g => writeResourceRecord g r) (Some g) rs.

Definition write_group (side : ExtraInfoSide) (g : ExtendedWriter)
    (m : MessageSections) : option ExtendedWriter :=
  let g := write_questions (startExtendedGroup side g) (sec_questions m) in
  g ← write_resources (startAnswersSection g) (sec_answers m);
  g ← write_resources (startAuthoritySection g) (sec_authority m);
  g ← write_resources (startAdditionalSection g) (sec_additional m);
  endExtendedGroup g.

(** Reading back: the entry of a table that an optional index names, the
    question and the resource record at an index, and the lists of a stored
    extra info. An index outside its table gives no result. *)
Definition resolve {T : Type} (tbl : list T) (oi : option nat) :
    option (option T) :=
  match oi with
  | None => Some None
  | Some i => Some <$> tbl !! i
  end.

Definition read_question (g : ExtendedWriter) (i : nat) :
    option (option byte_string * option ClassType) :=
  q ← eg_questions g !! i;
  n ← resolve (names_rdatas (eg_data g)) (question_qname q);
  ct ← resolve (class_types (eg_data g)) (question_classtype q);
  Some (n, ct).

Definition read_resource (g : ExtendedWriter) (i : nat) :
    option (option byte_string * option ClassType * option Z *
            option byte_string) :=
  rr ← eg_resource_records g !! i;
  n ← resolve (names_rdatas (eg_data g)) (rr_name rr);
  ct ← resolve (class_types (eg_data g)) (rr_classtype rr);
  d ← resolve (names_rdatas (eg_data g)) (rr_rdata rr);
  Some (n, ct, rr_ttl rr, d).

Definition read_questions_list (g : ExtendedWriter) (oi : option nat) :
    option (list (option byte_string * option ClassType)) :=
  match oi with
  | None => Some []
  | Some i => eg_questions_lists g !! i ≫= mapM (read_question g)
  end.

Definition read_rrs_list (g : ExtendedWriter) (oi : option nat) :
    option (list (option byte_string * option ClassType * option Z *
                  option byte_string)) :=
  match oi with
  | None => Some []
  | Some i => eg_rrs_lists g !! i ≫= mapM (read_resource g)
  end.

(** What the hints leave of a question and of a resource record. *)
Definition kept_question (exclude : HintsExcluded) (q : DNSQuery) :
    option byte_string * option ClassType :=
  (if excl_query_name exclude then None else Some (dname q),
   if excl_query_class_type exclude then None
   else Some {| qtype := query_type q; qclass := query_class q |}).

Definition kept_resource (exclude : HintsExcluded) (r : DNSResource) :
    option byte_string * option ClassType * option Z * option byte_string :=
  (if excl_query_name exclude then None else Some (res_dname r),
   if excl_query_class_type exclude then None
   else Some {| qtype := res_query_type r; qclass := res_query_class r |},
   if excl_rr_ttl exclude then None else Some (res_ttl r),
   if excl_rr_rdata exclude then None else Some (res_data r)).

(** The tables of [g'] extend those of [g], entry by entry. *)
Definition eg_tables_grow (g g' : ExtendedWriter) : Prop :=
  eg_config g' = eg_config g
  /\ names_rdatas (eg_data g) `prefix_of` names_rdatas (eg_data g')
  /\ class_types (eg_data g) `prefix_of` class_types (eg_data g')
  /\ eg_questions g `prefix_of` eg_questions g'
  /\ eg_resource_records g `prefix_of` eg_resource_records g'
  /\ eg_questions_lists g `prefix_of` eg_questions_lists g'
  /\ eg_rrs_lists g `prefix_of` eg_rrs_lists g'.

(** The scratch list of one section of resource records. *)
Definition rr_scratch (s : RRSection) (g : ExtendedWriter) : list nat :=
  match s with
  | ExtraAnswers => extra_answers_ g
  | ExtraAuthority => extra_authority_ g
  | ExtraAdditional => extra_additional_ g
  end.

(** What [endExtendedGroup] does with one scratch list [l]: an empty list
    leaves the member of the extra info as it was, [old]; any other list is
    in the table [tbl] at the index that the member now holds. *)
Definition stored (l : list nat) (old new : option nat)
    (tbl : list (list nat)) : Prop :=
  match l with
  | [] => new = old
  | _ => exists i, new = Some i /\ tbl !! i = Some l
  end.

(** The four lists of an extended group, and for each of them its member of
    the extra info, its scratch list, its table, and the statement of
    [endExtendedGroup] that stores it. *)
Inductive GroupList :=
  QuestionsList | AnswersList | AuthorityList | AdditionalList.

Definition list_member (fld : GroupList) (info : QueryResponseExtraInfo) :
    option nat :=
  match fld with
  | QuestionsList => questions_list info
  | AnswersList => answers_list info
  | AuthorityList => authority_list info
  | AdditionalList => additional_list info
  end.

Definition list_scratch (fld : GroupList) (g : ExtendedWriter) : list nat :=
  match fld with
  | QuestionsList => extra_questions_ g
  | AnswersList => extra_answers_ g
  | AuthorityList => extra_authority_ g
  | AdditionalList => extra_additional_ g
  end.

Definition list_table (fld : GroupList) (g : ExtendedWriter) :
    list (list nat) :=
  match fld with
  | QuestionsList => eg_questions_lists g
  | _ => eg_rrs_lists g
  end.

Definition store_list (fld : GroupList) (g : ExtendedWriter) :
    option ExtendedWriter :=
  if (0 <? length (list_scratch fld g))%nat
  then
    match fld with
    | QuestionsList =>
        let r := add_questions_list (extra_questions_ g) g in
        assign_ext_group (with_questions_list r.1) r.2
    | AnswersList =>
        let r := add_rrs_list (extra_answers_ g) g in
        assign_ext_group (with_answers_list r.1) r.2
    | AuthorityList =>
        let r := add_rrs_list (extra_authority_ g) g in
        assign_ext_group (with_authority_list r.1) r.2
    | AdditionalList =>
        let r := add_rrs_list (extra_additional_ g) g in
        assign_ext_group (with_additional_list r.1) r.2
    end
  else Some g.

(** The members of an item [qri] and of a signature [qs] that stay unset
    under the hints [ex], as [writeBasic] reads the hints: each member goes
    by the hint of its name, but [query_nscount] goes by the hint
    [query_arcount] and [query_arcount] by the hint [query_nscount]. *)
Definition excluded_absent (ex : HintsExcluded) (qri : QueryResponseItem)
    (qs : QueryResponseSignature) : Prop :=
  (excl_timestamp ex = true -> qri_tstamp qri = None)
  /\ (excl_client_address ex = true -> qri_client_address qri = None)
  /\ (excl_client_port ex = true -> qri_client_port qri = None)
  /\ (excl_transaction_id ex = true -> qri_id qri = None)
  /\ (excl_query_name ex = true -> qri_qname qri = None)
  /\ (excl_qr_signature ex = true -> qri_signature qri = None)
  /\ (excl_query_size ex = true -> qri_query_size qri = None)
  /\ (excl_response_size ex = true -> qri_response_size qri = None)
  /\ (excl_client_hoplimit ex = true -> qri_hoplimit qri = None)
  /\ (excl_response_delay ex = true -> qri_response_delay qri = None)
  /\ (excl_server_address ex = true -> server_address qs = None)
  /\ (excl_server_port ex = true -> server_port qs = None)
  /\ (excl_transport ex = true -> qr_transport_flags qs = None)
  /\ (excl_transaction_type ex = true -> qr_type qs = None)
  /\ (excl_dns_flags ex = true -> dns_flags qs = None)
  /\ (excl_query_qdcount ex = true -> qdcount qs = None)
  /\ (excl_query_class_type ex = true -> query_classtype qs = None)
  /\ (excl_query_opcode ex = true -> query_opcode qs = None)
  /\ (excl_query_rcode ex = true -> query_rcode qs = None)
  /\ (excl_query_ancount ex = true -> query_ancount qs = None)
  /\ (excl_query_arcount ex = true -> query_nscount qs = None)
  /\ (excl_query_nscount ex = true -> query_arcount qs = None)
  /\ (excl_query_udp_size ex = true -> query_edns_payload_size qs = None)
  /\ (excl_query_edns_version ex = true -> query_edns_version qs = None)
  /\ (excl_query_opt_rdata ex = true -> query_opt_rdata qs = None)
  /\ (excl_response_rcode ex = true -> response_rcode qs = None)
  /\ (excl_qr_flags ex = true -> qr_flags qs = None).

(** The items a writer holds or has written, oldest first: those of the
    blocks serialised, then those of the block in progress. *)
Definition recorded (w : BlockCborWriter) : list QueryResponseItem :=
  (flushed w ≫= query_response_items) ++ query_response_items (data_ w).

(** An address event as it is reported: its type, its code, the bytes of
    its masked address and the family of the address. *)
Definition ReportedEvent : Type := Z * Z * byte_string * bool.

(** The event that the key [k] of an entry stands for in block [b], through
    the address table of [b]. *)
Definition event_of (b : BlockData) (k : AddressEventKey) :
    option ReportedEvent :=
  a ← addresses b !! ae_address_index k;
  Some (ae_type k, ae_code k, a, ae_is_ipv6 k).

(** How often block [b] counts the event [e]: the counts of the entries
    that stand for [e], added up. *)
Definition event_count (e : ReportedEvent) (b : BlockData) : Z :=
  foldr (fun kn acc =>
           if decide (event_of b kn.1 = Some e) then kn.2 + acc else acc)
    0 (address_event_counts b).

(** The event that a call reports to the block under [config], if any, and
    how often the calls [cs] report the event [e]. *)
Definition reported_event (config : Configuration) (c : Call) :
    option ReportedEvent :=
  match c with
  | WriteAE ae _ =>
      if excl_address_events (exclude_hints config) then None
      else Some (event_type ae, event_code ae,
                 addr_to_string (event_address ae) config true,
                 is_ipv6 (event_address ae))
  | _ => None
  end.

Definition reports (config : Configuration) (e : ReportedEvent)
    (cs : list Call) : Z :=
  Z.of_nat (length (filter (fun c => reported_event config c = Some e) cs)).

(** The address-event counts of a block are well formed: no two entries
    have the same key, every key names an address by the index of its first
    occurrence in the address table, and every count is at least 1. *)
Definition counts_well_formed (b : BlockData) : Prop :=
  NoDup (fst <$> address_event_counts b)
  /\ Forall (fun kn =>
               (exists a, find_index a (addresses b)
                          = Some (ae_address_index kn.1))
               /\ 1 <= kn.2)
       (address_event_counts b).

(** ** Inputs for evaluating the model *)

(** A configuration with no exclusion hint set, and the addresses of the
    documentation ranges, for evaluating the model. *)
Definition no_hints : HintsExcluded :=
  {| excl_server_address := false; excl_server_port := false;
     excl_transport := false; excl_transaction_type := false;
     excl_dns_flags := false; excl_timestamp := false;
     excl_client_address := false; excl_client_port := false;
     excl_transaction_id := false; excl_query_qdcount := false;
     excl_query_class_type := false; excl_query_name := false;
     excl_query_size := false; excl_client_hoplimit := false;
     excl_query_opcode := false; excl_query_rcode := false;
     excl_query_ancount := false; excl_query_arcount := false;
     excl_query_nscount := false; excl_query_udp_size := false;
     excl_query_edns_version := false; excl_query_opt_rdata := false;
     excl_response_size := false; excl_response_rcode := false;
     excl_response_delay := false; excl_qr_flags := false;
     excl_qr_signature := false; excl_rr_ttl := false;
     excl_rr_rdata := false; excl_address_events := false |}.

Definition example_config (hints : HintsExcluded) (from_data : bool) :
    Configuration :=
  {| client_address_prefix_ipv4 := 20; client_address_prefix_ipv6 := 64;
     server_address_prefix_ipv4 := 32; server_address_prefix_ipv6 := 128;
     max_block_items := 2; max_output_size := 0;
     start_end_times_from_data := from_data; exclude_hints := hints |}.

Definition ipv4 (a b c d : Z) : IPAddress :=
  {| is_ipv6 := false; asNetworkBinary := [a; b; c; d] |}.

(** The same with the [query_arcount] hint set and no other. *)
Definition arcount_hint_only : HintsExcluded :=
  {| excl_server_address := false; excl_server_port := false;
     excl_transport := false; excl_transaction_type := false;
     excl_dns_flags := false; excl_timestamp := false;
     excl_client_address := false; excl_client_port := false;
     excl_transaction_id := false; excl_query_qdcount := false;
     excl_query_class_type := false; excl_query_name := false;
     excl_query_size := false; excl_client_hoplimit := false;
     excl_query_opcode := false; excl_query_rcode := false;
     excl_query_ancount := false; excl_query_arcount := true;
     excl_query_nscount := false; excl_query_udp_size := false;
     excl_query_edns_version := false; excl_query_opt_rdata := false;
     excl_response_size := false; excl_response_rcode := false;
     excl_response_delay := false; excl_qr_flags := false;
     excl_qr_signature := false; excl_rr_ttl := false;
     excl_rr_rdata := false; excl_address_events := false |}.

(** A message between client 198.51.100.5:40000 and server 192.0.2.1:53
    with one question, an OPT record, and the given time, rcode and
    extended rcode. *)
Definition example_message (time base_rcode ext_rcode : Z) : DNSMessage :=
  {| timestamp := time;
     clientIP := Some (ipv4 198 51 100 5);
     serverIP := Some (ipv4 192 0 2 1);
     clientPort := Some 40000;
     serverPort := Some 53;
     hoplimit := Some 64;
     wire_size := Some 40;
     dns :=
       {| dns_id := 4660; opcode := 0; rcode := base_rcode;
          questions_count := 1; answers_count := 0; authority_count := 1;
          additional_count := 2;
          queries :=
            [{| dname := [7; 101; 120; 97; 109; 112; 108; 101; 3; 99; 111;
                          109; 0];
                query_type := 1; query_class := 1 |}];
          edns0 :=
            Some {| extended_rcode := ext_rcode; udp_payload_size := 4096;
                    edns_version := 0; opt_rr_data := [] |} |} |}.

Definition no_flags (qr : QueryResponse) : Z := 0.

Definition example_statistics (n : Z) : PacketStatistics :=
  {| processed_count := n; query_count := n; response_count := 0;
     malformed_count := 0 |}.

(** A writer for the example configuration, built at clock reading 1000. *)
Definition example_writer (hints : HintsExcluded) (from_data live : bool) :
    BlockCborWriter :=
  new_BlockCborWriter (example_config hints from_data) live 1000.

(** The calls that record one query-only transaction at time [t], with the
    counters at [n]. *)
Definition record_calls (t n : Z) : list Call :=
  [StartRecord (QueryOnly (example_message t 0 0));
   WriteBasic (QueryOnly (example_message t 0 0)) (example_statistics n);
   EndRecord].

(** A writer with an open file and a full block: two records, at times
    2000 and 2100 ([max_block_items] is 2). *)
Definition full_writer : BlockCborWriter :=
  run no_flags no_flags no_flags (example_writer no_hints false false)
    (CheckForRotation 2000 0 false 2000
     :: record_calls 2000 1 ++ record_calls 2100 2).

(** The [n]-th block a writer has flushed (an empty block if there is
    none). *)
Definition block_at (n : nat) (w : BlockCborWriter) : BlockData :=
  default new_BlockData (flushed w !! n).

(** A writer with an open file and one record in its block. *)
Definition one_record_writer : BlockCborWriter :=
  run no_flags no_flags no_flags (example_writer no_hints false false)
    (CheckForRotation 2000 0 false 2000 :: record_calls 2000 1).

(** Every exclusion hint set. *)
Definition all_hints : HintsExcluded :=
  {| excl_server_address := true; excl_server_port := true;
     excl_transport := true; excl_transaction_type := true;
     excl_dns_flags := true; excl_timestamp := true;
     excl_client_address := true; excl_client_port := true;
     excl_transaction_id := true; excl_query_qdcount := true;
     excl_query_class_type := true; excl_query_name := true;
     excl_query_size := true; excl_client_hoplimit := true;
     excl_query_opcode := true; excl_query_rcode := true;
     excl_query_ancount := true; excl_query_arcount := true;
     excl_query_nscount := true; excl_query_udp_size := true;
     excl_query_edns_version := true; excl_query_opt_rdata := true;
     excl_response_size := true; excl_response_rcode := true;
     excl_response_delay := true; excl_qr_flags := true;
     excl_qr_signature := true; excl_rr_ttl := true;
     excl_rr_rdata := true; excl_address_events := true |}.

(** A writer whose first file has just been opened, at time 2000. *)
Definition open_writer : BlockCborWriter :=
  checkForRotation (example_writer no_hints false false) 2000 0 false 2000.

(** A transaction at time [t] with the counters at [n]. *)
Definition example_record (t n : Z) : QueryResponse * PacketStatistics :=
  (QueryOnly (example_message t 0 0), example_statistics n).

(** An address event for 203.0.113.77. *)
Definition example_event (type code : Z) : AddressEvent :=
  {| event_type := type; event_code := code;
     event_address := ipv4 203 0 113 77 |}.

(** A configuration whose IPv4 client prefix, 40 bits, is longer than an
    IPv4 address. *)
Definition long_prefix_config : Configuration :=
  {| client_address_prefix_ipv4 := 40; client_address_prefix_ipv6 := 64;
     server_address_prefix_ipv4 := 32; server_address_prefix_ipv6 := 128;
     max_block_items := 2; max_output_size := 0;
     start_end_times_from_data := false; exclude_hints := no_hints |}.

(** The sections of a response to the example question: the question, two
    address records as answers and one name server record as additional
    data. *)
Definition example_name : byte_string :=
  [7; 101; 120; 97; 109; 112; 108; 101; 3; 99; 111; 109; 0].

Definition example_resource (type ttl : Z) (data : byte_string) :
    DNSResource :=
  {| res_dname := example_name; res_query_type := type;
     res_query_class := 1; res_ttl := ttl; res_data := data |}.

Definition example_sections : MessageSections :=
  {| sec_questions :=
       [{| dname := example_name; query_type := 1; query_class := 1 |}];
     sec_answers :=
       [example_resource 1 300 [192; 0; 2; 10];
        example_resource 1 300 [192; 0; 2; 11]];
     sec_authority := [];
     sec_additional := [example_resource 2 3600 [2; 110; 115; 0]] |}.



(** An address event of type 1 and code 0 for the address [a.b.c.d]. *)
Definition event_at (a b c d : Z) : AddressEvent :=
  {| event_type := 1; event_code := 0; event_address := ipv4 a b c d |}.

(** Four events, three of them for addresses with the same 20-bit prefix,
    with one transaction in between. *)
Definition event_calls : list Call :=
  WriteAE (event_at 203 0 113 77) (example_statistics 1)
  :: record_calls 2100 2
  ++ [WriteAE (event_at 203 0 114 1) (example_statistics 3);
      WriteAE (event_at 198 51 100 5) (example_statistics 4);
      WriteAE (event_at 203 0 113 77) (example_statistics 5)].

(** * Properties *)

(** ** Address masking *)

Lemma mask_byte_low_bits (b k i : Z) :
  0 <= i < k -> Z.testbit (to_uint8 (Z.land b (Z.shiftl 255 k))) i = false.
Proof.
  intros Hi. unfold to_uint8.
  destruct (Z.ltb_spec i 8) as [Hlt | Hge].
  - rewrite Z.mod_pow2_bits_low by lia.
    rewrite Z.land_spec, Z.shiftl_spec_low by lia.
    apply andb_false_r.
  - apply Z.mod_pow2_bits_high. lia.
Qed.

Lemma mask_byte_idemp (m b : Z) :
  to_uint8 (Z.land (to_uint8 (Z.land b m)) m) = to_uint8 (Z.land b m).
Proof.
  unfold to_uint8. change (2 ^ 8) with (2 ^ 8).
  rewrite <- !Z.land_ones by lia.
  apply Z.bits_inj'. intros i Hi.
  rewrite !Z.land_spec.
  destruct (Z.testbit b i), (Z.testbit m i), (Z.testbit (Z.ones 8) i); reflexivity.
Qed.

Section Masking.
Variables (addr : IPAddress) (config : Configuration) (is_client : bool).

Let p := selected_prefix_len addr config is_client.
Let n := (p + 7) / 8.

Hypothesis p_range : 0 <= p <= 128.

Lemma nbytes_bounds : 8 * n - 8 < p <= 8 * n.
Proof.
  unfold n.
  pose proof (Z.div_mod (p + 7) 8 ltac:(lia)).
  pose proof (Z.mod_pos_bound (p + 7) 8 ltac:(lia)). lia.
Qed.

Lemma addr_to_string_unfold :
  addr_to_string addr config is_client =
  if 0 <? n
  then alter (fun b => to_uint8 (Z.land b (Z.shiftl 255 (n * 8 - p))))
         (Z.to_nat (n - 1)) (resize (Z.to_nat n) 0 (asNetworkBinary addr))
  else resize (Z.to_nat n) 0 (asNetworkBinary addr).
Proof.
  pose proof nbytes_bounds as Hn.
  unfold addr_to_string. fold p.
  assert (Hu : to_unsigned (p + 7) = p + 7).
  { unfold to_unsigned. apply Z.mod_small. lia. }
  rewrite Hu. fold n.
  assert (Hs : to_unsigned (n * 8 - p) = n * 8 - p).
  { unfold to_unsigned. apply Z.mod_small. lia. }
  rewrite Hs. reflexivity.
Qed.

Lemma addr_to_string_length :
  length (addr_to_string addr config is_client) = Z.to_nat n.
Proof.
  rewrite addr_to_string_unfold.
  destruct (0 <? n); rewrite ?length_alter, length_resize; reflexivity.
Qed.

Lemma addr_to_string_bits_past_prefix (j : Z) :
  p <= j < 8 * n -> bit_at (addr_to_string addr config is_client) j = Some false.
Proof.
  pose proof nbytes_bounds as Hn. intros Hj.
  assert (Hq : j / 8 = n - 1).
  { symmetry. apply (Z.div_unique j 8 (n - 1) (j - 8 * (n - 1))); lia. }
  assert (Hr : j mod 8 = j - 8 * (n - 1)).
  { symmetry. apply (Z.mod_unique j 8 (n - 1) (j - 8 * (n - 1))); lia. }
  unfold bit_at. rewrite addr_to_string_unfold, Hq, Hr.
  assert (H0 : (0 <? n) = true) by (apply Z.ltb_lt; lia). rewrite H0.
  rewrite list_lookup_alter_eq.
  destruct (lookup_lt_is_Some_2 (resize (Z.to_nat n) 0 (asNetworkBinary addr))
              (Z.to_nat (n - 1))) as [b Hb].
  { rewrite length_resize. lia. }
  rewrite Hb. simpl. f_equal. apply mask_byte_low_bits. lia.
Qed.

Lemma addr_to_string_bytes (i : nat) (b : Z) :
  asNetworkBinary addr !! i = Some b -> (Z.of_nat i < n) ->
  addr_to_string addr config is_client !! i =
  Some (if decide (Z.of_nat i = n - 1)
        then to_uint8 (Z.land b (Z.shiftl 255 (n * 8 - p)))
        else b).
Proof.
  intros Hb Hi. rewrite addr_to_string_unfold.
  assert (H0 : (0 <? n) = true) by (apply Z.ltb_lt; lia). rewrite H0.
  assert (Hres : resize (Z.to_nat n) 0 (asNetworkBinary addr) !! i = Some b).
  { rewrite lookup_resize; [exact Hb | lia | eapply lookup_lt_Some; eauto]. }
  destruct (decide (Z.of_nat i = n - 1)) as [He | Hne].
  - replace (Z.to_nat (n - 1)) with i by lia.
    rewrite list_lookup_alter_eq, Hres. reflexivity.
  - rewrite list_lookup_alter_ne by lia. exact Hres.
Qed.

Lemma addr_to_string_zero_prefix :
  p = 0 -> addr_to_string addr config is_client = [].
Proof.
  intros Hp. rewrite addr_to_string_unfold.
  assert (Hn : n = 0) by (unfold n; rewrite Hp; reflexivity).
  rewrite Hn. change (0 <? 0) with false. cbv iota. apply resize_0.
Qed.

End Masking.

Lemma addr_to_string_idemp (addr : IPAddress) (config : Configuration)
    (is_client : bool) (k : nat) :
  0 <= selected_prefix_len addr config is_client <= 128 ->
  addr_to_string
    (with_bytes addr (addr_to_string addr config is_client ++ replicate k 0))
    config is_client
  = addr_to_string addr config is_client.
Proof.
  intros Hp.
  set (masked := addr_to_string addr config is_client).
  rewrite (addr_to_string_unfold (with_bytes addr (masked ++ replicate k 0)))
    by exact Hp.
  change (selected_prefix_len (with_bytes addr (masked ++ replicate k 0))
            config is_client)
    with (selected_prefix_len addr config is_client).
  set (p := selected_prefix_len addr config is_client) in *.
  set (n := (p + 7) / 8).
  cbn [asNetworkBinary with_bytes].
  rewrite resize_app by (unfold masked; rewrite addr_to_string_length; auto).
  destruct (0 <? n) eqn:H0; [| reflexivity].
  unfold masked at 1. rewrite addr_to_string_unfold by exact Hp.
  fold p n. rewrite H0, list_alter_alter_eq.
  unfold masked. rewrite addr_to_string_unfold by exact Hp. fold p n. rewrite H0.
  apply list_alter_ext; [| reflexivity].
  intros b _. apply mask_byte_idemp.
Qed.

(** C3. For an address and the prefix length [p] that [addr_to_string]
    selects (a valid one, at most 128 bits), the masked address has exactly
    ceil(p/8) bytes; every bit from position [p] on is zero; the bytes before
    the last are those of the address and the last is the address byte
    masked with [0xff << (nbytes*8 - p)]; [p = 0] gives the empty string; and
    masking the masked address again (as it stands, or padded back with zero
    bytes) returns it unchanged. *)
Theorem addr_to_string_masks_prefix (addr : IPAddress)
    (config : Configuration) (is_client : bool) :
  0 <= selected_prefix_len addr config is_client <= 128 ->
  (8 * Z.of_nat (length (addr_to_string addr config is_client)) - 8
     < selected_prefix_len addr config is_client
     <= 8 * Z.of_nat (length (addr_to_string addr config is_client)))
  /\ (forall j,
        selected_prefix_len addr config is_client <= j
          < 8 * Z.of_nat (length (addr_to_string addr config is_client)) ->
        bit_at (addr_to_string addr config is_client) j = Some false)
  /\ (forall (i : nat) (b : Z),
        asNetworkBinary addr !! i = Some b ->
        (i < length (addr_to_string addr config is_client))%nat ->
        addr_to_string addr config is_client !! i =
        Some (if decide (S i = length (addr_to_string addr config is_client))
              then to_uint8
                     (Z.land b
                        (Z.shiftl 255
                           (Z.of_nat (length (addr_to_string addr config is_client)) * 8
                            - selected_prefix_len addr config is_client)))
              else b))
  /\ (selected_prefix_len addr config is_client = 0 ->
      addr_to_string addr config is_client = [])
  /\ (forall k : nat,
        addr_to_string
          (with_bytes addr
             (addr_to_string addr config is_client ++ replicate k 0))
          config is_client
        = addr_to_string addr config is_client).
Proof.
  intros Hp.
  pose proof (nbytes_bounds addr config is_client) as Hn.
  pose proof (addr_to_string_length addr config is_client Hp) as Hlen.
  set (p := selected_prefix_len addr config is_client) in *.
  set (n := (p + 7) / 8) in *.
  assert (Hzn : Z.of_nat (length (addr_to_string addr config is_client)) = n).
  { rewrite Hlen. lia. }
  rewrite Hzn.
  split; [exact Hn |].
  split; [intros j Hj; apply addr_to_string_bits_past_prefix; assumption |].
  split.
  { intros i b Hb Hi.
    rewrite (addr_to_string_bytes addr config is_client Hp i b Hb)
      by (fold p n; lia).
    fold p n. f_equal.
    destruct (decide (Z.of_nat i = n - 1)) as [He | Hne];
      destruct (decide (S i = length (addr_to_string addr config is_client)))
        as [He' | Hne']; try reflexivity; exfalso; lia. }
  split; [apply addr_to_string_zero_prefix; assumption |].
  intros k. apply addr_to_string_idemp. exact Hp.
Qed.

Lemma addr_to_string_masks_prefix_witness :
  addr_to_string (ipv4 198 51 111 5) (example_config no_hints false) true
    = [198; 51; 96]
  /\ bit_at (addr_to_string (ipv4 198 51 111 5)
               (example_config no_hints false) true) 20 = Some false
  /\ addr_to_string
       (with_bytes (ipv4 198 51 111 5)
          (addr_to_string (ipv4 198 51 111 5)
             (example_config no_hints false) true ++ replicate 1%nat 0))
       (example_config no_hints false) true
     = addr_to_string (ipv4 198 51 111 5) (example_config no_hints false) true.
Proof.
  assert (Hp : 0 <= selected_prefix_len (ipv4 198 51 111 5)
                      (example_config no_hints false) true <= 128)
    by (vm_compute; split; discriminate).
  destruct (addr_to_string_masks_prefix (ipv4 198 51 111 5)
              (example_config no_hints false) true Hp)
    as (_ & Hbits & _ & _ & Hidem).
  split; [reflexivity |].
  split; [apply Hbits; vm_compute; split; [discriminate | reflexivity] |].
  apply Hidem.
Defined.

(** ** Intern tables *)

Section InternTableFacts.
Context {T : Type} `{EqDecision T}.
Implicit Types (v x : T) (tbl : list T).

Lemma find_index_Some v tbl i : find_index v tbl = Some i -> tbl !! i = Some v.
Proof.
  revert i. induction tbl as [| x tbl IH]; intros i; simpl; [discriminate |].
  destruct (decide (x = v)) as [-> | Hne].
  - intros [= <-]. reflexivity.
  - destruct (find_index v tbl) as [k |]; simpl; [| discriminate].
    intros [= <-]. simpl. apply IH. reflexivity.
Qed.

Lemma intern_lookup v tbl : intern_table v tbl !! intern_index v tbl = Some v.
Proof.
  unfold intern_table, intern_index.
  destruct (find_index v tbl) as [i |] eqn:Hf.
  - apply find_index_Some. exact Hf.
  - apply list_lookup_middle. reflexivity.
Qed.

Lemma intern_table_keeps v tbl i x :
  tbl !! i = Some x -> intern_table v tbl !! i = Some x.
Proof.
  intros Hi. unfold intern_table.
  destruct (find_index v tbl); [exact Hi |].
  apply lookup_app_l_Some. exact Hi.
Qed.

Lemma intern_table_if_keeps (c : bool) v tbl i x :
  tbl !! i = Some x -> (if c then intern_table v tbl else tbl) !! i = Some x.
Proof. destruct c; [apply intern_table_keeps | trivial]. Qed.

End InternTableFacts.

(** ** The extended rcode *)

Lemma add_extended_rcode (r e : Z) :
  0 <= r < 16 -> 0 <= e -> r + Z.shiftl e 4 = Z.lor (Z.shiftl e 4) r.
Proof.
  intros Hr He.
  assert (Hland : Z.land (Z.shiftl e 4) r = 0).
  { apply Z.bits_inj'. intros i Hi.
    rewrite Z.land_spec, Z.bits_0.
    destruct (Z.ltb_spec i 4) as [Hlt | Hge].
    - rewrite Z.shiftl_spec_low by lia. reflexivity.
    - rewrite <- (Z.mod_small r (2 ^ 4)) by lia.
      rewrite Z.mod_pow2_bits_high by lia. apply andb_false_r. }
  rewrite Z.add_comm, Z.add_nocarry_lxor by exact Hland.
  apply Z.lxor_lor. exact Hland.
Qed.

Section WriteBasicProperties.
Variables tf tt df : QueryResponse -> Z.

Ltac eval_basic :=
  unfold item_of, block_of, signature_of, writeBasic, writeBasic_qs,
    block_times, basic_info, first_query_info, query_info, response_info,
    delay_and_signature;
  cbn [leading_message query response].

(** What lines 211-216 do: [query_nscount] is stored under the
    [query_arcount] hint and [query_arcount] under the [query_nscount]
    hint. *)
Lemma writeBasic_query_counts (w : BlockCborWriter) (q : DNSMessage)
    (stats : PacketStatistics) :
  query_ancount (signature_of tf tt df w (QueryOnly q) stats) =
    (if excl_query_ancount (exclude_hints (config_ w)) then None
     else Some (answers_count (dns q)))
  /\ query_nscount (signature_of tf tt df w (QueryOnly q) stats) =
    (if excl_query_arcount (exclude_hints (config_ w)) then None
     else Some (authority_count (dns q)))
  /\ query_arcount (signature_of tf tt df w (QueryOnly q) stats) =
    (if excl_query_nscount (exclude_hints (config_ w)) then None
     else Some (additional_count (dns q))).
Proof.
  eval_basic.
  destruct (queries (dns q)), (edns0 (dns q)); cbn.
  all: destruct (excl_query_ancount _), (excl_query_arcount _),
         (excl_query_nscount _); auto.
Qed.

(** C2. For each side of a transaction that carries an OPT record with
    extended rcode [e], whose base rcode [r] is a 4-bit DNS rcode, and whose
    rcode field is not excluded, the rcode stored in the signature
    ([query_rcode] for the query, [response_rcode] for the response) is
    [(e << 4) | r]. *)
Theorem writeBasic_extended_rcode (w : BlockCborWriter) (qr : QueryResponse)
    (stats : PacketStatistics) :
  (forall q e,
     query qr = Some q -> edns0 (dns q) = Some e ->
     excl_query_rcode (exclude_hints (config_ w)) = false ->
     0 <= rcode (dns q) < 16 -> 0 <= extended_rcode e ->
     query_rcode (signature_of tf tt df w qr stats)
     = Some (Z.lor (Z.shiftl (extended_rcode e) 4) (rcode (dns q))))
  /\ (forall r e,
        response qr = Some r -> edns0 (dns r) = Some e ->
        excl_response_rcode (exclude_hints (config_ w)) = false ->
        0 <= rcode (dns r) < 16 -> 0 <= extended_rcode e ->
        response_rcode (signature_of tf tt df w qr stats)
        = Some (Z.lor (Z.shiftl (extended_rcode e) 4) (rcode (dns r)))).
Proof.
  split.
  - intros q e Hq He Hx Hr Hext.
    destruct qr as [q' | r' | q' r']; simplify_eq/=; eval_basic; rewrite He, Hx.
    + destruct (queries (dns q)); cbn; unfold Rcode;
        rewrite add_extended_rcode by assumption; reflexivity.
    + destruct (queries (dns q)), (edns0 (dns r')); cbn; unfold Rcode;
        rewrite add_extended_rcode by assumption; reflexivity.
  - intros r e Hr He Hx Hrc Hext.
    destruct qr as [q' | r' | q' r']; simplify_eq/=; eval_basic; rewrite He, Hx.
    + destruct (queries (dns r)); cbn; unfold Rcode;
        rewrite add_extended_rcode by assumption; reflexivity.
    + destruct (queries (dns q')), (edns0 (dns q')); cbn; unfold Rcode;
        rewrite add_extended_rcode by assumption; reflexivity.
Qed.

(** C9. For a transaction with a response and no query, [query_opcode] is
    the opcode of the response unless the [query_opcode] hint excludes it;
    when the transaction has a query, the query's opcode stands and the
    response does not replace it. *)
Theorem writeBasic_query_opcode (w : BlockCborWriter) (q r : DNSMessage)
    (stats : PacketStatistics) :
  query_opcode (signature_of tf tt df w (ResponseOnly r) stats)
  = (if excl_query_opcode (exclude_hints (config_ w)) then None
     else Some (opcode (dns r)))
  /\ query_opcode (signature_of tf tt df w (QueryAndResponse q r) stats)
     = (if excl_query_opcode (exclude_hints (config_ w)) then None
        else Some (opcode (dns q))).
Proof.
  split; eval_basic.
  - destruct (queries (dns r)), (edns0 (dns r)); cbn;
      destruct (excl_query_opcode _); reflexivity.
  - destruct (queries (dns q)), (edns0 (dns q)), (edns0 (dns r)); cbn;
      destruct (excl_query_opcode _); reflexivity.
Qed.

(** C8. For a transaction with a response and no query, [writeBasic] reads
    the response as the leading message: timestamp, client port, server
    port, transaction id and qdcount are those of the response (each unless
    its hint excludes it), the client and server address indices point at
    the masked addresses of the response, the qname and classtype indices
    point at the name and class/type of the response's first question, and
    bit 4 of [qr_flags] (QUERY_HAS_NO_QUESTION) is set exactly when the
    response has no question. *)
Theorem writeBasic_response_only (w : BlockCborWriter) (r : DNSMessage)
    (stats : PacketStatistics) :
  qri_tstamp (item_of tf tt df w (ResponseOnly r) stats)
  = (if excl_timestamp (exclude_hints (config_ w))
     then qri_tstamp (query_response_ w) else Some (timestamp r))
  /\ qri_client_port (item_of tf tt df w (ResponseOnly r) stats)
     = (if excl_client_port (exclude_hints (config_ w))
        then qri_client_port (query_response_ w)
        else match clientPort r with
             | Some p => Some p
             | None => qri_client_port (query_response_ w)
             end)
  /\ server_port (signature_of tf tt df w (ResponseOnly r) stats)
     = (if excl_server_port (exclude_hints (config_ w)) then None
        else serverPort r)
  /\ qri_id (item_of tf tt df w (ResponseOnly r) stats)
     = (if excl_transaction_id (exclude_hints (config_ w))
        then qri_id (query_response_ w) else Some (dns_id (dns r)))
  /\ qdcount (signature_of tf tt df w (ResponseOnly r) stats)
     = (if excl_query_qdcount (exclude_hints (config_ w)) then None
        else Some (questions_count (dns r)))
  /\ (forall ip,
        clientIP r = Some ip ->
        excl_client_address (exclude_hints (config_ w)) = false ->
        exists i,
          qri_client_address (item_of tf tt df w (ResponseOnly r) stats)
          = Some i
          /\ addresses (block_of tf tt df w (ResponseOnly r) stats) !! i
             = Some (addr_to_string ip (config_ w) true))
  /\ (forall ip,
        serverIP r = Some ip ->
        excl_server_address (exclude_hints (config_ w)) = false ->
        exists i,
          server_address (signature_of tf tt df w (ResponseOnly r) stats)
          = Some i
          /\ addresses (block_of tf tt df w (ResponseOnly r) stats) !! i
             = Some (addr_to_string ip (config_ w) false))
  /\ (forall question rest,
        queries (dns r) = question :: rest ->
        excl_query_name (exclude_hints (config_ w)) = false ->
        exists i,
          qri_qname (item_of tf tt df w (ResponseOnly r) stats) = Some i
          /\ names_rdatas (block_of tf tt df w (ResponseOnly r) stats) !! i
             = Some (dname question))
  /\ (forall question rest,
        queries (dns r) = question :: rest ->
        excl_query_class_type (exclude_hints (config_ w)) = false ->
        exists i,
          query_classtype (signature_of tf tt df w (ResponseOnly r) stats)
          = Some i
          /\ class_types (block_of tf tt df w (ResponseOnly r) stats) !! i
             = Some {| qtype := query_type question;
                       qclass := query_class question |})
  /\ (Z.testbit (qri_qr_flags (item_of tf tt df w (ResponseOnly r) stats)) 4
      = true <-> queries (dns r) = []).
Proof.
  repeat apply conj.
  - eval_basic. destruct (queries (dns r)), (edns0 (dns r)); cbn;
      destruct (excl_timestamp _); reflexivity.
  - eval_basic. destruct (queries (dns r)), (edns0 (dns r)); cbn;
      destruct (excl_client_port _), (clientPort r); reflexivity.
  - eval_basic. destruct (queries (dns r)), (edns0 (dns r)); cbn;
      destruct (excl_server_port _), (serverPort r); reflexivity.
  - eval_basic. destruct (queries (dns r)), (edns0 (dns r)); cbn;
      destruct (excl_transaction_id _); reflexivity.
  - eval_basic. destruct (queries (dns r)), (edns0 (dns r)); cbn;
      destruct (excl_query_qdcount _); reflexivity.
  - intros ip Hip Hx. eval_basic. rewrite Hip, Hx.
    destruct (queries (dns r)), (edns0 (dns r)); cbn;
      (eexists; split; [reflexivity | apply intern_lookup]).
  - intros ip Hip Hx. eval_basic. rewrite Hip, Hx.
    destruct (queries (dns r)), (edns0 (dns r)); cbn;
      (eexists; split;
       [reflexivity | apply intern_table_if_keeps, intern_lookup]).
  - intros question rest Hq Hx. eval_basic. rewrite Hq, Hx.
    destruct (edns0 (dns r)); cbn;
      (eexists; split; [reflexivity | apply intern_lookup]).
  - intros question rest Hq Hx. eval_basic. rewrite Hq, Hx.
    destruct (edns0 (dns r)); cbn;
      (eexists; split; [reflexivity | apply intern_lookup]).
  - eval_basic.
    destruct (queries (dns r)), (edns0 (dns r)); cbn;
      destruct (questions_count (dns r) =? 0); cbn;
      intros Hbit; vm_compute in Hbit; try reflexivity; discriminate.
  - eval_basic. intros Hnil. rewrite Hnil.
    destruct (edns0 (dns r)); cbn;
      destruct (questions_count (dns r) =? 0); reflexivity.
Qed.

End WriteBasicProperties.

(** C1. The code at an input where the claim fails: with only the
    [query_arcount] hint set, a query with authority count 1 and additional
    count 2 gets a signature without [query_nscount] and with
    [query_arcount = 2]; the claim asks for [query_nscount = 1] and no
    [query_arcount]. *)
Theorem writeBasic_counts_under_query_arcount_hint :
  authority_count (dns (example_message 2000 0 0)) = 1
  /\ additional_count (dns (example_message 2000 0 0)) = 2
  /\ query_nscount
       (signature_of no_flags no_flags no_flags
          (new_BlockCborWriter (example_config arcount_hint_only false) false 0)
          (QueryOnly (example_message 2000 0 0)) (example_statistics 1))
     = None
  /\ query_arcount
       (signature_of no_flags no_flags no_flags
          (new_BlockCborWriter (example_config arcount_hint_only false) false 0)
          (QueryOnly (example_message 2000 0 0)) (example_statistics 1))
     = Some 2.
Proof. repeat split. Qed.

Lemma writeBasic_extended_rcode_witness :
  query_rcode
    (signature_of no_flags no_flags no_flags
       (new_BlockCborWriter (example_config no_hints false) false 0)
       (QueryAndResponse (example_message 2000 0 1) (example_message 2005 7 1))
       (example_statistics 1))
  = Some (Z.lor (Z.shiftl 1 4) 0)
  /\ response_rcode
       (signature_of no_flags no_flags no_flags
          (new_BlockCborWriter (example_config no_hints false) false 0)
          (QueryAndResponse (example_message 2000 0 1)
             (example_message 2005 7 1))
          (example_statistics 1))
     = Some (Z.lor (Z.shiftl 1 4) 7).
Proof.
  destruct (writeBasic_extended_rcode no_flags no_flags no_flags
              (new_BlockCborWriter (example_config no_hints false) false 0)
              (QueryAndResponse (example_message 2000 0 1)
                 (example_message 2005 7 1))
              (example_statistics 1)) as [Hquery Hresponse].
  split.
  - apply (Hquery (example_message 2000 0 1)
             {| extended_rcode := 1; udp_payload_size := 4096;
                edns_version := 0; opt_rr_data := [] |});
      [reflexivity | reflexivity | reflexivity | simpl; lia | simpl; lia].
  - apply (Hresponse (example_message 2005 7 1)
             {| extended_rcode := 1; udp_payload_size := 4096;
                edns_version := 0; opt_rr_data := [] |});
      [reflexivity | reflexivity | reflexivity | simpl; lia | simpl; lia].
Defined.

Lemma writeBasic_response_only_witness :
  exists i,
    qri_client_address
      (item_of no_flags no_flags no_flags
         (new_BlockCborWriter (example_config no_hints false) false 0)
         (ResponseOnly (example_message 2005 3 0)) (example_statistics 1))
    = Some i
    /\ addresses
         (block_of no_flags no_flags no_flags
            (new_BlockCborWriter (example_config no_hints false) false 0)
            (ResponseOnly (example_message 2005 3 0)) (example_statistics 1))
       !! i
       = Some [198; 51; 96].
Proof.
  destruct (writeBasic_response_only no_flags no_flags no_flags
              (new_BlockCborWriter (example_config no_hints false) false 0)
              (example_message 2005 3 0) (example_statistics 1))
    as (_ & _ & _ & _ & _ & Hclient & _).
  apply (Hclient (ipv4 198 51 100 5)); reflexivity.
Defined.

(** ** Flushing *)

Lemma flushed_blocks_enc_call (c : EncoderCall) (e : Encoder) :
  flushed_blocks (enc_call c e)
  = flushed_blocks e ++ match c with WriteBlock b => [b] | _ => [] end.
Proof.
  unfold flushed_blocks, enc_call. cbn. rewrite omap_app. cbn.
  destruct c; reflexivity.
Qed.

Lemma flushed_blocks_enc_open (e : Encoder) :
  flushed_blocks (enc_open e) = flushed_blocks e.
Proof.
  unfold flushed_blocks, enc_open. cbn. rewrite omap_app. cbn.
  apply app_nil_r.
Qed.

Lemma flushed_blocks_enc_close (e : Encoder) :
  flushed_blocks (enc_close e) = flushed_blocks e.
Proof.
  unfold flushed_blocks, enc_close. cbn. rewrite omap_app. cbn.
  apply app_nil_r.
Qed.

Ltac flushed_norm :=
  unfold flushed, flushed_blocks; cbn; rewrite ?omap_app; cbn;
  rewrite ?app_nil_r.

Lemma flushed_writeBlock (w : BlockCborWriter) :
  flushed (writeBlock w)
  = flushed w
    ++ [set_last_packet_statistics_if true (last_end_block_statistics_ w)
          (data_ w)].
Proof. unfold writeBlock. flushed_norm. reflexivity. Qed.

(** C4. The leading timestamp of a record is the query's if it has a
    query, else the response's. When the block is full, [startRecord]
    serialises exactly one block [B]: its [end_time] is that timestamp, its
    items are those of the full block, and the block left in the writer is
    the cleared one with [start_time] set to the same timestamp and no
    items. When the block is not full, [startRecord] serialises nothing and
    leaves the block as it is. *)
Theorem startRecord_flushes_full_block (w : BlockCborWriter)
    (qr : QueryResponse) :
  timestamp (leading_message qr)
  = match query qr, response qr with
    | Some q, _ => timestamp q
    | None, Some r => timestamp r
    | None, None => 0
    end
  /\ (is_full (config_ w) (data_ w) = true ->
      exists B,
        calls (enc_ (startRecord w qr)) = calls (enc_ w) ++ [WriteBlock B]
        /\ flushed (startRecord w qr) = flushed w ++ [B]
        /\ end_time B = Some (timestamp (leading_message qr))
        /\ query_response_items B = query_response_items (data_ w)
        /\ data_ (startRecord w qr)
           = set_start_time_if true (Some (timestamp (leading_message qr)))
               (clear B)
        /\ query_response_items (data_ (startRecord w qr)) = []
        /\ start_time (data_ (startRecord w qr))
           = Some (timestamp (leading_message qr)))
  /\ (is_full (config_ w) (data_ w) = false ->
      calls (enc_ (startRecord w qr)) = calls (enc_ w)
      /\ flushed (startRecord w qr) = flushed w
      /\ data_ (startRecord w qr) = data_ w).
Proof.
  split; [destruct qr; reflexivity |].
  split; intros Hfull; unfold startRecord; rewrite Hfull.
  - eexists. split; [reflexivity |].
    split; [unfold writeBlock; flushed_norm; reflexivity |].
    repeat split.
  - repeat split.
Qed.

(** ** The member functions in closed form *)

Lemma writeFileHeader_eq (w : BlockCborWriter) :
  writeFileHeader w
  = set_enc_
      {| is_open := is_open (enc_ w);
         calls := calls (enc_ w) ++ file_preamble ++ [WriteArrayHeader None] |}
      w.
Proof.
  destruct w as [cfg [o cs] live data qri le ns].
  cbv -[app]. rewrite <- !app_assoc. reflexivity.
Qed.

Lemma close_open (w : BlockCborWriter) (now : Z) :
  is_open (enc_ w) = true ->
  close w now
  = {| config_ := config_ w;
       enc_ := {| is_open := false;
                  calls := calls (enc_ w)
                           ++ [WriteBlock (closing_block w now); WriteBreak;
                               Close] |};
       live_ := live_ w;
       data_ := clear (closing_block w now);
       query_response_ := query_response_ w;
       last_end_block_statistics_ := last_end_block_statistics_ w;
       need_start_block_stats_ := true |}.
Proof.
  destruct w as [cfg [o cs] live data qri le ns]. cbn [enc_ is_open].
  intros ->. cbv -[app]. rewrite <- !app_assoc. reflexivity.
Qed.

Lemma close_closed (w : BlockCborWriter) (now : Z) :
  is_open (enc_ w) = false -> close w now = w.
Proof. unfold close. intros ->. reflexivity. Qed.

(** ** The statistics window *)

Lemma close_step (w : BlockCborWriter) (now : Z) :
  window_step w (close w now).
Proof.
  destruct (is_open (enc_ w)) eqn:Hopen.
  - rewrite close_open by exact Hopen.
    apply (step_flush _ _ (closing_block w now)); try reflexivity.
    flushed_norm. reflexivity.
  - rewrite close_closed by exact Hopen. apply step_neutral; reflexivity.
Qed.

Lemma checkForRotation_step (w : BlockCborWriter) (ts bytes : Z)
    (need : bool) (now : Z) :
  window_step w (checkForRotation w ts bytes need now).
Proof.
  unfold checkForRotation.
  destruct (negb (is_open (enc_ w)) || _ || need);
    [| apply step_neutral; reflexivity].
  rewrite writeFileHeader_eq.
  destruct (is_open (enc_ w)) eqn:Hopen.
  - rewrite close_open by exact Hopen.
    eapply step_flush; [flushed_norm; reflexivity | reflexivity..].
  - apply step_neutral; [flushed_norm; reflexivity | reflexivity..].
Qed.

Lemma startRecord_step (w : BlockCborWriter) (qr : QueryResponse) :
  window_step w (startRecord w qr).
Proof.
  unfold startRecord. destruct (is_full (config_ w) (data_ w)).
  - eapply step_flush;
      [unfold writeBlock; flushed_norm; reflexivity | reflexivity..].
  - apply step_neutral; reflexivity.
Qed.

Lemma endRecord_step (w : BlockCborWriter) : window_step w (endRecord w).
Proof. apply step_neutral; reflexivity. Qed.

Lemma writeAE_step (w : BlockCborWriter) (ae : AddressEvent)
    (stats : PacketStatistics) :
  window_step w (writeAE w ae stats).
Proof.
  unfold writeAE.
  destruct (negb (excl_address_events (exclude_hints (config_ w))));
    apply (step_update _ _ stats); reflexivity.
Qed.

Section Window.
Variables tf tt df : QueryResponse -> Z.

Lemma basic_info_frame (config : Configuration) (qr : QueryResponse)
    (d : DNSMessage) (st : BasicState) :
  frame (basic_info tf tt df config qr d st).1.1 = frame st.1.1.
Proof. destruct st as [[data qri] qs]. reflexivity. Qed.

Lemma first_query_info_frame (exclude : HintsExcluded) (d : DNSMessage)
    (st : BasicState) :
  frame (first_query_info exclude d st).1.1 = frame st.1.1.
Proof.
  destruct st as [[data qri] qs]. unfold first_query_info.
  destruct (queries (dns d)); reflexivity.
Qed.

Lemma query_info_frame (exclude : HintsExcluded) (q : DNSMessage)
    (st : BasicState) :
  frame (query_info exclude q st).1.1 = frame st.1.1.
Proof.
  destruct st as [[data qri] qs]. unfold query_info.
  destruct (edns0 (dns q)); reflexivity.
Qed.

Lemma response_info_frame (exclude : HintsExcluded) (r : DNSMessage)
    (st : BasicState) :
  frame (response_info exclude r st).1.1 = frame st.1.1.
Proof.
  destruct st as [[data qri] qs]. unfold response_info.
  destruct (edns0 (dns r)); reflexivity.
Qed.

Lemma delay_and_signature_frame (exclude : HintsExcluded)
    (qr : QueryResponse) (st : BasicState) :
  frame (delay_and_signature exclude qr st).1.1 = frame st.1.1.
Proof. destruct st as [[data qri] qs]. reflexivity. Qed.

(** [writeBasic] changes the encoder and the window as [updateBlockStats]
    does, and the frame of the block as [block_times] does. *)
Lemma writeBasic_frame (w : BlockCborWriter) (qr : QueryResponse)
    (stats : PacketStatistics) :
  frame (data_ (writeBasic tf tt df w qr stats))
  = frame (block_times (config_ w) (leading_message qr)
             (data_ (updateBlockStats w stats))).
Proof.
  unfold writeBasic, writeBasic_qs. cbn [fst data_ set_query_response_ set_data_].
  rewrite delay_and_signature_frame.
  destruct qr as [q | r | q r]; cbn [query response leading_message];
    rewrite ?response_info_frame, ?query_info_frame, first_query_info_frame,
      basic_info_frame; reflexivity.
Qed.

Lemma writeBasic_step (w : BlockCborWriter) (qr : QueryResponse)
    (stats : PacketStatistics) :
  window_step w (writeBasic tf tt df w qr stats).
Proof.
  pose proof (writeBasic_frame w qr stats) as Hframe.
  apply (step_update _ _ stats); try reflexivity.
  apply (f_equal (fun f => f.1.1.2)) in Hframe. exact Hframe.
Qed.

Lemma call_step (w : BlockCborWriter) (c : Call) :
  window_step w (call tf tt df w c).
Proof.
  destruct c; cbn [call].
  - apply checkForRotation_step.
  - apply startRecord_step.
  - apply writeBasic_step.
  - apply endRecord_step.
  - apply writeAE_step.
  - apply close_step.
Qed.

(** A call that reaches [updateBlockStats] goes through it exactly once and
    serialises nothing. *)
Lemma call_updates (w : BlockCborWriter) (c : Call) :
  updates_statistics c ->
  flushed (call tf tt df w c) = flushed w
  /\ start_packet_statistics (data_ (call tf tt df w c))
     = (if need_start_block_stats_ w then last_end_block_statistics_ w
        else start_packet_statistics (data_ w))
  /\ need_start_block_stats_ (call tf tt df w c) = false.
Proof.
  destruct c; cbn [updates_statistics call]; try contradiction; intros _.
  - pose proof (writeBasic_frame w qr stats) as Hframe.
    apply (f_equal (fun f => f.1.1.2)) in Hframe.
    split; [reflexivity | split; [exact Hframe | reflexivity]].
  - unfold writeAE.
    destruct (negb (excl_address_events (exclude_hints (config_ w))));
      repeat split.
Qed.

Lemma window_step_flushed (w w' : BlockCborWriter) :
  window_step w w' -> exists l, flushed w' = flushed w ++ l.
Proof.
  intros [stats Hf _ _ _ | Hf _ _ _ | B Hf _ _ _ _].
  - exists []. rewrite app_nil_r. exact Hf.
  - exists []. rewrite app_nil_r. exact Hf.
  - exists [B]. exact Hf.
Qed.

Lemma run_flushed (cs : list Call) (w : BlockCborWriter) :
  exists l, flushed (run tf tt df w cs) = flushed w ++ l.
Proof.
  revert w. induction cs as [| c cs IH]; intros w.
  - exists []. symmetry. apply app_nil_r.
  - destruct (IH (call tf tt df w c)) as [l2 Hl2].
    destruct (window_step_flushed _ _ (call_step w c)) as [l1 Hl1].
    exists (l1 ++ l2).
    change (run tf tt df w (c :: cs))
      with (run tf tt df (call tf tt df w c) cs).
    rewrite Hl2, Hl1.
    symmetry. apply app_assoc.
Qed.

(** A run that serialises nothing serialises nothing at its first call. *)
Lemma run_no_flush_head (c : Call) (cs : list Call) (w : BlockCborWriter) :
  flushed (run tf tt df w (c :: cs)) = flushed w ->
  flushed (call tf tt df w c) = flushed w
  /\ flushed (run tf tt df (call tf tt df w c) cs)
     = flushed (call tf tt df w c).
Proof.
  change (run tf tt df w (c :: cs))
    with (run tf tt df (call tf tt df w c) cs).
  intros Hrun.
  destruct (run_flushed cs (call tf tt df w c)) as [l2 Hl2].
  destruct (window_step_flushed _ _ (call_step w c)) as [l1 Hl1].
  rewrite Hl2, Hl1, <- app_assoc in Hrun.
  rewrite <- (app_nil_r (flushed w)) in Hrun at 2.
  apply app_inv_head in Hrun. apply app_eq_nil in Hrun as [-> ->].
  rewrite Hl2, Hl1, !app_nil_r. split; reflexivity.
Qed.

Lemma not_flushing (l : list BlockData) (B : BlockData) : l ++ [B] <> l.
Proof.
  intros H. apply (f_equal length) in H. rewrite length_app in H.
  cbn in H. lia.
Qed.

Lemma window_started_keeps (L : PacketStatistics) (w : BlockCborWriter)
    (c : Call) :
  flushed (call tf tt df w c) = flushed w ->
  window_started L w -> window_started L (call tf tt df w c).
Proof.
  intros Hsame [Hneed Hstart].
  destruct (call_step w c) as [stats _ Hs Hn _ | _ Hs Hn _ | B Hf _ _ _ _].
  - rewrite Hneed in Hs. split; congruence.
  - split; congruence.
  - rewrite Hsame in Hf. symmetry in Hf. destruct (not_flushing _ _ Hf).
Qed.

Lemma window_after_keeps (L : PacketStatistics) (w : BlockCborWriter)
    (c : Call) :
  flushed (call tf tt df w c) = flushed w ->
  window_after L w -> window_after L (call tf tt df w c).
Proof.
  intros Hsame Hw.
  destruct (call_step w c) as [stats _ Hs Hn _ | _ Hs Hn Hl | B Hf _ _ _ _].
  - right. split; [exact Hn |].
    destruct Hw as [[Hneed Hlast] | [Hneed Hstart]]; rewrite Hneed in Hs;
      congruence.
  - destruct Hw as [[Hneed Hlast] | [Hneed Hstart]];
      [left | right]; split; congruence.
  - rewrite Hsame in Hf. symmetry in Hf. destruct (not_flushing _ _ Hf).
Qed.

Lemma window_started_run (L : PacketStatistics) (cs : list Call)
    (w : BlockCborWriter) :
  flushed (run tf tt df w cs) = flushed w ->
  window_started L w -> window_started L (run tf tt df w cs).
Proof.
  revert w. induction cs as [| c cs IH]; intros w Hrun Hw; [exact Hw |].
  destruct (run_no_flush_head c cs w Hrun) as [Hc Hcs].
  change (run tf tt df w (c :: cs))
    with (run tf tt df (call tf tt df w c) cs).
  apply IH; [exact Hcs |]. apply window_started_keeps; assumption.
Qed.

Lemma window_after_run (L : PacketStatistics) (cs : list Call)
    (w : BlockCborWriter) :
  flushed (run tf tt df w cs) = flushed w ->
  Exists updates_statistics cs ->
  window_after L w -> window_started L (run tf tt df w cs).
Proof.
  revert w. induction cs as [| c cs IH]; intros w Hrun Hex Hw.
  - inversion Hex.
  - destruct (run_no_flush_head c cs w Hrun) as [Hc Hcs].
    change (run tf tt df w (c :: cs))
      with (run tf tt df (call tf tt df w c) cs).
    apply Exists_cons in Hex as [Hupd | Hex].
    + apply window_started_run; [exact Hcs |].
      destruct (call_updates w c Hupd) as (_ & Hs & Hn).
      split; [exact Hn |].
      destruct Hw as [[Hneed Hlast] | [Hneed Hstart]]; rewrite Hneed in Hs;
        congruence.
    + apply IH; [exact Hcs | exact Hex |].
      apply window_after_keeps; assumption.
Qed.

(** C5, amended. Let a call [f1] flush block [B1] and a later call [f2]
    flush block [B2], with no flush in between. If at least one call between
    them reached [updateBlockStats] ([writeBasic] or [writeAE]), then
    [B2.start_packet_statistics = B1.last_packet_statistics]. *)
Theorem consecutive_blocks_statistics (w : BlockCborWriter)
    (f1 f2 : Call) (cs : list Call) (B1 B2 : BlockData) :
  flushed (call tf tt df w f1) = flushed w ++ [B1] ->
  Exists updates_statistics cs ->
  flushed (run tf tt df (call tf tt df w f1) cs)
  = flushed (call tf tt df w f1) ->
  flushed (call tf tt df (run tf tt df (call tf tt df w f1) cs) f2)
  = flushed (run tf tt df (call tf tt df w f1) cs) ++ [B2] ->
  start_packet_statistics B2 = last_packet_statistics B1.
Proof.
  intros Hf1 Hupd Hquiet Hf2.
  assert (Hafter : window_after (last_packet_statistics B1)
                     (call tf tt df w f1)).
  { destruct (call_step w f1) as [stats Hf | Hf | B Hf _ HB Hn Hl].
    - rewrite Hf in Hf1. symmetry in Hf1. destruct (not_flushing _ _ Hf1).
    - rewrite Hf in Hf1. symmetry in Hf1. destruct (not_flushing _ _ Hf1).
    - rewrite Hf1 in Hf. apply app_inv_head in Hf. injection Hf as <-.
      left. split; congruence. }
  destruct (window_after_run _ cs _ Hquiet Hupd Hafter) as [Hneed Hstart].
  destruct (call_step (run tf tt df (call tf tt df w f1) cs) f2)
    as [stats Hf | Hf | B Hf HB _ _ _].
  - rewrite Hf in Hf2. symmetry in Hf2. destruct (not_flushing _ _ Hf2).
  - rewrite Hf in Hf2. symmetry in Hf2. destruct (not_flushing _ _ Hf2).
  - rewrite Hf2 in Hf. apply app_inv_head in Hf. injection Hf as <-.
    congruence.
Qed.

End Window.

(** ** The first block *)

Section FirstBlock.
Variables tf tt df : QueryResponse -> Z.




End FirstBlock.

(** ** Time bounds *)

Lemma foldl_min_min (a b : Z) (ts : list Z) :
  foldl Z.min (Z.min a b) ts = Z.min a (foldl Z.min b ts).
Proof.
  revert b. induction ts as [| t ts IH]; intros b; cbn; [reflexivity |].
  rewrite <- IH, Z.min_assoc. reflexivity.
Qed.

Lemma foldl_max_max (a b : Z) (ts : list Z) :
  foldl Z.max (Z.max a b) ts = Z.max a (foldl Z.max b ts).
Proof.
  revert b. induction ts as [| t ts IH]; intros b; cbn; [reflexivity |].
  rewrite <- IH, Z.max_assoc. reflexivity.
Qed.

Lemma minimum_le (t : Z) (ts : list Z) :
  Forall (fun x => minimum t ts <= x) (t :: ts).
Proof.
  unfold minimum. revert t. induction ts as [| u ts IH]; intros t; cbn.
  - constructor; [lia | constructor].
  - specialize (IH (Z.min t u)). rewrite foldl_min_min in *.
    inversion IH as [| ? ? Hhd Htl]; subst.
    constructor; [lia |]. constructor; [lia | exact Htl].
Qed.

Lemma maximum_ge (t : Z) (ts : list Z) :
  Forall (fun x => x <= maximum t ts) (t :: ts).
Proof.
  unfold maximum. revert t. induction ts as [| u ts IH]; intros t; cbn.
  - constructor; [lia | constructor].
  - specialize (IH (Z.max t u)). rewrite foldl_max_max in *.
    inversion IH as [| ? ? Hhd Htl]; subst.
    constructor; [lia |]. constructor; [lia | exact Htl].
Qed.

Lemma minimum_in (t : Z) (ts : list Z) : minimum t ts ∈ t :: ts.
Proof.
  unfold minimum. revert t. induction ts as [| u ts IH]; intros t; cbn.
  - apply list_elem_of_here.
  - specialize (IH (Z.min t u)).
    apply elem_of_cons in IH as [Heq | Hin].
    + rewrite Heq. destruct (Z.min_spec t u) as [[_ ->] | [_ ->]].
      * apply list_elem_of_here.
      * apply list_elem_of_further, list_elem_of_here.
    + apply list_elem_of_further, list_elem_of_further. exact Hin.
Qed.

Lemma maximum_in (t : Z) (ts : list Z) : maximum t ts ∈ t :: ts.
Proof.
  unfold maximum. revert t. induction ts as [| u ts IH]; intros t; cbn.
  - apply list_elem_of_here.
  - specialize (IH (Z.max t u)).
    apply elem_of_cons in IH as [Heq | Hin].
    + rewrite Heq. destruct (Z.max_spec t u) as [[_ ->] | [_ ->]].
      * apply list_elem_of_further, list_elem_of_here.
      * apply list_elem_of_here.
    + apply list_elem_of_further, list_elem_of_further. exact Hin.
Qed.

Section TimeBounds.
Variables tf tt df : QueryResponse -> Z.

Lemma endRecord_data (w : BlockCborWriter) :
  config_ (endRecord w) = config_ w
  /\ query_response_items (data_ (endRecord w))
     = query_response_items (data_ w) ++ [query_response_ w]
  /\ earliest_time (data_ (endRecord w)) = earliest_time (data_ w)
  /\ start_time (data_ (endRecord w)) = start_time (data_ w)
  /\ end_time (data_ (endRecord w)) = end_time (data_ w).
Proof. repeat split. Qed.

Lemma block_times_spec (config : Configuration) (d : DNSMessage)
    (b : BlockData) :
  query_response_items (block_times config d b) = query_response_items b
  /\ earliest_time (block_times config d b)
     = (if (length (query_response_items b) =? 0)%nat
        then timestamp d else Z.min (earliest_time b) (timestamp d))
  /\ start_time (block_times config d b)
     = (if start_end_times_from_data config
        then Some (lowered (start_time b) (timestamp d)) else start_time b)
  /\ end_time (block_times config d b)
     = (if start_end_times_from_data config
        then Some (raised (end_time b) (timestamp d)) else end_time b).
Proof.
  unfold block_times. cbn. repeat split.
  - destruct (length (query_response_items b) =? 0)%nat; cbn; [reflexivity |].
    destruct (Z.ltb_spec (timestamp d) (earliest_time b)); lia.
  - destruct (start_end_times_from_data config); cbn; [| reflexivity].
    destruct (start_time b) as [s |]; cbn; [| reflexivity].
    destruct (Z.ltb_spec (timestamp d) s); f_equal; lia.
  - destruct (start_end_times_from_data config); cbn; [| reflexivity].
    destruct (end_time b) as [e |]; cbn; [| reflexivity].
    destruct (Z.ltb_spec e (timestamp d)); f_equal; lia.
Qed.

(** One record: [writeBasic] then [endRecord]. *)
Lemma add_record_times (w : BlockCborWriter) (qr : QueryResponse)
    (stats : PacketStatistics) :
  config_ (endRecord (writeBasic tf tt df w qr stats)) = config_ w
  /\ length (query_response_items
               (data_ (endRecord (writeBasic tf tt df w qr stats))))
     = S (length (query_response_items (data_ w)))
  /\ earliest_time (data_ (endRecord (writeBasic tf tt df w qr stats)))
     = (if (length (query_response_items (data_ w)) =? 0)%nat
        then timestamp (leading_message qr)
        else Z.min (earliest_time (data_ w)) (timestamp (leading_message qr)))
  /\ start_time (data_ (endRecord (writeBasic tf tt df w qr stats)))
     = (if start_end_times_from_data (config_ w)
        then Some (lowered (start_time (data_ w))
                     (timestamp (leading_message qr)))
        else start_time (data_ w))
  /\ end_time (data_ (endRecord (writeBasic tf tt df w qr stats)))
     = (if start_end_times_from_data (config_ w)
        then Some (raised (end_time (data_ w))
                     (timestamp (leading_message qr)))
        else end_time (data_ w)).
Proof.
  pose proof (writeBasic_frame tf tt df w qr stats) as Hframe.
  pose proof (f_equal (fun f => f.1.1.1.1.1) Hframe) as He.
  pose proof (f_equal (fun f => f.1.1.1.1.2) Hframe) as Hs.
  pose proof (f_equal (fun f => f.1.1.1.2) Hframe) as Hn.
  pose proof (f_equal (fun f => f.2) Hframe) as Hi.
  cbv beta delta [frame] iota in He, Hs, Hn, Hi. cbn [fst snd] in He, Hs, Hn, Hi.
  destruct (endRecord_data (writeBasic tf tt df w qr stats))
    as (Hc' & Hi' & He' & Hs' & Hn').
  destruct (block_times_spec (config_ w) (leading_message qr)
              (data_ (updateBlockStats w stats)))
    as (Hi'' & He'' & Hs'' & Hn'').
  rewrite Hc', Hi', He', Hs', Hn', He, Hs, Hn, Hi, Hi'', He'', Hs'', Hn''.
  rewrite length_app, Nat.add_1_r.
  split; [reflexivity |]. split; [reflexivity |]. split; [reflexivity |].
  split; reflexivity.
Qed.

(** The bounds after a list of records, for a block that already holds a
    record. *)
Lemma add_records_times_next (rs : list (QueryResponse * PacketStatistics))
    (w : BlockCborWriter) :
  query_response_items (data_ w) <> [] ->
  config_ (add_records tf tt df w rs) = config_ w
  /\ earliest_time (data_ (add_records tf tt df w rs))
     = minimum (earliest_time (data_ w)) (leading_timestamps rs)
  /\ (start_end_times_from_data (config_ w) = true ->
      forall s e,
        start_time (data_ w) = Some s -> end_time (data_ w) = Some e ->
        start_time (data_ (add_records tf tt df w rs))
        = Some (minimum s (leading_timestamps rs))
        /\ end_time (data_ (add_records tf tt df w rs))
           = Some (maximum e (leading_timestamps rs))).
Proof.
  revert w. induction rs as [| [qr stats] rs IH]; intros w Hitems.
  - split; [reflexivity |]. split; [reflexivity |].
    intros _ s e Hs He. split; assumption.
  - change (add_records tf tt df w ((qr, stats) :: rs))
      with (add_records tf tt df
              (endRecord (writeBasic tf tt df w qr stats)) rs).
    change (leading_timestamps ((qr, stats) :: rs))
      with (timestamp (leading_message qr) :: leading_timestamps rs).
    destruct (add_record_times w qr stats) as (Hc & Hl & He & Hs & Hn).
    destruct (IH (endRecord (writeBasic tf tt df w qr stats)))
      as (IHc & IHe & IHse).
    { intros Hnil. rewrite Hnil in Hl. discriminate Hl. }
    split; [congruence |].
    split.
    + rewrite IHe, He.
      destruct (query_response_items (data_ w)); [contradiction | reflexivity].
    + intros Hfrom s e Hs0 He0. rewrite Hc in IHse.
      rewrite Hfrom, Hs0 in Hs. rewrite Hfrom, He0 in Hn.
      apply (IHse Hfrom); assumption.
Qed.

(** C6, amended. Starting from a block without items, after [writeBasic]
    and [endRecord] for the records [(qr, stats) :: rs], [earliest_time] is
    the least of their leading timestamps, so it is at most each of them.
    With [start_end_times_from_data], [start_time] is the least of those
    timestamps and of the [start_time] the block began with, if it had one,
    and [end_time] is the greatest of those timestamps and of the [end_time]
    the block began with, if it had one; for a block that began with neither
    set they are the minimum and the maximum of the timestamps. *)
Theorem block_time_bounds (w : BlockCborWriter) (qr : QueryResponse)
    (stats : PacketStatistics)
    (rs : list (QueryResponse * PacketStatistics)) :
  query_response_items (data_ w) = [] ->
  earliest_time (data_ (add_records tf tt df w ((qr, stats) :: rs)))
  = minimum (timestamp (leading_message qr)) (leading_timestamps rs)
  /\ Forall
       (fun t =>
          earliest_time (data_ (add_records tf tt df w ((qr, stats) :: rs)))
          <= t)
       (leading_timestamps ((qr, stats) :: rs))
  /\ (start_end_times_from_data (config_ w) = true ->
      start_time (data_ (add_records tf tt df w ((qr, stats) :: rs)))
      = Some (lowered (start_time (data_ w))
                (minimum (timestamp (leading_message qr))
                   (leading_timestamps rs)))
      /\ end_time (data_ (add_records tf tt df w ((qr, stats) :: rs)))
         = Some (raised (end_time (data_ w))
                   (maximum (timestamp (leading_message qr))
                      (leading_timestamps rs))))
  /\ (start_end_times_from_data (config_ w) = true ->
      start_time (data_ w) = None -> end_time (data_ w) = None ->
      start_time (data_ (add_records tf tt df w ((qr, stats) :: rs)))
      = Some (minimum (timestamp (leading_message qr))
                (leading_timestamps rs))
      /\ end_time (data_ (add_records tf tt df w ((qr, stats) :: rs)))
         = Some (maximum (timestamp (leading_message qr))
                   (leading_timestamps rs))).
Proof.
  intros Hempty.
  change (add_records tf tt df w ((qr, stats) :: rs))
    with (add_records tf tt df
            (endRecord (writeBasic tf tt df w qr stats)) rs).
  change (leading_timestamps ((qr, stats) :: rs))
    with (timestamp (leading_message qr) :: leading_timestamps rs).
  destruct (add_record_times w qr stats) as (Hc & Hl & He & Hs & Hn).
  rewrite Hempty in Hl, He. cbn [length Nat.eqb] in He.
  destruct (add_records_times_next rs
              (endRecord (writeBasic tf tt df w qr stats)))
    as (Hc' & He' & Hse).
  { intros Hnil. rewrite Hnil in Hl. discriminate Hl. }
  rewrite Hc in Hse.
  assert (Hearliest :
    earliest_time
      (data_ (add_records tf tt df
                (endRecord (writeBasic tf tt df w qr stats)) rs))
    = minimum (timestamp (leading_message qr)) (leading_timestamps rs)).
  { rewrite He', He. reflexivity. }
  assert (Hbounds :
    start_end_times_from_data (config_ w) = true ->
    start_time
      (data_ (add_records tf tt df
                (endRecord (writeBasic tf tt df w qr stats)) rs))
    = Some (lowered (start_time (data_ w))
              (minimum (timestamp (leading_message qr))
                 (leading_timestamps rs)))
    /\ end_time
         (data_ (add_records tf tt df
                   (endRecord (writeBasic tf tt df w qr stats)) rs))
       = Some (raised (end_time (data_ w))
                 (maximum (timestamp (leading_message qr))
                    (leading_timestamps rs)))).
  { intros Hfrom. rewrite Hfrom in Hs, Hn.
    destruct (Hse Hfrom _ _ Hs Hn) as [Hs' Hn']. rewrite Hs', Hn'.
    unfold minimum, maximum, lowered, raised.
    destruct (start_time (data_ w)), (end_time (data_ w));
      rewrite ?foldl_min_min, ?foldl_max_max; split; reflexivity. }
  split; [exact Hearliest |].
  split; [rewrite Hearliest; apply minimum_le |].
  split; [exact Hbounds |].
  intros Hfrom Hs0 Hn0. rewrite Hs0, Hn0 in Hbounds. exact (Hbounds Hfrom).
Qed.

End TimeBounds.

(** ** Files *)

Lemma files_from_app (l1 l2 : list EncoderCall)
    (cur : option (list EncoderCall)) :
  files_from cur (l1 ++ l2)
  = files_from cur l1 ++ files_from (open_file cur l1) l2.
Proof.
  revert cur. induction l1 as [| c l1 IH]; intros cur; [reflexivity |].
  destruct c, cur; cbn; rewrite IH; reflexivity.
Qed.

Lemma open_file_app (l1 l2 : list EncoderCall)
    (cur : option (list EncoderCall)) :
  open_file cur (l1 ++ l2) = open_file (open_file cur l1) l2.
Proof.
  revert cur. induction l1 as [| c l1 IH]; intros cur; [reflexivity |].
  destruct c; cbn; apply IH.
Qed.

Lemma close_encoder_step (w : BlockCborWriter) (now : Z) :
  encoder_step (enc_ w) (enc_ (close w now)).
Proof.
  destruct (is_open (enc_ w)) eqn:Hopen.
  - rewrite close_open by exact Hopen.
    apply (enc_closing _ _ (closing_block w now)); [exact Hopen | reflexivity..].
  - rewrite close_closed by exact Hopen. apply enc_same. reflexivity.
Qed.

Lemma checkForRotation_encoder_step (w : BlockCborWriter) (ts bytes : Z)
    (need : bool) (now : Z) :
  encoder_step (enc_ w) (enc_ (checkForRotation w ts bytes need now)).
Proof.
  unfold checkForRotation.
  destruct (negb (is_open (enc_ w)) || _ || need);
    [| apply enc_same; reflexivity].
  rewrite writeFileHeader_eq.
  destruct (is_open (enc_ w)) eqn:Hopen.
  - rewrite close_open by exact Hopen.
    eapply enc_rotating; [exact Hopen | reflexivity |].
    cbn [enc_ set_enc_ set_data_ calls enc_open]. rewrite <- !app_assoc.
    reflexivity.
  - apply enc_opening; [exact Hopen | reflexivity |].
    cbn [enc_ set_enc_ calls enc_open]. rewrite <- !app_assoc. reflexivity.
Qed.

Lemma startRecord_encoder_step (w : BlockCborWriter) (qr : QueryResponse) :
  encoder_step (enc_ w) (enc_ (startRecord w qr)).
Proof.
  unfold startRecord. destruct (is_full (config_ w) (data_ w)).
  - eapply enc_block; reflexivity.
  - apply enc_same. reflexivity.
Qed.

Lemma framed_closing (bs : list BlockData) (B : BlockData) :
  framed
    (((file_preamble ++ [WriteArrayHeader None] ++ (WriteBlock <$> bs))
      ++ [WriteBlock B]) ++ [WriteBreak]).
Proof.
  exists (bs ++ [B]). unfold file_of_blocks.
  rewrite fmap_app. repeat rewrite <- app_assoc. reflexivity.
Qed.

Lemma files_in_order_step (e e' : Encoder) :
  encoder_step e e' -> files_in_order e -> files_in_order e'.
Proof.
  unfold files_in_order, closed_files.
  intros [-> | B Ho Hc | B Ho Ho' Hc | Ho Ho' Hc | B Ho Ho' Hc] [Hfiles Hcur];
    [split; assumption | ..];
    rewrite Hc, ?Ho', ?files_from_app, ?open_file_app;
    rewrite ?Ho in *.
  - (* one more block *)
    destruct (is_open e).
    + destruct Hcur as [bs Hcur]. rewrite Hcur. cbn.
      split; [rewrite app_nil_r; exact Hfiles |].
      exists (bs ++ [B]). rewrite fmap_app. repeat rewrite <- app_assoc.
      reflexivity.
    + rewrite Hcur. cbn. split; [rewrite app_nil_r; exact Hfiles | reflexivity].
  - (* the file is closed *)
    destruct Hcur as [bs Hcur]. rewrite Hcur. cbn.
    split; [| reflexivity].
    apply Forall_app. split; [exact Hfiles |].
    constructor; [apply framed_closing | constructor].
  - (* a file is opened *)
    rewrite Hcur. cbn. split; [rewrite app_nil_r; exact Hfiles |].
    exists []. reflexivity.
  - (* the file is closed and the next one opened *)
    destruct Hcur as [bs Hcur]. rewrite Hcur. cbn.
    split; [| exists []; reflexivity].
    rewrite app_nil_r.
    apply Forall_app. split; [exact Hfiles |].
    constructor; [apply framed_closing | constructor].
Qed.

Section Files.
Variables tf tt df : QueryResponse -> Z.

Lemma call_encoder_step (w : BlockCborWriter) (c : Call) :
  encoder_step (enc_ w) (enc_ (call tf tt df w c)).
Proof.
  destruct c; cbn [call].
  - apply checkForRotation_encoder_step.
  - apply startRecord_encoder_step.
  - apply enc_same. reflexivity.
  - apply enc_same. reflexivity.
  - apply enc_same. unfold writeAE.
    destruct (negb (excl_address_events (exclude_hints (config_ w))));
      reflexivity.
  - apply close_encoder_step.
Qed.

Lemma files_in_order_run (cs : list Call) (w : BlockCborWriter) :
  files_in_order (enc_ w) -> files_in_order (enc_ (run tf tt df w cs)).
Proof.
  revert w. induction cs as [| c cs IH]; intros w Hw; [exact Hw |].
  change (run tf tt df w (c :: cs))
    with (run tf tt df (call tf tt df w c) cs).
  apply IH. eapply files_in_order_step; [apply call_encoder_step | exact Hw].
Qed.

(** C7, amended. Opening a file and closing it at once gives a file whose
    blocks section is the array header (0x9f), one block without items (the
    block in progress, which [close] always serialises), and the break
    (0xff). Whatever calls a new writer receives, once it is destroyed every
    file it opened is framed: the preamble, the array header, whole blocks,
    and a single break at the end; no file is left open. *)
Theorem files_end_with_one_break (config : Configuration) (live : bool)
    (now : Z) :
  (forall ts bytes need now1 now2,
     exists B,
       closed_files
         (enc_ (close
                  (checkForRotation (new_BlockCborWriter config live now)
                     ts bytes need now1)
                  now2))
       = [file_of_blocks [B]]
       /\ file_blocks (file_of_blocks [B])
          = [WriteArrayHeader None; WriteBlock B; WriteBreak]
       /\ query_response_items B = [])
  /\ (forall cs now',
        Forall framed
          (closed_files
             (enc_ (destroy (run tf tt df (new_BlockCborWriter config live now) cs)
                      now')))
        /\ open_file None
             (calls
                (enc_ (destroy
                         (run tf tt df (new_BlockCborWriter config live now) cs)
                         now')))
           = None).
Proof.
  split.
  - intros ts bytes need now1 now2.
    set (w0 := new_BlockCborWriter config live now).
    assert (Hrot : checkForRotation w0 ts bytes need now1
                   = set_enc_
                       {| is_open := true;
                          calls := Open :: file_preamble
                                   ++ [WriteArrayHeader None] |} w0).
    { unfold checkForRotation. cbn [w0 new_BlockCborWriter enc_ new_Encoder
        is_open negb orb]. rewrite writeFileHeader_eq. reflexivity. }
    rewrite Hrot, close_open by reflexivity.
    eexists. split; [reflexivity |]. split; reflexivity.
  - intros cs now'.
    assert (Hinit : files_in_order (enc_ (new_BlockCborWriter config live now))).
    { split; [constructor | reflexivity]. }
    pose proof (files_in_order_run cs _ Hinit) as Hrun.
    pose proof (files_in_order_step _ _
                  (close_encoder_step
                     (run tf tt df (new_BlockCborWriter config live now) cs)
                     now') Hrun) as [Hfiles Hcur].
    unfold destroy. split; [exact Hfiles |].
    destruct (is_open (enc_ (close (run tf tt df
                (new_BlockCborWriter config live now) cs) now'))) eqn:Hopen;
      [| exact Hcur].
    exfalso. revert Hopen. unfold close.
    destruct (is_open (enc_ (run tf tt df
                (new_BlockCborWriter config live now) cs))) eqn:Hopen';
      [discriminate | congruence].
Qed.

End Files.

(** ** More on address masking *)

Lemma resize_lookup_default (bs : list Z) (n i : nat) :
  resize n 0 bs !! i
  = if decide (i < n)%nat then Some (default 0 (bs !! i)) else None.
Proof.
  destruct (decide (i < n)%nat) as [Hi | Hi].
  - destruct (decide (i < length bs)%nat) as [Hl | Hl].
    + rewrite lookup_resize by assumption.
      destruct (lookup_lt_is_Some_2 bs i Hl) as [b ->]. reflexivity.
    + rewrite lookup_resize_new by lia.
      rewrite lookup_ge_None_2 by lia. reflexivity.
  - apply lookup_resize_old. lia.
Qed.

(** Every byte of the masked address, whether the address has that byte or
    [resize] supplied a zero. *)
Lemma addr_to_string_lookup (addr : IPAddress) (config : Configuration)
    (is_client : bool) (i : nat) :
  0 <= selected_prefix_len addr config is_client <= 128 ->
  addr_to_string addr config is_client !! i
  = if decide (Z.of_nat i < (selected_prefix_len addr config is_client + 7) / 8)
    then Some
           (if decide (Z.of_nat i
                       = (selected_prefix_len addr config is_client + 7) / 8 - 1)
            then masked_byte
                   ((selected_prefix_len addr config is_client + 7) / 8 * 8
                    - selected_prefix_len addr config is_client)
                   (default 0 (asNetworkBinary addr !! i))
            else default 0 (asNetworkBinary addr !! i))
    else None.
Proof.
  intros Hp. rewrite addr_to_string_unfold by exact Hp.
  set (p := selected_prefix_len addr config is_client) in *.
  set (n := (p + 7) / 8).
  pose proof (nbytes_bounds addr config is_client) as Hn. fold p n in Hn.
  destruct (Z.ltb_spec 0 n) as [Hpos | Hzero].
  - rewrite list_lookup_alter, !resize_lookup_default.
    destruct (decide (Z.of_nat i < n)) as [Hi | Hi].
    + destruct (decide (Z.of_nat i = n - 1)) as [He | Hne].
      * replace (Z.to_nat (n - 1)) with i by lia.
        rewrite decide_True by reflexivity.
        rewrite decide_True by lia. reflexivity.
      * rewrite decide_False by lia. rewrite decide_True by lia. reflexivity.
    + destruct (decide (Z.to_nat (n - 1) = i)); [lia |].
      rewrite decide_False by lia. reflexivity.
  - rewrite resize_lookup_default.
    rewrite decide_False by lia. rewrite decide_False by lia. reflexivity.
Qed.

Lemma masked_byte_bit (k b i : Z) :
  0 <= k -> k <= i < 8 -> Z.testbit (masked_byte k b) i = Z.testbit b i.
Proof.
  intros Hk Hi. unfold masked_byte, to_uint8.
  rewrite Z.mod_pow2_bits_low by lia.
  rewrite Z.land_spec, Z.shiftl_spec by lia.
  replace (Z.testbit 255 (i - k)) with true; [apply andb_true_r |].
  symmetry. change 255 with (Z.ones 8). apply Z.ones_spec_low. lia.
Qed.

Lemma masked_byte_zero_shift (b : Z) : 0 <= b < 256 -> masked_byte 0 b = b.
Proof.
  intros Hb. unfold masked_byte, to_uint8.
  change (Z.shiftl 255 0) with (Z.ones 8).
  rewrite Z.land_ones by lia. rewrite Z.mod_mod by lia.
  apply Z.mod_small. lia.
Qed.

Lemma masked_byte_coarser (k1 k2 b : Z) :
  0 <= k1 <= k2 -> masked_byte k2 (masked_byte k1 b) = masked_byte k2 b.
Proof.
  intros Hk. unfold masked_byte, to_uint8.
  rewrite <- !Z.land_ones by lia.
  apply Z.bits_inj'. intros i Hi.
  rewrite !Z.land_spec.
  destruct (Z.ltb_spec i 8) as [Hlt | Hge].
  - destruct (Z.ltb_spec i k2) as [Hlow | Hhigh].
    + rewrite (Z.shiftl_spec_low 255 k2 i) by lia.
      rewrite !andb_false_r. reflexivity.
    + rewrite (Z.shiftl_spec 255 k1 i) by lia.
      replace (Z.testbit 255 (i - k1)) with true.
      * rewrite Z.ones_spec_low by lia.
        destruct (Z.testbit b i), (Z.testbit (Z.shiftl 255 k2) i); reflexivity.
      * symmetry. change 255 with (Z.ones 8). apply Z.ones_spec_low. lia.
  - rewrite Z.ones_spec_high by lia. rewrite !andb_false_r. reflexivity.
Qed.

(** The masking keeps the prefix: every bit in front of the selected prefix
    length, in a byte the address has, is the bit of the address. *)
Theorem addr_to_string_keeps_prefix_bits (addr : IPAddress)
    (config : Configuration) (is_client : bool) (j : Z) :
  0 <= selected_prefix_len addr config is_client <= 128 ->
  0 <= j < selected_prefix_len addr config is_client ->
  (Z.to_nat (j / 8) < length (asNetworkBinary addr))%nat ->
  bit_at (addr_to_string addr config is_client) j
  = bit_at (asNetworkBinary addr) j.
Proof.
  intros Hp Hj Hlen. unfold bit_at.
  rewrite addr_to_string_lookup by exact Hp.
  set (p := selected_prefix_len addr config is_client) in *.
  set (n := (p + 7) / 8).
  pose proof (nbytes_bounds addr config is_client) as Hn. fold p n in Hn.
  pose proof (Z.div_mod j 8 ltac:(lia)) as Hdm.
  pose proof (Z.mod_pos_bound j 8 ltac:(lia)) as Hm.
  destruct (lookup_lt_is_Some_2 _ _ Hlen) as [b Hb]. rewrite Hb. cbn.
  rewrite decide_True by lia.
  destruct (decide (Z.of_nat (Z.to_nat (j / 8)) = n - 1)) as [He | Hne];
    [| reflexivity].
  cbn. f_equal. apply masked_byte_bit; lia.
Qed.

(** Masking composes: masking an address with a prefix and the result again
    with a prefix no longer than the first gives what the shorter prefix
    gives on the address itself. So an address already masked with the
    server prefix can be masked with a shorter client prefix later. *)
Theorem addr_to_string_coarser_after_finer (addr : IPAddress)
    (config1 config2 : Configuration) (is_client1 is_client2 : bool) :
  0 <= selected_prefix_len addr config2 is_client2
    <= selected_prefix_len addr config1 is_client1 ->
  selected_prefix_len addr config1 is_client1 <= 128 ->
  addr_to_string
    (with_bytes addr (addr_to_string addr config1 is_client1))
    config2 is_client2
  = addr_to_string addr config2 is_client2.
Proof.
  intros Hp Hp1. apply list_eq. intros i.
  rewrite !addr_to_string_lookup
    by (change (selected_prefix_len (with_bytes addr ?bs) config2 is_client2)
          with (selected_prefix_len addr config2 is_client2); lia).
  change (selected_prefix_len
            (with_bytes addr (addr_to_string addr config1 is_client1))
            config2 is_client2)
    with (selected_prefix_len addr config2 is_client2).
  cbn [asNetworkBinary with_bytes].
  rewrite addr_to_string_lookup by lia.
  set (p1 := selected_prefix_len addr config1 is_client1) in *.
  set (p2 := selected_prefix_len addr config2 is_client2) in *.
  pose proof (nbytes_bounds addr config1 is_client1) as Hn1.
  pose proof (nbytes_bounds addr config2 is_client2) as Hn2.
  fold p1 in Hn1. fold p2 in Hn2.
  set (n1 := (p1 + 7) / 8) in *. set (n2 := (p2 + 7) / 8) in *.
  destruct (decide (Z.of_nat i < n2)) as [Hi | Hi]; [| reflexivity].
  rewrite (decide_True (P := Z.of_nat i < n1)) by lia. cbn [default].
  f_equal.
  destruct (decide (Z.of_nat i = n2 - 1)) as [He2 | Hne2].
  - destruct (decide (Z.of_nat i = n1 - 1)) as [He1 | Hne1]; [| reflexivity].
    apply masked_byte_coarser. lia.
  - rewrite decide_False by lia. reflexivity.
Qed.

(** With a prefix that covers the whole address (32 bits for the 4 bytes of
    IPv4, 128 for the 16 of IPv6) the address is stored unchanged. *)
Theorem addr_to_string_whole_address (addr : IPAddress)
    (config : Configuration) (is_client : bool) :
  selected_prefix_len addr config is_client
  = 8 * Z.of_nat (length (asNetworkBinary addr)) ->
  (length (asNetworkBinary addr) <= 16)%nat ->
  Forall (fun b => 0 <= b < 256) (asNetworkBinary addr) ->
  addr_to_string addr config is_client = asNetworkBinary addr.
Proof.
  intros Hp Hlen Hbytes. apply list_eq. intros i.
  rewrite addr_to_string_lookup by lia.
  rewrite Hp.
  replace ((8 * Z.of_nat (length (asNetworkBinary addr)) + 7) / 8)
    with (Z.of_nat (length (asNetworkBinary addr)))
    by (apply (Z.div_unique _ 8 _ 7); lia).
  destruct (decide (Z.of_nat i < Z.of_nat (length (asNetworkBinary addr))))
    as [Hi | Hi].
  - destruct (lookup_lt_is_Some_2 (asNetworkBinary addr) i ltac:(lia))
      as [b Hb].
    rewrite Hb. cbn [default]. f_equal.
    destruct (decide _); [| reflexivity].
    replace (Z.of_nat (length (asNetworkBinary addr)) * 8
             - 8 * Z.of_nat (length (asNetworkBinary addr))) with 0 by lia.
    apply masked_byte_zero_shift.
    eapply Forall_lookup_1 in Hbytes; [exact Hbytes | exact Hb].
  - symmetry. apply lookup_ge_None_2. lia.
Qed.

Lemma masked_byte_of_zero (k : Z) : masked_byte k 0 = 0.
Proof. unfold masked_byte. rewrite Z.land_0_l. reflexivity. Qed.

(** A prefix longer than the address does not fail: the result is longer
    than the address, and every byte past the address is zero. *)
Theorem addr_to_string_pads_short_address (addr : IPAddress)
    (config : Configuration) (is_client : bool) (i : nat) :
  0 <= selected_prefix_len addr config is_client <= 128 ->
  (length (asNetworkBinary addr) <= i)%nat ->
  Z.of_nat i < (selected_prefix_len addr config is_client + 7) / 8 ->
  addr_to_string addr config is_client !! i = Some 0.
Proof.
  intros Hp Hlen Hi. rewrite addr_to_string_lookup by exact Hp.
  rewrite decide_True by exact Hi.
  rewrite lookup_ge_None_2 by exact Hlen. cbn [default].
  rewrite masked_byte_of_zero. destruct (decide _); reflexivity.
Qed.

(** ** File rotation and closing *)

(** [checkForRotation] changes nothing when the file is open, the file name
    pattern asks for no rotation, and the size limit is switched off
    ([max_output_size] not positive) or not reached. *)
Theorem checkForRotation_idle (w : BlockCborWriter) (ts bytes now : Z) :
  is_open (enc_ w) = true ->
  max_output_size (config_ w) <= 0 \/ bytes < max_output_size (config_ w) ->
  checkForRotation w ts bytes false now = w.
Proof.
  intros Hopen Hsize. unfold checkForRotation. rewrite Hopen.
  cbn [negb orb].
  assert (Hno : (0 <? max_output_size (config_ w))
                && (max_output_size (config_ w) <=? bytes) = false).
  { destruct (Z.ltb_spec 0 (max_output_size (config_ w)));
      destruct (Z.leb_spec (max_output_size (config_ w)) bytes);
      try reflexivity; lia. }
  rewrite Hno. reflexivity.
Qed.

(** On a closed encoder (the first call, or the first after a [close])
    [checkForRotation] opens a file and writes its header, whatever the
    pattern and the size say, and does nothing else: no block is written,
    and the block in progress, its times and the statistics stay as they
    are. *)
Theorem checkForRotation_opens (w : BlockCborWriter) (ts bytes : Z)
    (need : bool) (now : Z) :
  is_open (enc_ w) = false ->
  checkForRotation w ts bytes need now
  = set_enc_
      {| is_open := true;
         calls := calls (enc_ w)
                  ++ Open :: file_preamble ++ [WriteArrayHeader None] |}
      w.
Proof.
  intros Hopen. unfold checkForRotation. rewrite Hopen. cbn [negb orb].
  rewrite writeFileHeader_eq. cbn [enc_ set_enc_ enc_open calls is_open].
  rewrite <- app_assoc. reflexivity.
Qed.

(** A rotation of an open file, asked for by the pattern or by the size
    limit reached, writes in this order the block in progress, the break and
    the close of the old file, then the open and the header of the new one.
    The block written ends at the timestamp and keeps its items and its
    start time; the block in progress afterwards is empty and starts at the
    timestamp; the next statistics update starts a new window. *)
Theorem checkForRotation_rotates (w : BlockCborWriter) (ts bytes : Z)
    (need : bool) (now : Z) :
  is_open (enc_ w) = true ->
  need = true
  \/ (0 < max_output_size (config_ w) /\ max_output_size (config_ w) <= bytes) ->
  exists B,
    calls (enc_ (checkForRotation w ts bytes need now))
    = calls (enc_ w)
      ++ [WriteBlock B; WriteBreak; Close; Open]
      ++ file_preamble ++ [WriteArrayHeader None]
    /\ is_open (enc_ (checkForRotation w ts bytes need now)) = true
    /\ end_time B = Some ts
    /\ last_packet_statistics B = last_end_block_statistics_ w
    /\ query_response_items B = query_response_items (data_ w)
    /\ start_time B = start_time (data_ w)
    /\ data_ (checkForRotation w ts bytes need now)
       = set_start_time_if true (Some ts) (clear B)
    /\ need_start_block_stats_ (checkForRotation w ts bytes need now) = true.
Proof.
  intros Hopen Hdue. unfold checkForRotation. rewrite Hopen.
  cbn [negb orb].
  assert (Hyes : (0 <? max_output_size (config_ w))
                 && (max_output_size (config_ w) <=? bytes) || need = true).
  { destruct Hdue as [-> | [H0 Hb]]; [apply orb_true_r |].
    apply orb_true_iff. left. apply andb_true_iff.
    split; [apply Z.ltb_lt | apply Z.leb_le]; assumption. }
  rewrite Hyes, writeFileHeader_eq, close_open by exact Hopen.
  eexists. split.
  { cbn [enc_ set_enc_ set_data_ enc_open calls is_open].
    repeat rewrite <- app_assoc. reflexivity. }
  split; [reflexivity |].
  split; [unfold closing_block; cbn; destruct (live_ w); reflexivity |].
  split; [reflexivity |]. split; [reflexivity |]. split; [reflexivity |].
  split; reflexivity.
Qed.

(** [close] leaves the encoder closed and is idempotent: on a closed
    encoder it changes nothing, so the destructor after a [close] writes
    nothing more; on an open one it writes the block in progress with its
    items, the break and the close, and the block's end time is the one
    already set, else the clock reading of a live writer, else none. *)
Theorem close_twice (w : BlockCborWriter) (now now' : Z) :
  is_open (enc_ (close w now)) = false
  /\ close (close w now) now' = close w now
  /\ (is_open (enc_ w) = false -> close w now = w)
  /\ (is_open (enc_ w) = true ->
      exists B,
        calls (enc_ (close w now))
        = calls (enc_ w) ++ [WriteBlock B; WriteBreak; Close]
        /\ query_response_items B = query_response_items (data_ w)
        /\ end_time B
           = match end_time (data_ w) with
             | Some e => Some e
             | None => if live_ w then Some now else None
             end).
Proof.
  assert (Hclosed : is_open (enc_ (close w now)) = false).
  { destruct (is_open (enc_ w)) eqn:Hopen.
    - rewrite close_open by exact Hopen. reflexivity.
    - rewrite close_closed by exact Hopen. exact Hopen. }
  split; [exact Hclosed |].
  split; [apply close_closed; exact Hclosed |].
  split; [apply close_closed |].
  intros Hopen. rewrite close_open by exact Hopen.
  exists (closing_block w now). split; [reflexivity |].
  split; [reflexivity |].
  unfold closing_block. cbn.
  destruct (end_time (data_ w)), (live_ w); reflexivity.
Qed.

(** ** More on the statistics window *)

Section WindowMore.
Variables tf tt df : QueryResponse -> Z.

Lemma call_last_end (w : BlockCborWriter) (c : Call) :
  last_end_block_statistics_ (call tf tt df w c)
  = match statistics_of c with
    | Some stats => stats
    | None => last_end_block_statistics_ w
    end.
Proof.
  destruct c; cbn [call statistics_of].
  - unfold checkForRotation.
    destruct (negb (is_open (enc_ w)) || _ || need_rotate); [| reflexivity].
    rewrite writeFileHeader_eq.
    destruct (is_open (enc_ w)) eqn:Hopen; [| reflexivity].
    rewrite close_open by exact Hopen. reflexivity.
  - unfold startRecord. destruct (is_full (config_ w) (data_ w)); reflexivity.
  - reflexivity.
  - reflexivity.
  - unfold writeAE.
    destruct (negb (excl_address_events (exclude_hints (config_ w))));
      reflexivity.
  - destruct (is_open (enc_ w)) eqn:Hopen.
    + rewrite close_open by exact Hopen. reflexivity.
    + rewrite close_closed by exact Hopen. reflexivity.
Qed.

Lemma run_last_end (cs : list Call) (w : BlockCborWriter) :
  Forall (fun c => statistics_of c = None) cs ->
  last_end_block_statistics_ (run tf tt df w cs)
  = last_end_block_statistics_ w.
Proof.
  revert w. induction cs as [| c cs IH]; intros w Hcs; [reflexivity |].
  change (run tf tt df w (c :: cs))
    with (run tf tt df (call tf tt df w c) cs).
  inversion Hcs as [| ? ? Hc Hcs']; subst.
  rewrite IH by exact Hcs'. rewrite call_last_end, Hc. reflexivity.
Qed.

(** The last statistics of a flushed block are the counters of the last
    call that went through [updateBlockStats]: after a [writeBasic] or
    [writeAE] with counters [stats] and then calls that carry no counters,
    the next block written holds [stats] as [last_packet_statistics]. *)
Theorem flushed_block_last_statistics (w : BlockCborWriter) (c f : Call)
    (cs : list Call) (stats : PacketStatistics) (B : BlockData) :
  statistics_of c = Some stats ->
  Forall (fun c' => statistics_of c' = None) cs ->
  flushed (call tf tt df (run tf tt df (call tf tt df w c) cs) f)
  = flushed (run tf tt df (call tf tt df w c) cs) ++ [B] ->
  last_packet_statistics B = stats.
Proof.
  intros Hc Hcs Hf.
  destruct (call_step tf tt df (run tf tt df (call tf tt df w c) cs) f)
    as [stats' Hsame | Hsame | B' HB' _ Hlast _ _].
  - rewrite Hsame in Hf. symmetry in Hf. destruct (not_flushing _ _ Hf).
  - rewrite Hsame in Hf. symmetry in Hf. destruct (not_flushing _ _ Hf).
  - rewrite Hf in HB'. apply app_inv_head in HB'. injection HB' as <-.
    rewrite Hlast, run_last_end by exact Hcs.
    rewrite call_last_end, Hc. reflexivity.
Qed.

(** The start statistics of a block are set by the first [writeBasic] or
    [writeAE] into it and stay: the calls after it, as long as they flush
    nothing, leave [start_packet_statistics] as that call left it. *)
Theorem start_statistics_set_once (w : BlockCborWriter) (c : Call)
    (cs : list Call) :
  updates_statistics c ->
  flushed (run tf tt df (call tf tt df w c) cs)
  = flushed (call tf tt df w c) ->
  start_packet_statistics (data_ (run tf tt df (call tf tt df w c) cs))
  = start_packet_statistics (data_ (call tf tt df w c))
  /\ need_start_block_stats_ (run tf tt df (call tf tt df w c) cs) = false.
Proof.
  intros Hc Hquiet.
  destruct (call_updates tf tt df w c Hc) as (_ & _ & Hneed).
  destruct (window_started_run tf tt df
              (start_packet_statistics (data_ (call tf tt df w c))) cs
              (call tf tt df w c) Hquiet)
    as [Hn Hs].
  { split; [exact Hneed | reflexivity]. }
  split; assumption.
Qed.

End WindowMore.

(** ** Records and blocks *)

Section Records.
Variables tf tt df : QueryResponse -> Z.

Lemma writeBasic_items (w : BlockCborWriter) (qr : QueryResponse)
    (stats : PacketStatistics) :
  query_response_items (data_ (writeBasic tf tt df w qr stats))
  = query_response_items (data_ w).
Proof.
  pose proof (f_equal (fun f => f.2) (writeBasic_frame tf tt df w qr stats))
    as Hitems.
  cbv beta delta [frame] iota in Hitems. cbn [fst snd] in Hitems.
  rewrite Hitems. unfold block_times. reflexivity.
Qed.

Lemma writeBasic_config (w : BlockCborWriter) (qr : QueryResponse)
    (stats : PacketStatistics) :
  config_ (writeBasic tf tt df w qr stats) = config_ w.
Proof. reflexivity. Qed.

Lemma startRecord_config (w : BlockCborWriter) (qr : QueryResponse) :
  config_ (startRecord w qr) = config_ w.
Proof.
  unfold startRecord. destruct (is_full (config_ w) (data_ w)); reflexivity.
Qed.

Lemma record_cycle_effect (w : BlockCborWriter)
    (r : QueryResponse * PacketStatistics) :
  config_ (record_cycle tf tt df w r) = config_ w
  /\ if is_full (config_ w) (data_ w)
     then flushed (record_cycle tf tt df w r)
          = flushed w
            ++ [set_last_packet_statistics_if true
                  (last_end_block_statistics_ w)
                  (set_end_time_if true
                     (Some (timestamp (leading_message r.1))) (data_ w))]
          /\ length (query_response_items (data_ (record_cycle tf tt df w r)))
             = 1%nat
     else flushed (record_cycle tf tt df w r) = flushed w
          /\ length (query_response_items (data_ (record_cycle tf tt df w r)))
             = S (length (query_response_items (data_ w))).
Proof.
  unfold record_cycle.
  destruct (endRecord_data (writeBasic tf tt df (startRecord w r.1) r.1 r.2))
    as (Hc & Hi & _).
  split; [rewrite Hc, writeBasic_config; apply startRecord_config |].
  assert (Hfl : flushed (endRecord
                           (writeBasic tf tt df (startRecord w r.1) r.1 r.2))
                = flushed (startRecord w r.1)) by reflexivity.
  rewrite Hfl, Hi, length_app, writeBasic_items, Nat.add_1_r.
  unfold startRecord.
  destruct (is_full (config_ w) (data_ w)).
  - split; [unfold writeBlock; flushed_norm; reflexivity | reflexivity].
  - split; reflexivity.
Qed.

(** Blocks hold [max_block_items] items: with that limit at [N >= 1] and a
    block in progress of at most [N] items, recording transactions
    ([startRecord], [writeBasic], [endRecord] for each) writes only blocks of
    exactly [N] items, keeps the block in progress within [N] items, loses
    and repeats no record, and leaves the last record in the block in
    progress. *)
Theorem record_cycles_fill_blocks (N : nat)
    (rs : list (QueryResponse * PacketStatistics)) (w : BlockCborWriter) :
  max_block_items (config_ w) = Z.of_nat N ->
  (1 <= N)%nat ->
  (length (query_response_items (data_ w)) <= N)%nat ->
  exists new,
    flushed (record_cycles tf tt df w rs) = flushed w ++ new
    /\ Forall (fun B => length (query_response_items B) = N) new
    /\ (length (query_response_items (data_ (record_cycles tf tt df w rs)))
        <= N)%nat
    /\ (length (query_response_items (data_ w)) + length rs
        = N * length new
          + length (query_response_items
                      (data_ (record_cycles tf tt df w rs))))%nat
    /\ (rs <> [] ->
        (1 <= length (query_response_items
                        (data_ (record_cycles tf tt df w rs))))%nat).
Proof.
  intros Hmax HN. revert w Hmax.
  induction rs as [| r rs IH]; intros w Hmax Hlen.
  - exists []. change (record_cycles tf tt df w []) with w.
    rewrite app_nil_r.
    split; [reflexivity |]. split; [constructor |]. split; [exact Hlen |].
    split; [cbn [length]; lia | congruence].
  - change (record_cycles tf tt df w (r :: rs))
      with (record_cycles tf tt df (record_cycle tf tt df w r) rs).
    destruct (record_cycle_effect w r) as [Hc Heff].
    unfold is_full in Heff. rewrite Hmax in Heff.
    destruct (Z.leb_spec (Z.of_nat N)
                (Z.of_nat (length (query_response_items (data_ w)))))
      as [Hfull | Hroom].
    + destruct Heff as [Hfl Hone].
      destruct (IH (record_cycle tf tt df w r)) as (new & Hf & Hall & Hle & Hcount & Hpos).
      { rewrite Hc. exact Hmax. }
      { rewrite Hone. exact HN. }
      eexists (_ :: new). rewrite Hf, Hfl, <- app_assoc.
      split; [reflexivity |].
      split; [constructor; [cbn; lia | exact Hall] |].
      split; [exact Hle |].
      split; [cbn [length]; rewrite Hone in Hcount; nia |].
      intros _. destruct rs as [| r' rs'].
      * change (record_cycles tf tt df (record_cycle tf tt df w r) [])
          with (record_cycle tf tt df w r).
        rewrite Hone. lia.
      * apply Hpos. discriminate.
    + destruct Heff as [Hfl Hnext].
      destruct (IH (record_cycle tf tt df w r)) as (new & Hf & Hall & Hle & Hcount & Hpos).
      { rewrite Hc. exact Hmax. }
      { rewrite Hnext. lia. }
      exists new. rewrite Hf, Hfl.
      split; [reflexivity |]. split; [exact Hall |]. split; [exact Hle |].
      split; [cbn [length]; rewrite Hnext in Hcount; lia |].
      intros _. destruct rs as [| r' rs'].
      * change (record_cycles tf tt df (record_cycle tf tt df w r) [])
          with (record_cycle tf tt df w r).
        rewrite Hnext. lia.
      * apply Hpos. discriminate.
Qed.

End Records.

(** ** What [writeBasic] does to the tables *)

Lemma intern_table_prefix {T : Type} `{EqDecision T} (c : bool) (v : T)
    (tbl : list T) :
  tbl `prefix_of` (if c then intern_table v tbl else tbl).
Proof.
  destruct c; [| reflexivity]. unfold intern_table.
  destruct (find_index v tbl); [reflexivity | apply prefix_app_r; reflexivity].
Qed.

Lemma tables_grow_refl (ex : HintsExcluded) (b : BlockData) :
  tables_grow ex b b.
Proof. unfold tables_grow. repeat apply conj; intros; reflexivity. Qed.

Lemma tables_grow_trans (ex : HintsExcluded) (b1 b2 b3 : BlockData) :
  tables_grow ex b1 b2 -> tables_grow ex b2 b3 -> tables_grow ex b1 b3.
Proof.
  unfold tables_grow.
  intros (Ha & Hc & Hn & Hs & Hxa & Hxc & Hxn & Hxs)
         (Ha' & Hc' & Hn' & Hs' & Hxa' & Hxc' & Hxn' & Hxs').
  repeat apply conj; try (etrans; eassumption); intros.
  - rewrite Hxa', Hxa by assumption. reflexivity.
  - rewrite Hxc', Hxc by assumption. reflexivity.
  - rewrite Hxn', Hxn by assumption. reflexivity.
  - rewrite Hxs', Hxs by assumption. reflexivity.
Qed.

Ltac tables_grow_cases :=
  unfold tables_grow; cbn; repeat apply conj; intros;
  repeat match goal with
    | H : _ = true |- _ => rewrite H; clear H
    end;
  cbn;
  first [ reflexivity
        | apply intern_table_prefix
        | etrans; [| apply intern_table_prefix]; apply intern_table_prefix ].

Section Tables.
Variables tf tt df : QueryResponse -> Z.

Lemma basic_info_tables (config : Configuration) (qr : QueryResponse)
    (d : DNSMessage) (st : BasicState) :
  tables_grow (exclude_hints config) st.1.1
    (basic_info tf tt df config qr d st).1.1.
Proof. destruct st as [[data qri] qs]. unfold basic_info. tables_grow_cases. Qed.

Lemma first_query_info_tables (exclude : HintsExcluded) (d : DNSMessage)
    (st : BasicState) :
  tables_grow exclude st.1.1 (first_query_info exclude d st).1.1.
Proof.
  destruct st as [[data qri] qs]. unfold first_query_info.
  destruct (queries (dns d)); tables_grow_cases.
Qed.

Lemma query_info_tables (exclude : HintsExcluded) (q : DNSMessage)
    (st : BasicState) :
  tables_grow exclude st.1.1 (query_info exclude q st).1.1.
Proof.
  destruct st as [[data qri] qs]. unfold query_info.
  destruct (edns0 (dns q)); tables_grow_cases.
Qed.

Lemma response_info_tables (exclude : HintsExcluded) (r : DNSMessage)
    (st : BasicState) :
  tables_grow exclude st.1.1 (response_info exclude r st).1.1.
Proof.
  destruct st as [[data qri] qs]. unfold response_info.
  destruct (edns0 (dns r)); tables_grow_cases.
Qed.

Lemma delay_and_signature_tables (exclude : HintsExcluded)
    (qr : QueryResponse) (st : BasicState) :
  tables_grow exclude st.1.1 (delay_and_signature exclude qr st).1.1.
Proof.
  destruct st as [[data qri] qs]. unfold delay_and_signature.
  tables_grow_cases.
Qed.

Lemma writeBasic_tables (w : BlockCborWriter) (qr : QueryResponse)
    (stats : PacketStatistics) :
  tables_grow (exclude_hints (config_ w)) (data_ w)
    (data_ (writeBasic tf tt df w qr stats)).
Proof.
  unfold writeBasic, writeBasic_qs.
  cbn [fst data_ set_query_response_ set_data_].
  eapply tables_grow_trans; [| apply delay_and_signature_tables].
  assert (Hstart :
    tables_grow (exclude_hints (config_ w)) (data_ w)
      (first_query_info (exclude_hints (config_ w)) (leading_message qr)
         (basic_info tf tt df (config_ w) qr (leading_message qr)
            (block_times (config_ w) (leading_message qr)
               (data_ (updateBlockStats w stats)),
             set_qri_qr_flags_if true 0 (query_response_ w),
             empty_signature))).1.1).
  { eapply tables_grow_trans; [| apply first_query_info_tables].
    eapply tables_grow_trans; [| apply basic_info_tables].
    unfold block_times, updateBlockStats. tables_grow_cases. }
  destruct qr as [q | r | q r]; cbn [query response leading_message] in *.
  - eapply tables_grow_trans; [exact Hstart | apply query_info_tables].
  - eapply tables_grow_trans; [exact Hstart | apply response_info_tables].
  - eapply tables_grow_trans; [| apply response_info_tables].
    eapply tables_grow_trans; [exact Hstart | apply query_info_tables].
Qed.

End Tables.

(** ** What [writeBasic] does to the item and the signature *)

Section Item.
Variables tf tt df : QueryResponse -> Z.

Lemma basic_info_item (config : Configuration) (qr : QueryResponse)
    (d : DNSMessage) (st : BasicState) :
  qri_qr_flags (basic_info tf tt df config qr d st).1.2 = qri_qr_flags st.1.2
  /\ qri_tstamp (basic_info tf tt df config qr d st).1.2
     = (if excl_timestamp (exclude_hints config) then qri_tstamp st.1.2
        else Some (timestamp d))
  /\ qri_response_delay (basic_info tf tt df config qr d st).1.2
     = qri_response_delay st.1.2
  /\ qr_flags (basic_info tf tt df config qr d st).2 = qr_flags st.2.
Proof.
  destruct st as [[data qri] qs]. unfold basic_info. cbn.
  destruct (excl_timestamp (exclude_hints config)).
  all: split; [reflexivity |]; split; [reflexivity |]; split; reflexivity.
Qed.

Lemma first_query_info_item (exclude : HintsExcluded) (d : DNSMessage)
    (st : BasicState) :
  qri_qr_flags (first_query_info exclude d st).1.2
  = (match queries (dns d) with
     | [] => Z.lor (qri_qr_flags st.1.2) QUERY_HAS_NO_QUESTION
     | _ :: _ => qri_qr_flags st.1.2
     end)
  /\ qri_tstamp (first_query_info exclude d st).1.2 = qri_tstamp st.1.2
  /\ qri_response_delay (first_query_info exclude d st).1.2
     = qri_response_delay st.1.2
  /\ qr_flags (first_query_info exclude d st).2 = qr_flags st.2.
Proof.
  destruct st as [[data qri] qs]. unfold first_query_info.
  destruct (queries (dns d)).
  all: split; [reflexivity |]; split; [reflexivity |]; split; reflexivity.
Qed.

Lemma query_info_item (exclude : HintsExcluded) (q : DNSMessage)
    (st : BasicState) :
  qri_qr_flags (query_info exclude q st).1.2
  = (match edns0 (dns q) with
     | Some _ => Z.lor (Z.lor (qri_qr_flags st.1.2) HAS_QUERY) QUERY_HAS_OPT
     | None => Z.lor (qri_qr_flags st.1.2) HAS_QUERY
     end)
  /\ qri_tstamp (query_info exclude q st).1.2 = qri_tstamp st.1.2
  /\ qri_response_delay (query_info exclude q st).1.2
     = qri_response_delay st.1.2
  /\ qr_flags (query_info exclude q st).2 = qr_flags st.2.
Proof.
  destruct st as [[data qri] qs]. unfold query_info.
  destruct (edns0 (dns q)).
  all: split; [reflexivity |]; split; [reflexivity |]; split; reflexivity.
Qed.

Lemma response_info_item (exclude : HintsExcluded) (r : DNSMessage)
    (st : BasicState) :
  qri_qr_flags (response_info exclude r st).1.2
  = (let f := Z.lor (qri_qr_flags st.1.2) HAS_RESPONSE in
     let f := match edns0 (dns r) with
              | Some _ => Z.lor f RESPONSE_HAS_OPT
              | None => f
              end in
     if questions_count (dns r) =? 0
     then Z.lor f RESPONSE_HAS_NO_QUESTION else f)
  /\ qri_tstamp (response_info exclude r st).1.2 = qri_tstamp st.1.2
  /\ qri_response_delay (response_info exclude r st).1.2
     = qri_response_delay st.1.2
  /\ qr_flags (response_info exclude r st).2 = qr_flags st.2.
Proof.
  destruct st as [[data qri] qs]. unfold response_info.
  destruct (edns0 (dns r)).
  all: split; [reflexivity |]; split; [reflexivity |]; split; reflexivity.
Qed.

Lemma delay_and_signature_item (exclude : HintsExcluded)
    (qr : QueryResponse) (st : BasicState) :
  qri_qr_flags (delay_and_signature exclude qr st).1.2 = qri_qr_flags st.1.2
  /\ qri_tstamp (delay_and_signature exclude qr st).1.2 = qri_tstamp st.1.2
  /\ qri_response_delay (delay_and_signature exclude qr st).1.2
     = (match qr with
        | QueryAndResponse q r =>
            if excl_response_delay exclude then qri_response_delay st.1.2
            else Some (timestamp r - timestamp q)
        | _ => qri_response_delay st.1.2
        end)
  /\ qr_flags (delay_and_signature exclude qr st).2
     = (if excl_qr_flags exclude then qr_flags st.2
        else Some (qri_qr_flags st.1.2))
  /\ qri_signature (delay_and_signature exclude qr st).1.2
     = (if excl_qr_signature exclude then qri_signature st.1.2
        else Some (intern_index (delay_and_signature exclude qr st).2
                     (query_response_signatures st.1.1)))
  /\ query_response_signatures (delay_and_signature exclude qr st).1.1
     = (if excl_qr_signature exclude then query_response_signatures st.1.1
        else intern_table (delay_and_signature exclude qr st).2
               (query_response_signatures st.1.1)).
Proof.
  destruct st as [[data qri] qs]. unfold delay_and_signature.
  destruct qr as [q | r | q r]; cbn;
    destruct (excl_response_delay exclude), (excl_qr_flags exclude),
      (excl_qr_signature exclude); cbn.
  all: split; [reflexivity |]; split; [reflexivity |]; split; [reflexivity |];
    split; [reflexivity |]; split; reflexivity.
Qed.

Lemma writeBasic_item (w : BlockCborWriter) (qr : QueryResponse)
    (stats : PacketStatistics) :
  qri_qr_flags (item_of tf tt df w qr stats)
  = (let f := match queries (dns (leading_message qr)) with
              | [] => Z.lor 0 QUERY_HAS_NO_QUESTION
              | _ :: _ => 0
              end in
     let f := match query qr with
              | Some q =>
                  match edns0 (dns q) with
                  | Some _ => Z.lor (Z.lor f HAS_QUERY) QUERY_HAS_OPT
                  | None => Z.lor f HAS_QUERY
                  end
              | None => f
              end in
     match response qr with
     | Some r =>
         let f := Z.lor f HAS_RESPONSE in
         let f := match edns0 (dns r) with
                  | Some _ => Z.lor f RESPONSE_HAS_OPT
                  | None => f
                  end in
         if questions_count (dns r) =? 0
         then Z.lor f RESPONSE_HAS_NO_QUESTION else f
     | None => f
     end)
  /\ qri_tstamp (item_of tf tt df w qr stats)
     = (if excl_timestamp (exclude_hints (config_ w))
        then qri_tstamp (query_response_ w)
        else Some (timestamp (leading_message qr)))
  /\ qri_response_delay (item_of tf tt df w qr stats)
     = (match qr with
        | QueryAndResponse q r =>
            if excl_response_delay (exclude_hints (config_ w))
            then qri_response_delay (query_response_ w)
            else Some (timestamp r - timestamp q)
        | _ => qri_response_delay (query_response_ w)
        end)
  /\ qr_flags (signature_of tf tt df w qr stats)
     = (if excl_qr_flags (exclude_hints (config_ w)) then None
        else Some (qri_qr_flags (item_of tf tt df w qr stats)))
  /\ (excl_qr_signature (exclude_hints (config_ w)) = false ->
      exists i,
        qri_signature (item_of tf tt df w qr stats) = Some i
        /\ query_response_signatures (block_of tf tt df w qr stats) !! i
           = Some (signature_of tf tt df w qr stats)).
Proof.
  unfold item_of, block_of, signature_of, writeBasic, writeBasic_qs.
  cbn [fst snd query_response_ data_ set_query_response_ set_data_].
  match goal with
  | |- context [delay_and_signature ?e ?q ?s] => set (st := s)
  end.
  assert (Hst :
    qri_qr_flags st.1.2
    = (let f := match queries (dns (leading_message qr)) with
                | [] => Z.lor 0 QUERY_HAS_NO_QUESTION
                | _ :: _ => 0
                end in
       let f := match query qr with
                | Some q =>
                    match edns0 (dns q) with
                    | Some _ => Z.lor (Z.lor f HAS_QUERY) QUERY_HAS_OPT
                    | None => Z.lor f HAS_QUERY
                    end
                | None => f
                end in
       match response qr with
       | Some r =>
           let f := Z.lor f HAS_RESPONSE in
           let f := match edns0 (dns r) with
                    | Some _ => Z.lor f RESPONSE_HAS_OPT
                    | None => f
                    end in
           if questions_count (dns r) =? 0
           then Z.lor f RESPONSE_HAS_NO_QUESTION else f
       | None => f
       end)
    /\ qri_tstamp st.1.2
       = (if excl_timestamp (exclude_hints (config_ w))
          then qri_tstamp (query_response_ w)
          else Some (timestamp (leading_message qr)))
    /\ qri_response_delay st.1.2 = qri_response_delay (query_response_ w)
    /\ qr_flags st.2 = None).
  { unfold st. clear st.
    destruct qr as [q | r | q r]; cbn [query response leading_message].
    - destruct (query_info_item (exclude_hints (config_ w)) q
                  (first_query_info (exclude_hints (config_ w)) q
                     (basic_info tf tt df (config_ w) (QueryOnly q) q
                        (block_times (config_ w) q
                           (data_ (updateBlockStats w stats)),
                         set_qri_qr_flags_if true 0 (query_response_ w),
                         empty_signature))))
        as (-> & -> & -> & ->).
      destruct (first_query_info_item (exclude_hints (config_ w)) q
                  (basic_info tf tt df (config_ w) (QueryOnly q) q
                     (block_times (config_ w) q
                        (data_ (updateBlockStats w stats)),
                      set_qri_qr_flags_if true 0 (query_response_ w),
                      empty_signature)))
        as (-> & -> & -> & ->).
      destruct (basic_info_item (config_ w) (QueryOnly q) q
                  (block_times (config_ w) q
                     (data_ (updateBlockStats w stats)),
                   set_qri_qr_flags_if true 0 (query_response_ w),
                   empty_signature))
        as (-> & -> & -> & ->).
      cbn [fst snd qri_qr_flags qri_tstamp qri_response_delay
           set_qri_qr_flags_if qr_flags empty_signature].
      destruct (queries (dns q)), (edns0 (dns q)); repeat split.
    - destruct (response_info_item (exclude_hints (config_ w)) r
                  (first_query_info (exclude_hints (config_ w)) r
                     (basic_info tf tt df (config_ w) (ResponseOnly r) r
                        (block_times (config_ w) r
                           (data_ (updateBlockStats w stats)),
                         set_qri_qr_flags_if true 0 (query_response_ w),
                         empty_signature))))
        as (-> & -> & -> & ->).
      destruct (first_query_info_item (exclude_hints (config_ w)) r
                  (basic_info tf tt df (config_ w) (ResponseOnly r) r
                     (block_times (config_ w) r
                        (data_ (updateBlockStats w stats)),
                      set_qri_qr_flags_if true 0 (query_response_ w),
                      empty_signature)))
        as (-> & -> & -> & ->).
      destruct (basic_info_item (config_ w) (ResponseOnly r) r
                  (block_times (config_ w) r
                     (data_ (updateBlockStats w stats)),
                   set_qri_qr_flags_if true 0 (query_response_ w),
                   empty_signature))
        as (-> & -> & -> & ->).
      cbn [fst snd qri_qr_flags qri_tstamp qri_response_delay
           set_qri_qr_flags_if qr_flags empty_signature].
      destruct (queries (dns r)); repeat split.
    - destruct (response_info_item (exclude_hints (config_ w)) r
                  (query_info (exclude_hints (config_ w)) q
                     (first_query_info (exclude_hints (config_ w)) q
                        (basic_info tf tt df (config_ w)
                           (QueryAndResponse q r) q
                           (block_times (config_ w) q
                              (data_ (updateBlockStats w stats)),
                            set_qri_qr_flags_if true 0 (query_response_ w),
                            empty_signature)))))
        as (-> & -> & -> & ->).
      destruct (query_info_item (exclude_hints (config_ w)) q
                  (first_query_info (exclude_hints (config_ w)) q
                     (basic_info tf tt df (config_ w)
                        (QueryAndResponse q r) q
                        (block_times (config_ w) q
                           (data_ (updateBlockStats w stats)),
                         set_qri_qr_flags_if true 0 (query_response_ w),
                         empty_signature))))
        as (-> & -> & -> & ->).
      destruct (first_query_info_item (exclude_hints (config_ w)) q
                  (basic_info tf tt df (config_ w) (QueryAndResponse q r) q
                     (block_times (config_ w) q
                        (data_ (updateBlockStats w stats)),
                      set_qri_qr_flags_if true 0 (query_response_ w),
                      empty_signature)))
        as (-> & -> & -> & ->).
      destruct (basic_info_item (config_ w) (QueryAndResponse q r) q
                  (block_times (config_ w) q
                     (data_ (updateBlockStats w stats)),
                   set_qri_qr_flags_if true 0 (query_response_ w),
                   empty_signature))
        as (-> & -> & -> & ->).
      cbn [fst snd qri_qr_flags qri_tstamp qri_response_delay
           set_qri_qr_flags_if qr_flags empty_signature].
      destruct (queries (dns q)), (edns0 (dns q)); repeat split. }
  destruct Hst as (Hsf & Hstt & Hsd & Hsq). clearbody st.
  destruct (delay_and_signature_item (exclude_hints (config_ w)) qr st)
    as (Hf & Ht & Hd & Hqf & Hsig & Htab).
  rewrite Hf, Ht, Hd, Hqf, Hsf, Hstt, Hsd, Hsq.
  split; [reflexivity |]. split; [reflexivity |].
  split; [destruct qr; reflexivity |].
  split; [reflexivity |].
  intros Hx. rewrite Hx in Hsig, Htab.
  eexists. split; [exact Hsig |]. rewrite Htab. apply intern_lookup.
Qed.

End Item.

Section ItemTheorems.
Variables tf tt df : QueryResponse -> Z.

(** The [qr_flags] that [writeBasic] computes: bit 0 for a query, bit 1 for
    a response, bits 2 and 3 for an OPT record in the query and in the
    response, bit 4 when the leading message has no question, bit 5 when the
    response counts no question, and no other bit; the signature holds the
    same flags unless [qr_flags] is excluded. Flags of the item from before
    the call do not survive. *)
Theorem writeBasic_flags (w : BlockCborWriter) (qr : QueryResponse)
    (stats : PacketStatistics) :
  Z.testbit (qri_qr_flags (item_of tf tt df w qr stats)) 0 = has_query qr
  /\ Z.testbit (qri_qr_flags (item_of tf tt df w qr stats)) 1
     = has_response qr
  /\ Z.testbit (qri_qr_flags (item_of tf tt df w qr stats)) 2
     = match query qr with
       | Some q => engaged (edns0 (dns q))
       | None => false
       end
  /\ Z.testbit (qri_qr_flags (item_of tf tt df w qr stats)) 3
     = match response qr with
       | Some r => engaged (edns0 (dns r))
       | None => false
       end
  /\ Z.testbit (qri_qr_flags (item_of tf tt df w qr stats)) 4
     = match queries (dns (leading_message qr)) with
       | [] => true
       | _ :: _ => false
       end
  /\ Z.testbit (qri_qr_flags (item_of tf tt df w qr stats)) 5
     = match response qr with
       | Some r => questions_count (dns r) =? 0
       | None => false
       end
  /\ 0 <= qri_qr_flags (item_of tf tt df w qr stats) < 64
  /\ qr_flags (signature_of tf tt df w qr stats)
     = (if excl_qr_flags (exclude_hints (config_ w)) then None
        else Some (qri_qr_flags (item_of tf tt df w qr stats))).
Proof.
  destruct (writeBasic_item tf tt df w qr stats) as (Hf & _ & _ & Hq & _).
  rewrite Hq, Hf. clear Hf Hq.
  destruct qr as [q | r | q r]; cbn [query response leading_message
    has_query has_response].
  - destruct (queries (dns q)), (edns0 (dns q)); vm_compute;
      repeat split; congruence.
  - destruct (queries (dns r)), (edns0 (dns r)),
      (questions_count (dns r) =? 0); vm_compute; repeat split; congruence.
  - destruct (queries (dns q)), (edns0 (dns q)), (edns0 (dns r)),
      (questions_count (dns r) =? 0); vm_compute; repeat split; congruence.
Qed.

(** Unless [qr_signature] is excluded, the signature index of the item
    names, in the table of the block, the signature that [writeBasic] built.
    The response delay is the timestamp of the response minus that of the
    query when both are there and [response_delay] is not excluded, and is
    left as it was otherwise. *)
Theorem writeBasic_signature_and_delay (w : BlockCborWriter)
    (qr : QueryResponse) (stats : PacketStatistics) :
  (excl_qr_signature (exclude_hints (config_ w)) = false ->
   exists i,
     qri_signature (item_of tf tt df w qr stats) = Some i
     /\ query_response_signatures (block_of tf tt df w qr stats) !! i
        = Some (signature_of tf tt df w qr stats))
  /\ qri_response_delay (item_of tf tt df w qr stats)
     = (match qr with
        | QueryAndResponse q r =>
            if excl_response_delay (exclude_hints (config_ w))
            then qri_response_delay (query_response_ w)
            else Some (timestamp r - timestamp q)
        | _ => qri_response_delay (query_response_ w)
        end).
Proof.
  destruct (writeBasic_item tf tt df w qr stats) as (_ & _ & Hd & _ & Hs).
  split; assumption.
Qed.

(** [writeBasic] only appends to the tables of the block, so every index
    handed out before still names the same entry; it adds no item to the
    block and calls nothing on the encoder. *)
Theorem writeBasic_keeps_table_entries (w : BlockCborWriter)
    (qr : QueryResponse) (stats : PacketStatistics) :
  addresses (data_ w) `prefix_of` addresses (block_of tf tt df w qr stats)
  /\ class_types (data_ w)
     `prefix_of` class_types (block_of tf tt df w qr stats)
  /\ names_rdatas (data_ w)
     `prefix_of` names_rdatas (block_of tf tt df w qr stats)
  /\ query_response_signatures (data_ w)
     `prefix_of` query_response_signatures (block_of tf tt df w qr stats)
  /\ query_response_items (block_of tf tt df w qr stats)
     = query_response_items (data_ w)
  /\ enc_ (writeBasic tf tt df w qr stats) = enc_ w.
Proof.
  destruct (writeBasic_tables tf tt df w qr stats)
    as (Ha & Hc & Hn & Hs & _).
  split; [exact Ha |]. split; [exact Hc |]. split; [exact Hn |].
  split; [exact Hs |]. split; [apply writeBasic_items | reflexivity].
Qed.

(** Excluded fields leave nothing in the tables: no address is interned when
    both addresses are excluded, no class and type when [query_class_type]
    is, no name or RDATA when [query_name] and [query_opt_rdata] are, and no
    signature when [qr_signature] is. *)
Theorem writeBasic_excluded_not_interned (w : BlockCborWriter)
    (qr : QueryResponse) (stats : PacketStatistics) :
  (excl_server_address (exclude_hints (config_ w)) = true ->
   excl_client_address (exclude_hints (config_ w)) = true ->
   addresses (block_of tf tt df w qr stats) = addresses (data_ w))
  /\ (excl_query_class_type (exclude_hints (config_ w)) = true ->
      class_types (block_of tf tt df w qr stats) = class_types (data_ w))
  /\ (excl_query_name (exclude_hints (config_ w)) = true ->
      excl_query_opt_rdata (exclude_hints (config_ w)) = true ->
      names_rdatas (block_of tf tt df w qr stats) = names_rdatas (data_ w))
  /\ (excl_qr_signature (exclude_hints (config_ w)) = true ->
      query_response_signatures (block_of tf tt df w qr stats)
      = query_response_signatures (data_ w)).
Proof.
  destruct (writeBasic_tables tf tt df w qr stats)
    as (_ & _ & _ & _ & Ha & Hc & Hn & Hs).
  split; [exact Ha |]. split; [exact Hc |]. split; [exact Hn | exact Hs].
Qed.

(** Records stay in the order written: unless [timestamp] is excluded, the
    timestamps of the items of the block are those it had, followed by the
    leading timestamp of each transaction recorded, in turn. *)
Theorem add_records_in_order (rs : list (QueryResponse * PacketStatistics))
    (w : BlockCborWriter) :
  excl_timestamp (exclude_hints (config_ w)) = false ->
  qri_tstamp <$> query_response_items (data_ (add_records tf tt df w rs))
  = (qri_tstamp <$> query_response_items (data_ w))
    ++ (Some <$> leading_timestamps rs).
Proof.
  revert w. induction rs as [| [qr stats] rs IH]; intros w Hx.
  - cbn. rewrite app_nil_r. reflexivity.
  - change (add_records tf tt df w ((qr, stats) :: rs))
      with (add_records tf tt df
              (endRecord (writeBasic tf tt df w qr stats)) rs).
    change (leading_timestamps ((qr, stats) :: rs))
      with (timestamp (leading_message qr) :: leading_timestamps rs).
    rewrite IH by exact Hx.
    destruct (endRecord_data (writeBasic tf tt df w qr stats))
      as (_ & -> & _).
    rewrite (writeBasic_items tf tt df), fmap_app, <- app_assoc.
    destruct (writeBasic_item tf tt df w qr stats) as (_ & Ht & _).
    unfold item_of in Ht. cbn [fmap list_fmap]. rewrite Ht, Hx.
    reflexivity.
Qed.

End ItemTheorems.

(** ** Records on their way to the file *)

Section Conservation.
Variables tf tt df : QueryResponse -> Z.

Lemma startRecord_recorded (w : BlockCborWriter) (qr : QueryResponse) :
  recorded (startRecord w qr) = recorded w
  /\ is_open (enc_ (startRecord w qr)) = is_open (enc_ w)
  /\ exists l, flushed (startRecord w qr) = flushed w ++ l.
Proof.
  unfold recorded, startRecord.
  destruct (is_full (config_ w) (data_ w)).
  - assert (Hf : flushed
                   (set_query_response_ empty_item
                      (set_data_
                         (set_start_time_if true
                            (Some (timestamp (leading_message qr)))
                            (data_ (writeBlock
                               (set_data_
                                  (set_end_time_if true
                                     (Some (timestamp (leading_message qr)))
                                     (data_ w)) w))))
                         (writeBlock
                            (set_data_
                               (set_end_time_if true
                                  (Some (timestamp (leading_message qr)))
                                  (data_ w)) w))))
                 = flushed w
                   ++ [set_last_packet_statistics_if true
                         (last_end_block_statistics_ w)
                         (set_end_time_if true
                            (Some (timestamp (leading_message qr)))
                            (data_ w))])
      by (unfold writeBlock; flushed_norm; reflexivity).
    cbv zeta. rewrite Hf. split; [| split; [reflexivity | eauto]].
    rewrite bind_app. cbn. rewrite !app_nil_r. reflexivity.
  - split; [reflexivity |]. split; [reflexivity |].
    exists []. rewrite app_nil_r. reflexivity.
Qed.

Lemma record_cycle_recorded (w : BlockCborWriter)
    (r : QueryResponse * PacketStatistics) :
  recorded (record_cycle tf tt df w r)
  = recorded w ++ [item_of tf tt df (startRecord w r.1) r.1 r.2]
  /\ is_open (enc_ (record_cycle tf tt df w r)) = is_open (enc_ w)
  /\ config_ (record_cycle tf tt df w r) = config_ w
  /\ exists l, flushed (record_cycle tf tt df w r) = flushed w ++ l.
Proof.
  destruct (startRecord_recorded w r.1) as (Hrec & Hopen & Hfl).
  unfold record_cycle.
  assert (Hf : flushed (endRecord
                          (writeBasic tf tt df (startRecord w r.1) r.1 r.2))
               = flushed (startRecord w r.1)) by reflexivity.
  split.
  - unfold recorded. rewrite Hf.
    destruct (endRecord_data
                (writeBasic tf tt df (startRecord w r.1) r.1 r.2))
      as (_ & -> & _).
    rewrite (writeBasic_items tf tt df), app_assoc.
    unfold recorded in Hrec. rewrite Hrec. reflexivity.
  - split; [exact Hopen |].
    split; [apply startRecord_config |].
    rewrite Hf. exact Hfl.
Qed.

Lemma record_cycles_recorded
    (rs : list (QueryResponse * PacketStatistics)) (w : BlockCborWriter) :
  exists its l,
    recorded (record_cycles tf tt df w rs) = recorded w ++ its
    /\ flushed (record_cycles tf tt df w rs) = flushed w ++ l
    /\ is_open (enc_ (record_cycles tf tt df w rs)) = is_open (enc_ w)
    /\ length its = length rs
    /\ (excl_timestamp (exclude_hints (config_ w)) = false ->
        qri_tstamp <$> its = Some <$> leading_timestamps rs).
Proof.
  revert w. induction rs as [| r rs IH]; intros w.
  - exists [], []. change (record_cycles tf tt df w []) with w.
    rewrite !app_nil_r. repeat apply conj; reflexivity.
  - change (record_cycles tf tt df w (r :: rs))
      with (record_cycles tf tt df (record_cycle tf tt df w r) rs).
    destruct (record_cycle_recorded w r) as (Hrec & Hopen & Hc & l1 & Hl1).
    destruct (IH (record_cycle tf tt df w r))
      as (its & l2 & Hrec' & Hl2 & Hopen' & Hlen & Hts).
    exists (item_of tf tt df (startRecord w r.1) r.1 r.2 :: its), (l1 ++ l2).
    split; [rewrite Hrec', Hrec, <- app_assoc; reflexivity |].
    split; [rewrite Hl2, Hl1, <- app_assoc; reflexivity |].
    split; [rewrite Hopen'; exact Hopen |].
    split; [cbn [length]; rewrite Hlen; reflexivity |].
    intros Hx. rewrite Hc in Hts.
    change (leading_timestamps (r :: rs))
      with (timestamp (leading_message r.1) :: leading_timestamps rs).
    cbn [fmap list_fmap]. fold (fmap (M:=list) qri_tstamp its).
    rewrite (Hts Hx).
    destruct (writeBasic_item tf tt df (startRecord w r.1) r.1 r.2)
      as (_ & Ht & _).
    rewrite Ht, startRecord_config, Hx. reflexivity.
Qed.

(** No record is lost on the way to the file. Whatever the block size,
    recording transactions ([startRecord], [writeBasic], [endRecord] for
    each) on a writer with an open file and then closing it writes blocks
    that hold, taken in order, the items the block in progress had and one
    item for each transaction; unless [timestamp] is excluded the items
    carry the leading timestamps of the transactions in the order recorded.
    No item stays behind in the writer. *)
Theorem records_reach_the_file
    (rs : list (QueryResponse * PacketStatistics)) (w : BlockCborWriter)
    (now : Z) :
  is_open (enc_ w) = true ->
  exists new,
    flushed (close (record_cycles tf tt df w rs) now) = flushed w ++ new
    /\ length (new ≫= query_response_items)
       = (length (query_response_items (data_ w)) + length rs)%nat
    /\ (excl_timestamp (exclude_hints (config_ w)) = false ->
        qri_tstamp <$> (new ≫= query_response_items)
        = (qri_tstamp <$> query_response_items (data_ w))
          ++ (Some <$> leading_timestamps rs))
    /\ query_response_items
         (data_ (close (record_cycles tf tt df w rs) now)) = [].
Proof.
  intros Hopen.
  destruct (record_cycles_recorded rs w)
    as (its & l & Hrec & Hl & Hopen' & Hlen & Hts).
  rewrite Hopen in Hopen'.
  rewrite close_open by exact Hopen'.
  exists (l ++ [closing_block (record_cycles tf tt df w rs) now]).
  assert (Hitems :
    (l ++ [closing_block (record_cycles tf tt df w rs) now])
      ≫= query_response_items
    = query_response_items (data_ w) ++ its).
  { unfold recorded in Hrec. rewrite Hl, bind_app, <- !app_assoc in Hrec.
    apply app_inv_head in Hrec.
    rewrite bind_app. cbn. rewrite app_nil_r. exact Hrec. }
  split.
  { unfold flushed at 1. cbn [enc_]. unfold flushed_blocks. cbn [calls].
    rewrite omap_app. cbn. fold (flushed_blocks (enc_ (record_cycles tf tt df w rs))).
    fold (flushed (record_cycles tf tt df w rs)).
    rewrite Hl, <- app_assoc. reflexivity. }
  rewrite Hitems.
  split; [rewrite length_app, Hlen; reflexivity |].
  split; [intros Hx; rewrite fmap_app, (Hts Hx); reflexivity |].
  reflexivity.
Qed.

End Conservation.

(** ** Excluded fields *)

Ltac absent_cases :=
  unfold excluded_absent; cbn;
  let H := fresh "H" in
  intros H; decompose [and] H; clear H;
  repeat apply conj;
  (let Hx := fresh "Hx" in
   intros Hx; rewrite ?Hx; cbn; auto).

Section Excluded.
Variables tf tt df : QueryResponse -> Z.

Lemma basic_info_absent (config : Configuration) (qr : QueryResponse)
    (d : DNSMessage) (st : BasicState) :
  excluded_absent (exclude_hints config) st.1.2 st.2 ->
  excluded_absent (exclude_hints config)
    (basic_info tf tt df config qr d st).1.2
    (basic_info tf tt df config qr d st).2.
Proof. destruct st as [[data qri] qs]. unfold basic_info. absent_cases. Qed.

Lemma first_query_info_absent (exclude : HintsExcluded) (d : DNSMessage)
    (st : BasicState) :
  excluded_absent exclude st.1.2 st.2 ->
  excluded_absent exclude (first_query_info exclude d st).1.2
    (first_query_info exclude d st).2.
Proof.
  destruct st as [[data qri] qs]. unfold first_query_info.
  destruct (queries (dns d)); absent_cases.
Qed.

Lemma query_info_absent (exclude : HintsExcluded) (q : DNSMessage)
    (st : BasicState) :
  excluded_absent exclude st.1.2 st.2 ->
  excluded_absent exclude (query_info exclude q st).1.2
    (query_info exclude q st).2.
Proof.
  destruct st as [[data qri] qs]. unfold query_info.
  destruct (edns0 (dns q)); absent_cases.
Qed.

Lemma response_info_absent (exclude : HintsExcluded) (r : DNSMessage)
    (st : BasicState) :
  excluded_absent exclude st.1.2 st.2 ->
  excluded_absent exclude (response_info exclude r st).1.2
    (response_info exclude r st).2.
Proof.
  destruct st as [[data qri] qs]. unfold response_info.
  destruct (edns0 (dns r)); absent_cases.
Qed.

Lemma delay_and_signature_absent (exclude : HintsExcluded)
    (qr : QueryResponse) (st : BasicState) :
  excluded_absent exclude st.1.2 st.2 ->
  excluded_absent exclude (delay_and_signature exclude qr st).1.2
    (delay_and_signature exclude qr st).2.
Proof.
  destruct st as [[data qri] qs]. unfold delay_and_signature.
  destruct qr; absent_cases.
Qed.

Lemma writeBasic_absent (w : BlockCborWriter) (qr : QueryResponse)
    (stats : PacketStatistics) :
  excluded_absent (exclude_hints (config_ w)) (query_response_ w)
    empty_signature ->
  excluded_absent (exclude_hints (config_ w))
    (item_of tf tt df w qr stats) (signature_of tf tt df w qr stats).
Proof.
  intros Hstart.
  unfold item_of, signature_of, writeBasic, writeBasic_qs.
  cbn [fst snd query_response_ data_ set_query_response_ set_data_].
  apply delay_and_signature_absent.
  assert (Hinit :
    excluded_absent (exclude_hints (config_ w))
      (first_query_info (exclude_hints (config_ w)) (leading_message qr)
         (basic_info tf tt df (config_ w) qr (leading_message qr)
            (block_times (config_ w) (leading_message qr)
               (data_ (updateBlockStats w stats)),
             set_qri_qr_flags_if true 0 (query_response_ w),
             empty_signature))).1.2
      (first_query_info (exclude_hints (config_ w)) (leading_message qr)
         (basic_info tf tt df (config_ w) qr (leading_message qr)
            (block_times (config_ w) (leading_message qr)
               (data_ (updateBlockStats w stats)),
             set_qri_qr_flags_if true 0 (query_response_ w),
             empty_signature))).2).
  { apply first_query_info_absent, basic_info_absent.
    cbn [fst snd]. revert Hstart. unfold excluded_absent. cbn. trivial. }
  destruct qr as [q | r | q r]; cbn [query response leading_message] in *.
  - apply query_info_absent. exact Hinit.
  - apply response_info_absent. exact Hinit.
  - apply response_info_absent, query_info_absent. exact Hinit.
Qed.

(** Excluded fields never reach the output: in the item and the signature
    that [writeBasic] fills for a record begun with [startRecord], every
    member whose hint is set is absent, whatever the transaction holds. The
    hints are read as the code reads them, so [query_nscount] is absent
    under the hint [query_arcount] and [query_arcount] under the hint
    [query_nscount]. *)
Theorem excluded_fields_absent (w : BlockCborWriter)
    (qr0 qr : QueryResponse) (stats : PacketStatistics) :
  excluded_absent (exclude_hints (config_ w))
    (item_of tf tt df (startRecord w qr0) qr stats)
    (signature_of tf tt df (startRecord w qr0) qr stats).
Proof.
  assert (Hc : config_ (startRecord w qr0) = config_ w)
    by apply startRecord_config.
  rewrite <- Hc. apply writeBasic_absent.
  unfold startRecord. cbn [query_response_ set_query_response_].
  unfold excluded_absent. cbn. repeat apply conj; reflexivity.
Qed.

End Excluded.

(** ** Address events *)

Section AddressEvents.
Variables tf tt df : QueryResponse -> Z.

Lemma basic_info_events (config : Configuration) (qr : QueryResponse)
    (d : DNSMessage) (st : BasicState) :
  address_event_counts (basic_info tf tt df config qr d st).1.1
  = address_event_counts st.1.1.
Proof. destruct st as [[data qri] qs]. reflexivity. Qed.

Lemma first_query_info_events (exclude : HintsExcluded) (d : DNSMessage)
    (st : BasicState) :
  address_event_counts (first_query_info exclude d st).1.1
  = address_event_counts st.1.1.
Proof.
  destruct st as [[data qri] qs]. unfold first_query_info.
  destruct (queries (dns d)); reflexivity.
Qed.

Lemma query_info_events (exclude : HintsExcluded) (q : DNSMessage)
    (st : BasicState) :
  address_event_counts (query_info exclude q st).1.1
  = address_event_counts st.1.1.
Proof.
  destruct st as [[data qri] qs]. unfold query_info.
  destruct (edns0 (dns q)); reflexivity.
Qed.

Lemma response_info_events (exclude : HintsExcluded) (r : DNSMessage)
    (st : BasicState) :
  address_event_counts (response_info exclude r st).1.1
  = address_event_counts st.1.1.
Proof.
  destruct st as [[data qri] qs]. unfold response_info.
  destruct (edns0 (dns r)); reflexivity.
Qed.

Lemma delay_and_signature_events (exclude : HintsExcluded)
    (qr : QueryResponse) (st : BasicState) :
  address_event_counts (delay_and_signature exclude qr st).1.1
  = address_event_counts st.1.1.
Proof. destruct st as [[data qri] qs]. reflexivity. Qed.

Lemma writeBasic_events (w : BlockCborWriter) (qr : QueryResponse)
    (stats : PacketStatistics) :
  address_event_counts (data_ (writeBasic tf tt df w qr stats))
  = address_event_counts (data_ w).
Proof.
  unfold writeBasic, writeBasic_qs.
  cbn [fst data_ set_query_response_ set_data_].
  rewrite delay_and_signature_events.
  destruct qr as [q | r | q r]; cbn [query response leading_message];
    rewrite ?response_info_events, ?query_info_events,
      first_query_info_events, basic_info_events; reflexivity.
Qed.

Lemma call_config (w : BlockCborWriter) (c : Call) :
  config_ (call tf tt df w c) = config_ w.
Proof.
  destruct c; cbn [call].
  - unfold checkForRotation.
    destruct (negb (is_open (enc_ w)) || _ || need_rotate); [| reflexivity].
    rewrite writeFileHeader_eq.
    destruct (is_open (enc_ w)) eqn:Hopen; [| reflexivity].
    rewrite close_open by exact Hopen. reflexivity.
  - unfold startRecord. destruct (is_full (config_ w) (data_ w)); reflexivity.
  - apply writeBasic_config.
  - reflexivity.
  - unfold writeAE.
    destruct (negb (excl_address_events (exclude_hints (config_ w))));
      reflexivity.
  - destruct (is_open (enc_ w)) eqn:Hopen.
    + rewrite close_open by exact Hopen. reflexivity.
    + rewrite close_closed by exact Hopen. reflexivity.
Qed.

Lemma run_config (cs : list Call) (w : BlockCborWriter) :
  config_ (run tf tt df w cs) = config_ w.
Proof.
  revert w. induction cs as [| c cs IH]; intros w; [reflexivity |].
  change (run tf tt df w (c :: cs))
    with (run tf tt df (call tf tt df w c) cs).
  rewrite IH. apply call_config.
Qed.

End AddressEvents.

Lemma find_index_prefix {T : Type} `{EqDecision T} (v : T) (tbl tbl' : list T)
    (i : nat) :
  find_index v tbl = Some i -> tbl `prefix_of` tbl' ->
  find_index v tbl' = Some i.
Proof.
  intros Hf [r ->]. revert i Hf.
  induction tbl as [| x tbl IH]; intros i; simpl; [discriminate |].
  destruct (decide (x = v)); [trivial |].
  destruct (find_index v tbl) as [j |]; simpl; [| discriminate].
  intros [= <-]. rewrite (IH j eq_refl). reflexivity.
Qed.

Lemma find_index_new {T : Type} `{EqDecision T} (v : T) (tbl : list T) :
  find_index v tbl = None -> find_index v (tbl ++ [v]) = Some (length tbl).
Proof.
  induction tbl as [| x tbl IH]; simpl.
  - intros _. rewrite decide_True by reflexivity. reflexivity.
  - destruct (decide (x = v)); [discriminate |].
    destruct (find_index v tbl); simpl; [discriminate |].
    intros _. rewrite IH by reflexivity. reflexivity.
Qed.

Lemma find_index_interned {T : Type} `{EqDecision T} (v : T) (tbl : list T) :
  find_index v (intern_table v tbl) = Some (intern_index v tbl).
Proof.
  unfold intern_table, intern_index.
  destruct (find_index v tbl) as [i |] eqn:Hf; [exact Hf |].
  apply find_index_new. exact Hf.
Qed.

Lemma increment_count_keys (k x : AddressEventKey)
    (l : list (AddressEventKey * Z)) :
  x ∈ fst <$> increment_count k l -> x = k \/ x ∈ fst <$> l.
Proof.
  induction l as [| [k0 n] l IH]; simpl.
  - intros Hx. apply list_elem_of_singleton in Hx. left. exact Hx.
  - destruct (decide (k0 = k)); simpl; [right; assumption |].
    intros Hx. apply elem_of_cons in Hx as [-> | Hx].
    + right. apply elem_of_cons. left. reflexivity.
    + destruct (IH Hx) as [-> | Hin]; [left; reflexivity |].
      right. apply elem_of_cons. right. exact Hin.
Qed.

Lemma increment_count_NoDup (k : AddressEventKey)
    (l : list (AddressEventKey * Z)) :
  NoDup (fst <$> l) -> NoDup (fst <$> increment_count k l).
Proof.
  induction l as [| [k0 n] l IH]; simpl.
  - intros _. apply NoDup_singleton.
  - intros Hnd. apply NoDup_cons in Hnd as [Hk0 Hnd].
    destruct (decide (k0 = k)); simpl.
    + apply NoDup_cons. split; assumption.
    + apply NoDup_cons. split; [| apply IH; exact Hnd].
      intros Hin.
      destruct (increment_count_keys _ _ _ Hin); [congruence | contradiction].
Qed.

Lemma increment_count_Forall (P : AddressEventKey -> Prop)
    (k : AddressEventKey) (l : list (AddressEventKey * Z)) :
  P k -> Forall (fun kn => P kn.1 /\ 1 <= kn.2) l ->
  Forall (fun kn => P kn.1 /\ 1 <= kn.2) (increment_count k l).
Proof.
  intros Hk. induction l as [| [k0 n] l IH]; simpl; intros Hall.
  - constructor; [| constructor]. split; [exact Hk | reflexivity].
  - apply Forall_cons in Hall as [[Hp Hn] Hall]. simpl in Hp, Hn.
    destruct (decide (k0 = k)).
    + constructor; [| exact Hall]. split; [exact Hp | simpl; lia].
    + constructor; [split; assumption | apply IH; exact Hall].
Qed.

Lemma increment_count_total (b : BlockData) (e : ReportedEvent)
    (k : AddressEventKey) (l : list (AddressEventKey * Z)) :
  foldr (fun kn acc =>
           if decide (event_of b kn.1 = Some e) then kn.2 + acc else acc)
    0 (increment_count k l)
  = foldr (fun kn acc =>
             if decide (event_of b kn.1 = Some e) then kn.2 + acc else acc)
      0 l
    + (if decide (event_of b k = Some e) then 1 else 0).
Proof.
  induction l as [| [k0 n] l IH]; simpl.
  - destruct (decide (event_of b k = Some e)); lia.
  - destruct (decide (k0 = k)) as [-> | Hne]; simpl.
    + destruct (decide (event_of b k = Some e)); lia.
    + rewrite IH. destruct (decide (event_of b k0 = Some e)); lia.
Qed.

(** Entries named through the first occurrence of their address stand for
    the same events when the address table grows. *)
Lemma event_of_grows (b b' : BlockData) (k : AddressEventKey) :
  (exists a, find_index a (addresses b) = Some (ae_address_index k)) ->
  addresses b `prefix_of` addresses b' ->
  event_of b' k = event_of b k.
Proof.
  intros [a Ha] Hp. unfold event_of.
  pose proof (find_index_Some _ _ _ Ha) as Hl.
  rewrite Hl, (prefix_lookup_Some _ _ _ _ Hl Hp). reflexivity.
Qed.

Lemma event_total_grows (b b' : BlockData) (e : ReportedEvent)
    (l : list (AddressEventKey * Z)) :
  Forall (fun kn =>
            (exists a, find_index a (addresses b)
                       = Some (ae_address_index kn.1))
            /\ 1 <= kn.2) l ->
  addresses b `prefix_of` addresses b' ->
  foldr (fun kn acc =>
           if decide (event_of b' kn.1 = Some e) then kn.2 + acc else acc)
    0 l
  = foldr (fun kn acc =>
             if decide (event_of b kn.1 = Some e) then kn.2 + acc else acc)
      0 l.
Proof.
  intros Hall Hp. induction Hall as [| kn l [Hk _] _ IH]; [reflexivity |].
  simpl. rewrite IH, (event_of_grows b b' kn.1 Hk Hp). reflexivity.
Qed.

(** A block whose address table grows and whose counts stay keeps its
    events. *)
Lemma counts_kept (b b' : BlockData) :
  address_event_counts b' = address_event_counts b ->
  addresses b `prefix_of` addresses b' ->
  counts_well_formed b ->
  counts_well_formed b'
  /\ forall e, event_count e b' = event_count e b.
Proof.
  intros Hev Hp [Hnd Hall]. split; [split |].
  - rewrite Hev. exact Hnd.
  - rewrite Hev. eapply Forall_impl; [exact Hall |].
    intros kn [[a Ha] Hn]. split; [| exact Hn].
    exists a. eapply find_index_prefix; eassumption.
  - intros e. unfold event_count. rewrite Hev.
    apply event_total_grows; assumption.
Qed.

(** One more event: its address is interned, and its entry is counted up
    or added. *)
Lemma counts_incremented (b : BlockData) (type code : Z)
    (address : byte_string) (ipv6 : bool) :
  counts_well_formed b ->
  counts_well_formed (count_address_event type code address ipv6 b)
  /\ forall e,
       event_count e (count_address_event type code address ipv6 b)
       = event_count e b
         + (if decide (Some (type, code, address, ipv6) = Some e)
            then 1 else 0).
Proof.
  intros [Hnd Hall].
  set (k := {| ae_type := type; ae_code := code;
               ae_address_index := intern_index address (addresses b);
               ae_is_ipv6 := ipv6 |}).
  assert (Hev : address_event_counts
                  (count_address_event type code address ipv6 b)
                = increment_count k (address_event_counts b))
    by reflexivity.
  assert (Had : addresses (count_address_event type code address ipv6 b)
                = intern_table address (addresses b)) by reflexivity.
  assert (Hp : addresses b
               `prefix_of` addresses
                             (count_address_event type code address ipv6 b)).
  { rewrite Had. apply (intern_table_prefix true). }
  assert (Hk : find_index address
                 (addresses (count_address_event type code address ipv6 b))
               = Some (ae_address_index k)).
  { rewrite Had. apply find_index_interned. }
  assert (Hall' :
    Forall (fun kn =>
              (exists a,
                 find_index a
                   (addresses (count_address_event type code address ipv6 b))
                 = Some (ae_address_index kn.1))
              /\ 1 <= kn.2) (address_event_counts b)).
  { eapply Forall_impl; [exact Hall |].
    intros kn [[a Ha] Hn]. split; [| exact Hn].
    exists a. eapply find_index_prefix; eassumption. }
  split; [split |].
  - rewrite Hev. apply increment_count_NoDup. exact Hnd.
  - rewrite Hev.
    apply (increment_count_Forall
             (fun k' => exists a,
                find_index a
                  (addresses (count_address_event type code address ipv6 b))
                = Some (ae_address_index k'))); [| exact Hall'].
    exists address. exact Hk.
  - intros e. unfold event_count. rewrite Hev, increment_count_total.
    rewrite (event_total_grows b _ e _ Hall Hp).
    f_equal.
    assert (Hof : event_of (count_address_event type code address ipv6 b) k
                  = Some (type, code, address, ipv6)).
    { unfold event_of. rewrite (find_index_Some _ _ _ Hk). reflexivity. }
    rewrite Hof. reflexivity.
Qed.

Section AddressEventCounts.
Variables tf tt df : QueryResponse -> Z.

(** A call either serialises the block with the counts and the addresses it
    holds and leaves a block without counts, or serialises nothing, keeps
    the counts well formed and counts its own event. *)
Lemma call_counts (w : BlockCborWriter) (c : Call) :
  counts_well_formed (data_ w) ->
  (exists B,
     flushed (call tf tt df w c) = flushed w ++ [B]
     /\ address_event_counts B = address_event_counts (data_ w)
     /\ addresses B = addresses (data_ w)
     /\ address_event_counts (data_ (call tf tt df w c)) = [])
  \/ (flushed (call tf tt df w c) = flushed w
      /\ counts_well_formed (data_ (call tf tt df w c))
      /\ forall e,
           event_count e (data_ (call tf tt df w c))
           = event_count e (data_ w)
             + (if decide (reported_event (config_ w) c = Some e)
                then 1 else 0)).
Proof.
  intros Hwf.
  assert (Hsame : forall w' : BlockCborWriter,
    address_event_counts (data_ w') = address_event_counts (data_ w) ->
    addresses (data_ w) `prefix_of` addresses (data_ w') ->
    counts_well_formed (data_ w')
    /\ forall e, event_count e (data_ w') = event_count e (data_ w) + 0).
  { intros w' Hev Hp. destruct (counts_kept _ _ Hev Hp Hwf) as [Hwf' Hc].
    split; [exact Hwf' |]. intros e. rewrite Hc. lia. }
  destruct c; cbn [call reported_event].
  - unfold checkForRotation.
    destruct (negb (is_open (enc_ w)) || _ || need_rotate);
      [| right; split; [reflexivity | apply Hsame; reflexivity]].
    rewrite writeFileHeader_eq.
    destruct (is_open (enc_ w)) eqn:Hopen.
    + rewrite close_open by exact Hopen. left. eexists.
      split; [flushed_norm; reflexivity |].
      split; [reflexivity |]. split; reflexivity.
    + right. split; [flushed_norm; reflexivity |].
      apply Hsame; reflexivity.
  - unfold startRecord. destruct (is_full (config_ w) (data_ w)).
    + left. eexists.
      split; [unfold writeBlock; flushed_norm; reflexivity |].
      split; [reflexivity |]. split; reflexivity.
    + right. split; [reflexivity |]. apply Hsame; reflexivity.
  - right. split; [reflexivity |]. apply Hsame.
    + apply writeBasic_events.
    + apply (writeBasic_tables tf tt df w qr stats).
  - right. split; [reflexivity |]. apply Hsame; reflexivity.
  - right. unfold writeAE.
    destruct (excl_address_events (exclude_hints (config_ w)));
      cbn [negb].
    + split; [reflexivity |]. apply Hsame; reflexivity.
    + split; [reflexivity |].
      destruct (counts_incremented (data_ w) (event_type ae) (event_code ae)
                  (addr_to_string (event_address ae) (config_ w) true)
                  (is_ipv6 (event_address ae)) Hwf) as [Hwf' Hc].
      split; [exact Hwf' | exact Hc].
  - destruct (is_open (enc_ w)) eqn:Hopen.
    + rewrite close_open by exact Hopen. left. eexists.
      split; [flushed_norm; reflexivity |].
      split; [reflexivity |]. split; reflexivity.
    + rewrite close_closed by exact Hopen. right.
      split; [reflexivity |]. apply Hsame; reflexivity.
Qed.

Lemma reports_cons (config : Configuration) (e : ReportedEvent) (c : Call)
    (cs : list Call) :
  reports config e (c :: cs)
  = (if decide (reported_event config c = Some e) then 1 else 0)
    + reports config e cs.
Proof.
  unfold reports. rewrite filter_cons.
  destruct (decide (reported_event config c = Some e)); cbn [length]; lia.
Qed.

Lemma run_counts (cs : list Call) (w : BlockCborWriter) :
  counts_well_formed (data_ w) ->
  flushed (run tf tt df w cs) = flushed w ->
  counts_well_formed (data_ (run tf tt df w cs))
  /\ forall e,
       event_count e (data_ (run tf tt df w cs))
       = event_count e (data_ w) + reports (config_ w) e cs.
Proof.
  revert w. induction cs as [| c cs IH]; intros w Hwf Hquiet.
  - split; [exact Hwf |]. intros e.
    change (run tf tt df w []) with w.
    change (reports (config_ w) e []) with 0. lia.
  - destruct (run_no_flush_head tf tt df c cs w Hquiet) as [Hc Hcs].
    change (run tf tt df w (c :: cs))
      with (run tf tt df (call tf tt df w c) cs).
    destruct (call_counts w c Hwf) as [(B & HB & _) | (_ & Hwf' & Hcount)].
    + rewrite Hc in HB. symmetry in HB. destruct (not_flushing _ _ HB).
    + destruct (IH _ Hwf' Hcs) as [Hwf'' Hcount'].
      split; [exact Hwf'' |]. intros e.
      rewrite Hcount', Hcount, call_config, reports_cons. lia.
Qed.

(** Address events are counted in the block in progress. Starting from a
    block without address events, when the calls since flushed nothing and
    the next call flushes block [B], then [B] counts every event exactly as
    often as [writeAE] reported it since (type, code, address masked by the
    client prefix, family), and not at all when [address_events] is
    excluded; equal events share one entry, so no two entries of [B] stand
    for the same event, every entry names an address of the address table
    and has a count of at least 1; and the block in progress after the
    flush counts none. *)
Theorem flushed_block_address_events (w : BlockCborWriter) (cs : list Call)
    (f : Call) (B : BlockData) :
  address_event_counts (data_ w) = [] ->
  flushed (run tf tt df w cs) = flushed w ->
  flushed (call tf tt df (run tf tt df w cs) f) = flushed w ++ [B] ->
  (forall e, event_count e B = reports (config_ w) e cs)
  /\ NoDup (event_of B <$> (fst <$> address_event_counts B))
  /\ Forall (fun kn => is_Some (event_of B kn.1) /\ 1 <= kn.2)
       (address_event_counts B)
  /\ address_event_counts (data_ (call tf tt df (run tf tt df w cs) f)) = [].
Proof.
  intros Hnone Hquiet Hf.
  assert (Hwf : counts_well_formed (data_ w)).
  { unfold counts_well_formed. rewrite Hnone. split; constructor. }
  destruct (run_counts cs w Hwf Hquiet) as [[Hnd Hall] Hcount].
  destruct (call_counts (run tf tt df w cs) f (conj Hnd Hall))
    as [(B' & HB' & Hev & Had & Hclear) | [Hsame _]].
  2: { rewrite Hquiet, Hf in Hsame. destruct (not_flushing _ _ Hsame). }
  rewrite Hquiet, Hf in HB'. apply app_inv_head in HB'.
  injection HB' as <-.
  assert (Hof : forall k, event_of B k
                          = event_of (data_ (run tf tt df w cs)) k).
  { intros k. unfold event_of. rewrite Had. reflexivity. }
  split; [| split; [| split; [| exact Hclear]]].
  - intros e.
    assert (H0 : event_count e (data_ w) = 0)
      by (unfold event_count; rewrite Hnone; reflexivity).
    transitivity (event_count e (data_ (run tf tt df w cs)));
      [| rewrite Hcount, H0; apply Z.add_0_l].
    unfold event_count. rewrite Hev.
    apply foldr_ext; [| reflexivity..].
    intros kn acc. rewrite Hof. reflexivity.
  - rewrite Hev. apply NoDup_fmap_2_strong; [| exact Hnd].
    intros k1 k2 H1 H2. rewrite !Hof.
    apply list_elem_of_fmap in H1 as ([k1' n1] & -> & H1).
    apply list_elem_of_fmap in H2 as ([k2' n2] & -> & H2).
    rewrite Forall_forall in Hall.
    destruct (Hall _ H1) as [[a1 Ha1] _].
    destruct (Hall _ H2) as [[a2 Ha2] _].
    cbn [fst] in *. unfold event_of.
    rewrite (find_index_Some _ _ _ Ha1), (find_index_Some _ _ _ Ha2).
    cbn. intros [= Ht Hc Ha Hv]. subst a2.
    rewrite Ha1 in Ha2. injection Ha2 as Hi.
    destruct k1', k2'. cbn in *. congruence.
  - rewrite Hev. eapply Forall_impl; [exact Hall |].
    intros kn [[a Ha] Hn]. split; [| exact Hn].
    rewrite Hof. unfold event_of.
    rewrite (find_index_Some _ _ _ Ha). eexists. reflexivity.
Qed.

End AddressEventCounts.

(** ** The extended groups *)


Lemma eg_tables_grow_refl (g : ExtendedWriter) : eg_tables_grow g g.
Proof. unfold eg_tables_grow. repeat apply conj; reflexivity. Qed.

Lemma eg_tables_grow_trans (g1 g2 g3 : ExtendedWriter) :
  eg_tables_grow g1 g2 -> eg_tables_grow g2 g3 -> eg_tables_grow g1 g3.
Proof.
  intros (A1 & A2 & A3 & A4 & A5 & A6 & A7) (B1 & B2 & B3 & B4 & B5 & B6 & B7).
  unfold eg_tables_grow. repeat apply conj; [congruence | etrans; eassumption..].
Qed.

Lemma resolve_grow {T : Type} (tbl tbl' : list T) (oi : option nat)
    (x : option T) :
  tbl `prefix_of` tbl' -> resolve tbl oi = Some x -> resolve tbl' oi = Some x.
Proof.
  intros Hp. destruct oi as [i |]; simpl; [| trivial].
  destruct (tbl !! i) as [v |] eqn:Hi; simpl; [| discriminate].
  rewrite (prefix_lookup_Some _ _ _ _ Hi Hp). trivial.
Qed.

Lemma read_question_grow (g g' : ExtendedWriter) (i : nat)
    (x : option byte_string * option ClassType) :
  eg_tables_grow g g' -> read_question g i = Some x ->
  read_question g' i = Some x.
Proof.
  intros (_ & Hn & Hc & Hq & _). unfold read_question.
  destruct (eg_questions g !! i) as [q |] eqn:Hi; simpl; [| discriminate].
  rewrite (prefix_lookup_Some _ _ _ _ Hi Hq). simpl.
  destruct (resolve (names_rdatas (eg_data g)) (question_qname q)) as [n |]
    eqn:Hrn; simpl; [| discriminate].
  rewrite (resolve_grow _ _ _ _ Hn Hrn). simpl.
  destruct (resolve (class_types (eg_data g)) (question_classtype q))
    as [ct |] eqn:Hrc; simpl; [| discriminate].
  rewrite (resolve_grow _ _ _ _ Hc Hrc). trivial.
Qed.

Lemma read_resource_grow (g g' : ExtendedWriter) (i : nat)
    (x : option byte_string * option ClassType * option Z *
         option byte_string) :
  eg_tables_grow g g' -> read_resource g i = Some x ->
  read_resource g' i = Some x.
Proof.
  intros (_ & Hn & Hc & _ & Hr & _). unfold read_resource.
  destruct (eg_resource_records g !! i) as [rr |] eqn:Hi; simpl;
    [| discriminate].
  rewrite (prefix_lookup_Some _ _ _ _ Hi Hr). simpl.
  destruct (resolve (names_rdatas (eg_data g)) (rr_name rr)) as [n |]
    eqn:Hrn; simpl; [| discriminate].
  rewrite (resolve_grow _ _ _ _ Hn Hrn). simpl.
  destruct (resolve (class_types (eg_data g)) (rr_classtype rr))
    as [ct |] eqn:Hrc; simpl; [| discriminate].
  rewrite (resolve_grow _ _ _ _ Hc Hrc). simpl.
  destruct (resolve (names_rdatas (eg_data g)) (rr_rdata rr)) as [d |]
    eqn:Hrd; simpl; [| discriminate].
  rewrite (resolve_grow _ _ _ _ Hn Hrd). trivial.
Qed.

Lemma intern_grows {T : Type} `{EqDecision T} (v : T) (tbl : list T) :
  tbl `prefix_of` intern_table v tbl.
Proof. apply (intern_table_prefix true). Qed.

Lemma resolve_interned {T : Type} `{EqDecision T} (c : bool) (v : T)
    (tbl tbl' : list T) :
  (if c then intern_table v tbl else tbl) `prefix_of` tbl' ->
  resolve tbl' (if c then Some (intern_index v tbl) else None)
  = Some (if c then Some v else None).
Proof.
  intros Hp. destruct c; simpl; [| reflexivity].
  rewrite (prefix_lookup_Some _ _ _ _ (intern_lookup v tbl) Hp). reflexivity.
Qed.

Lemma writeQuestionRecord_effect (g : ExtendedWriter) (q : DNSQuery) :
  eg_tables_grow g (writeQuestionRecord g q)
  /\ (exists i,
       extra_questions_ (writeQuestionRecord g q) = extra_questions_ g ++ [i]
       /\ read_question (writeQuestionRecord g q) i
          = Some (kept_question (exclude_hints (eg_config g)) q))
  /\ extra_answers_ (writeQuestionRecord g q) = extra_answers_ g
  /\ extra_authority_ (writeQuestionRecord g q) = extra_authority_ g
  /\ extra_additional_ (writeQuestionRecord g q) = extra_additional_ g
  /\ eg_query_extra_info (writeQuestionRecord g q) = eg_query_extra_info g
  /\ eg_response_extra_info (writeQuestionRecord g q)
     = eg_response_extra_info g
  /\ ext_group_ (writeQuestionRecord g q) = ext_group_ g
  /\ ext_rr_ (writeQuestionRecord g q) = ext_rr_ g.
Proof.
  destruct g as [cfg data qs rrs qls rls qi ri eg er sq sa su sd].
  unfold writeQuestionRecord. cbn.
  split; [| split; [| repeat apply conj; reflexivity]].
  - unfold eg_tables_grow. cbn.
    repeat apply conj; try reflexivity;
      try apply intern_table_prefix; apply intern_grows.
  - eexists. split; [reflexivity |].
    unfold read_question. cbn. rewrite intern_lookup. cbn.
    rewrite resolve_interned by reflexivity. cbn.
    rewrite resolve_interned by reflexivity. cbn.
    unfold kept_question.
    destruct (excl_query_name (exclude_hints cfg)),
      (excl_query_class_type (exclude_hints cfg)); reflexivity.
Qed.


Ltac solve_interned :=
  first [ apply intern_lookup | apply intern_table_keeps; solve_interned ].

Ltac solve_grows :=
  first [ reflexivity | apply intern_grows
        | etrans; [| apply intern_grows]; solve_grows ].

Lemma writeResourceRecord_effect (g : ExtendedWriter) (r : DNSResource)
    (s : RRSection) :
  ext_rr_ g = Some s ->
  exists g' i,
    writeResourceRecord g r = Some g'
    /\ eg_tables_grow g g'
    /\ rr_scratch s g' = rr_scratch s g ++ [i]
    /\ read_resource g' i
       = Some (kept_resource (exclude_hints (eg_config g)) r)
    /\ (forall s', s' <> s -> rr_scratch s' g' = rr_scratch s' g)
    /\ extra_questions_ g' = extra_questions_ g
    /\ eg_query_extra_info g' = eg_query_extra_info g
    /\ eg_response_extra_info g' = eg_response_extra_info g
    /\ ext_group_ g' = ext_group_ g
    /\ ext_rr_ g' = Some s.
Proof.
  destruct g as [cfg data qs rrs qls rls qi ri eg er sq sa su sd].
  cbn. intros ->. unfold writeResourceRecord. cbn.
  assert (Hread : forall g' : ExtendedWriter,
    eg_data g' = add_name_rdata_if (negb (excl_rr_rdata (exclude_hints cfg)))
        (res_data r)
        (add_classtype_if (negb (excl_query_class_type (exclude_hints cfg)))
           {| qtype := res_query_type r; qclass := res_query_class r |}
           (add_name_rdata_if (negb (excl_query_name (exclude_hints cfg)))
              (res_dname r) data)) ->
    forall rr, 
    eg_resource_records g' = intern_table rr rrs ->
    rr = {|
         rr_name :=
           if negb (excl_query_name (exclude_hints cfg))
           then Some (intern_index (res_dname r) (names_rdatas data))
           else None;
         rr_classtype :=
           if negb (excl_query_class_type (exclude_hints cfg))
           then Some (intern_index
                  {| qtype := res_query_type r;
                     qclass := res_query_class r |} (class_types data))
           else None;
         rr_ttl :=
           if negb (excl_rr_ttl (exclude_hints cfg))
           then Some (res_ttl r) else None;
         rr_rdata :=
           if negb (excl_rr_rdata (exclude_hints cfg))
           then Some (intern_index (res_data r)
                  (if negb (excl_query_name (exclude_hints cfg))
                   then intern_table (res_dname r) (names_rdatas data)
                   else names_rdatas data))
           else None
       |} ->
    read_resource g' (intern_index rr rrs)
    = Some (kept_resource (exclude_hints cfg) r)).
  { intros g' Hd rr Hr ->. unfold read_resource. rewrite Hr, intern_lookup.
    rewrite Hd. cbn.
    do 3 (rewrite resolve_interned
            by first [reflexivity | apply intern_table_prefix]; cbn).
    unfold kept_resource.
    destruct (excl_query_name (exclude_hints cfg)),
      (excl_query_class_type (exclude_hints cfg)),
      (excl_rr_ttl (exclude_hints cfg)),
      (excl_rr_rdata (exclude_hints cfg)); reflexivity. }
  assert (Hgrow : forall g' : ExtendedWriter,
    eg_config g' = cfg ->
    eg_data g' = add_name_rdata_if (negb (excl_rr_rdata (exclude_hints cfg)))
        (res_data r)
        (add_classtype_if (negb (excl_query_class_type (exclude_hints cfg)))
           {| qtype := res_query_type r; qclass := res_query_class r |}
           (add_name_rdata_if (negb (excl_query_name (exclude_hints cfg)))
              (res_dname r) data)) ->
    eg_questions g' = qs ->
    (exists rr, eg_resource_records g' = intern_table rr rrs) ->
    eg_questions_lists g' = qls -> eg_rrs_lists g' = rls ->
    eg_tables_grow
      {| eg_config := cfg; eg_data := data; eg_questions := qs;
         eg_resource_records := rrs; eg_questions_lists := qls;
         eg_rrs_lists := rls; eg_query_extra_info := qi;
         eg_response_extra_info := ri; ext_group_ := eg; ext_rr_ := Some s;
         extra_questions_ := sq; extra_answers_ := sa;
         extra_authority_ := su; extra_additional_ := sd |} g').
  { intros g' Hc Hd Hq [rr Hr] Hql Hrl. unfold eg_tables_grow. cbn.
    rewrite Hc, Hd, Hq, Hr, Hql, Hrl. cbn.
    repeat apply conj; try reflexivity; try apply intern_grows.
    - etrans; [| apply intern_table_prefix]. apply intern_table_prefix.
    - apply intern_table_prefix. }
  destruct s; cbn; eexists; eexists;
    (split; [reflexivity |]);
    (split; [apply Hgrow; cbn; eauto |]);
    (split; [reflexivity |]);
    (split; [apply Hread; reflexivity |]);
    (split; [intros [] Hne; try reflexivity; contradiction |]);
    repeat apply conj; reflexivity.
Qed.

Lemma write_questions_effect (qs : list DNSQuery) (g : ExtendedWriter) :
  eg_tables_grow g (write_questions g qs)
  /\ (exists idxs,
       extra_questions_ (write_questions g qs) = extra_questions_ g ++ idxs
       /\ Forall2 (fun q i => read_question (write_questions g qs) i
                     = Some (kept_question (exclude_hints (eg_config g)) q))
            qs idxs)
  /\ extra_answers_ (write_questions g qs) = extra_answers_ g
  /\ extra_authority_ (write_questions g qs) = extra_authority_ g
  /\ extra_additional_ (write_questions g qs) = extra_additional_ g
  /\ eg_query_extra_info (write_questions g qs) = eg_query_extra_info g
  /\ eg_response_extra_info (write_questions g qs)
     = eg_response_extra_info g
  /\ ext_group_ (write_questions g qs) = ext_group_ g
  /\ ext_rr_ (write_questions g qs) = ext_rr_ g.
Proof.
  revert g. induction qs as [| q qs IH]; intros g.
  - change (write_questions g []) with g.
    split; [apply eg_tables_grow_refl |].
    split; [exists []; rewrite app_nil_r; split; [reflexivity | constructor] |].
    repeat apply conj; reflexivity.
  - change (write_questions g (q :: qs))
      with (write_questions (writeQuestionRecord g q) qs).
    destruct (writeQuestionRecord_effect g q)
      as (Hg & (i & Hi & Hr) & E1 & E2 & E3 & E4 & E5 & E6 & E7).
    destruct (IH (writeQuestionRecord g q))
      as (Hg' & (idxs & Hidxs & Hall) & F1 & F2 & F3 & F4 & F5 & F6 & F7).
    split; [eapply eg_tables_grow_trans; eassumption |].
    split.
    + exists (i :: idxs). split.
      * rewrite Hidxs, Hi, <- app_assoc. reflexivity.
      * constructor.
        -- eapply read_question_grow; eassumption.
        -- destruct Hg as [Hc _]. rewrite Hc in Hall. exact Hall.
    + repeat apply conj; congruence.
Qed.

Lemma write_resources_cons (g : ExtendedWriter) (r : DNSResource)
    (rs : list DNSResource) :
  write_resources g (r :: rs)
  = writeResourceRecord g r ≫= fun g' => write_resources g' rs.
Proof.
  unfold write_resources. cbn [foldl mbind option_bind].
  destruct (writeResourceRecord g r) as [g' |]; [reflexivity |].
  cbn. induction rs as [| r' rs IH]; [reflexivity | exact IH].
Qed.

Lemma write_resources_effect (rs : list DNSResource) (g : ExtendedWriter)
    (s : RRSection) :
  ext_rr_ g = Some s ->
  exists g' idxs,
    write_resources g rs = Some g'
    /\ eg_tables_grow g g'
    /\ rr_scratch s g' = rr_scratch s g ++ idxs
    /\ Forall2 (fun r i => read_resource g' i
                  = Some (kept_resource (exclude_hints (eg_config g)) r))
         rs idxs
    /\ (forall s', s' <> s -> rr_scratch s' g' = rr_scratch s' g)
    /\ extra_questions_ g' = extra_questions_ g
    /\ eg_query_extra_info g' = eg_query_extra_info g
    /\ eg_response_extra_info g' = eg_response_extra_info g
    /\ ext_group_ g' = ext_group_ g
    /\ ext_rr_ g' = Some s.
Proof.
  revert g. induction rs as [| r rs IH]; intros g Hs.
  - exists g, []. split; [reflexivity |].
    split; [apply eg_tables_grow_refl |].
    rewrite app_nil_r. split; [reflexivity |]. split; [constructor |].
    repeat apply conj; try reflexivity; exact Hs.
  - destruct (writeResourceRecord_effect g r s Hs)
      as (g1 & i & Hw & Hg & Hi & Hr & E0 & E1 & E2 & E3 & E4 & E5).
    destruct (IH g1 E5)
      as (g' & idxs & Hw' & Hg' & Hidxs & Hall & F0 & F1 & F2 & F3 & F4 & F5).
    exists g', (i :: idxs).
    split; [rewrite write_resources_cons, Hw; exact Hw' |].
    split; [eapply eg_tables_grow_trans; eassumption |].
    split; [rewrite Hidxs, Hi, <- app_assoc; reflexivity |].
    split.
    + constructor.
      * eapply read_resource_grow; eassumption.
      * destruct Hg as [Hc _]. rewrite Hc in Hall. exact Hall.
    + split; [intros s' Hne; rewrite (F0 s' Hne); apply E0; exact Hne |].
      repeat apply conj; congruence.
Qed.

Lemma endExtendedGroup_steps (g : ExtendedWriter) :
  endExtendedGroup g
  = (g ← store_list QuestionsList g;
     g ← store_list AnswersList g;
     g ← store_list AuthorityList g;
     g ← store_list AdditionalList g;
     Some (clear_in_progress_extra_info g)).
Proof.
  unfold endExtendedGroup.
  destruct (store_list QuestionsList g) as [g1 |] eqn:H1;
    unfold store_list in H1; cbn [list_scratch] in H1; rewrite H1;
    cbn [mbind option_bind]; [| reflexivity].
  destruct (store_list AnswersList g1) as [g2 |] eqn:H2;
    unfold store_list in H2; cbn [list_scratch] in H2; rewrite H2;
    cbn [mbind option_bind]; [| reflexivity].
  destruct (store_list AuthorityList g2) as [g3 |] eqn:H3;
    unfold store_list in H3; cbn [list_scratch] in H3; rewrite H3;
    cbn [mbind option_bind]; [| reflexivity].
  reflexivity.
Qed.

Lemma stored_grow (l : list nat) (old new : option nat)
    (tbl tbl' : list (list nat)) :
  tbl `prefix_of` tbl' -> stored l old new tbl -> stored l old new tbl'.
Proof.
  intros Hp. destruct l as [| x l]; [trivial |].
  intros (i & Hn & Hi). exists i. split; [exact Hn |].
  exact (prefix_lookup_Some _ _ _ _ Hi Hp).
Qed.

Lemma store_list_effect (fld : GroupList) (g : ExtendedWriter)
    (side : ExtraInfoSide) (info : QueryResponseExtraInfo) :
  ext_group_ g = Some side -> extra_info side g = Some info ->
  exists g' info',
    store_list fld g = Some g'
    /\ eg_tables_grow g g'
    /\ ext_group_ g' = Some side
    /\ extra_info side g' = Some info'
    /\ (forall side', side' <> side ->
        extra_info side' g' = extra_info side' g)
    /\ stored (list_scratch fld g) (list_member fld info)
         (list_member fld info') (list_table fld g')
    /\ (forall fld', fld' <> fld ->
        list_member fld' info' = list_member fld' info)
    /\ (forall fld', list_scratch fld' g' = list_scratch fld' g).
Proof.
  destruct g as [cfg data qs rrs qls rls qi ri eg er sq sa su sd].
  cbn [ext_group_]. intros -> Hinfo.
  assert (Hgrow : forall g' : ExtendedWriter,
    eg_config g' = cfg -> eg_data g' = data -> eg_questions g' = qs ->
    eg_resource_records g' = rrs ->
    qls `prefix_of` eg_questions_lists g' ->
    rls `prefix_of` eg_rrs_lists g' ->
    eg_tables_grow
      {| eg_config := cfg; eg_data := data; eg_questions := qs;
         eg_resource_records := rrs; eg_questions_lists := qls;
         eg_rrs_lists := rls; eg_query_extra_info := qi;
         eg_response_extra_info := ri; ext_group_ := Some side;
         ext_rr_ := er; extra_questions_ := sq; extra_answers_ := sa;
         extra_authority_ := su; extra_additional_ := sd |} g').
  { intros g' Hc Hd Hq Hr Hql Hrl. unfold eg_tables_grow.
    cbn [eg_config eg_data eg_questions eg_resource_records
         eg_questions_lists eg_rrs_lists].
    rewrite Hc, Hd, Hq, Hr. repeat apply conj; trivial. }
  unfold store_list.
  destruct (list_scratch fld _) as [| x l] eqn:Hl;
    cbn [length Nat.ltb Nat.leb].
  - exists {| eg_config := cfg; eg_data := data; eg_questions := qs;
         eg_resource_records := rrs; eg_questions_lists := qls;
         eg_rrs_lists := rls; eg_query_extra_info := qi;
         eg_response_extra_info := ri; ext_group_ := Some side;
         ext_rr_ := er; extra_questions_ := sq; extra_answers_ := sa;
         extra_authority_ := su; extra_additional_ := sd |}, info.
    split; [reflexivity |]. split; [apply eg_tables_grow_refl |].
    split; [reflexivity |]. split; [exact Hinfo |].
    split; [reflexivity |]. split; [reflexivity |].
    split; reflexivity.
  - destruct fld, side; cbn in Hinfo, Hl; subst;
      cbn [add_questions_list add_rrs_list assign_ext_group fst snd
           ext_group_ set_eg_questions_lists set_eg_rrs_lists
           eg_query_extra_info eg_response_extra_info];
      eexists; eexists;
      (split; [reflexivity |]);
      (split; [apply Hgrow; try reflexivity; apply intern_grows |]);
      (split; [reflexivity |]); (split; [reflexivity |]);
      (split; [intros [] Hne; try reflexivity; contradiction |]);
      (split; [eexists; split; [reflexivity | apply intern_lookup] |]);
      (split; [intros [] Hne; try reflexivity; contradiction |
               intros []; reflexivity]).
Qed.

Lemma endExtendedGroup_effect (g : ExtendedWriter) (side : ExtraInfoSide)
    (info : QueryResponseExtraInfo) :
  ext_group_ g = Some side -> extra_info side g = Some info ->
  exists g' info',
    endExtendedGroup g = Some g'
    /\ eg_tables_grow g g'
    /\ extra_info side g' = Some info'
    /\ (forall side', side' <> side ->
        extra_info side' g' = extra_info side' g)
    /\ stored (extra_questions_ g) (questions_list info)
         (questions_list info') (eg_questions_lists g')
    /\ stored (extra_answers_ g) (answers_list info)
         (answers_list info') (eg_rrs_lists g')
    /\ stored (extra_authority_ g) (authority_list info)
         (authority_list info') (eg_rrs_lists g')
    /\ stored (extra_additional_ g) (additional_list info)
         (additional_list info') (eg_rrs_lists g')
    /\ extra_questions_ g' = [] /\ extra_answers_ g' = []
    /\ extra_authority_ g' = [] /\ extra_additional_ g' = [].
Proof.
  intros Hg Hi. rewrite endExtendedGroup_steps.
  destruct (store_list_effect QuestionsList g side info Hg Hi)
    as (g1 & i1 & W1 & G1 & P1 & I1 & O1 & T1 & M1 & S1).
  destruct (store_list_effect AnswersList g1 side i1 P1 I1)
    as (g2 & i2 & W2 & G2 & P2 & I2 & O2 & T2 & M2 & S2).
  destruct (store_list_effect AuthorityList g2 side i2 P2 I2)
    as (g3 & i3 & W3 & G3 & P3 & I3 & O3 & T3 & M3 & S3).
  destruct (store_list_effect AdditionalList g3 side i3 P3 I3)
    as (g4 & i4 & W4 & G4 & P4 & I4 & O4 & T4 & M4 & S4).
  rewrite W1. cbn [mbind option_bind]. rewrite W2. cbn [mbind option_bind].
  rewrite W3. cbn [mbind option_bind]. rewrite W4. cbn [mbind option_bind].
  assert (G : eg_tables_grow g g4).
  { eapply eg_tables_grow_trans; [exact G1 |].
    eapply eg_tables_grow_trans; [exact G2 |].
    eapply eg_tables_grow_trans; [exact G3 | exact G4]. }
  assert (R34 : eg_rrs_lists g3 `prefix_of` eg_rrs_lists g4) by apply G4.
  assert (R23 : eg_rrs_lists g2 `prefix_of` eg_rrs_lists g3) by apply G3.
  assert (Q12 : eg_questions_lists g1 `prefix_of` eg_questions_lists g2)
    by apply G2.
  assert (Q23 : eg_questions_lists g2 `prefix_of` eg_questions_lists g3)
    by apply G3.
  assert (Q34 : eg_questions_lists g3 `prefix_of` eg_questions_lists g4)
    by apply G4.
  exists (clear_in_progress_extra_info g4), i4.
  split; [reflexivity |].
  split.
  { destruct G as (A1 & A2 & A3 & A4 & A5 & A6 & A7).
    destruct g4. unfold eg_tables_grow. cbn in *.
    repeat apply conj; assumption. }
  split; [destruct g4, side; exact I4 |].
  split.
  { intros side' Hne.
    transitivity (extra_info side' g4); [destruct g4, side'; reflexivity |].
    rewrite (O4 side' Hne), (O3 side' Hne), (O2 side' Hne).
    apply O1. exact Hne. }
  split.
  { change (eg_questions_lists (clear_in_progress_extra_info g4))
      with (eg_questions_lists g4).
    change (questions_list i4) with (list_member QuestionsList i4).
    rewrite (M4 QuestionsList) by discriminate.
    rewrite (M3 QuestionsList) by discriminate.
    rewrite (M2 QuestionsList) by discriminate.
    eapply stored_grow; [| exact T1].
    etrans; [exact Q12 |]. etrans; [exact Q23 | exact Q34]. }
  split.
  { change (eg_rrs_lists (clear_in_progress_extra_info g4))
      with (eg_rrs_lists g4).
    change (answers_list i4) with (list_member AnswersList i4).
    rewrite (M4 AnswersList) by discriminate.
    rewrite (M3 AnswersList) by discriminate.
    change (answers_list info) with (list_member AnswersList info).
    rewrite <- (M1 AnswersList) by discriminate.
    change (extra_answers_ g) with (list_scratch AnswersList g).
    rewrite <- (S1 AnswersList).
    eapply stored_grow; [| exact T2]. etrans; [exact R23 | exact R34]. }
  split.
  { change (eg_rrs_lists (clear_in_progress_extra_info g4))
      with (eg_rrs_lists g4).
    change (authority_list i4) with (list_member AuthorityList i4).
    rewrite (M4 AuthorityList) by discriminate.
    change (authority_list info) with (list_member AuthorityList info).
    rewrite <- (M1 AuthorityList) by discriminate.
    rewrite <- (M2 AuthorityList) by discriminate.
    change (extra_authority_ g) with (list_scratch AuthorityList g).
    rewrite <- (S1 AuthorityList), <- (S2 AuthorityList).
    eapply stored_grow; [exact R34 | exact T3]. }
  split.
  { change (eg_rrs_lists (clear_in_progress_extra_info g4))
      with (eg_rrs_lists g4).
    change (additional_list info) with (list_member AdditionalList info).
    rewrite <- (M1 AdditionalList) by discriminate.
    rewrite <- (M2 AdditionalList) by discriminate.
    rewrite <- (M3 AdditionalList) by discriminate.
    change (extra_additional_ g) with (list_scratch AdditionalList g).
    rewrite <- (S1 AdditionalList), <- (S2 AdditionalList),
      <- (S3 AdditionalList).
    exact T4. }
  repeat apply conj; reflexivity.
Qed.

Lemma startExtendedGroup_effect (side : ExtraInfoSide) (g : ExtendedWriter) :
  eg_tables_grow g (startExtendedGroup side g)
  /\ ext_group_ (startExtendedGroup side g) = Some side
  /\ extra_info side (startExtendedGroup side g)
     = Some (default empty_extra_info (extra_info side g))
  /\ (forall side', side' <> side ->
      extra_info side' (startExtendedGroup side g) = extra_info side' g)
  /\ extra_questions_ (startExtendedGroup side g) = extra_questions_ g
  /\ (forall s, rr_scratch s (startExtendedGroup side g) = rr_scratch s g).
Proof.
  destruct g as [cfg data qs rrs qls rls qi ri eg er sq sa su sd].
  destruct side; [destruct qi | destruct ri]; cbn;
    (split; [apply eg_tables_grow_refl
            || (unfold eg_tables_grow; cbn; repeat apply conj; reflexivity) |]);
    (split; [reflexivity |]); (split; [reflexivity |]);
    (split; [intros [] Hne; try reflexivity; contradiction |]);
    (split; [reflexivity | intros []; reflexivity]).
Qed.

Lemma set_ext_rr_effect (s : RRSection) (g : ExtendedWriter) :
  eg_tables_grow g (set_ext_rr_ (Some s) g)
  /\ ext_rr_ (set_ext_rr_ (Some s) g) = Some s
  /\ ext_group_ (set_ext_rr_ (Some s) g) = ext_group_ g
  /\ eg_query_extra_info (set_ext_rr_ (Some s) g) = eg_query_extra_info g
  /\ eg_response_extra_info (set_ext_rr_ (Some s) g)
     = eg_response_extra_info g
  /\ extra_questions_ (set_ext_rr_ (Some s) g) = extra_questions_ g
  /\ (forall s', rr_scratch s' (set_ext_rr_ (Some s) g) = rr_scratch s' g).
Proof.
  destruct g as [cfg data qs rrs qls rls qi ri eg er sq sa su sd]. cbn.
  split; [unfold eg_tables_grow; cbn; repeat apply conj; reflexivity |].
  repeat apply conj; try reflexivity. 
Qed.

Lemma extra_info_eq (side : ExtraInfoSide) (g g' : ExtendedWriter) :
  eg_query_extra_info g' = eg_query_extra_info g ->
  eg_response_extra_info g' = eg_response_extra_info g ->
  extra_info side g' = extra_info side g.
Proof. destruct side; simpl; trivial. Qed.

Lemma Forall2_read_question_grow (g g' : ExtendedWriter)
    (ex : HintsExcluded) (qs : list DNSQuery) (idxs : list nat) :
  eg_tables_grow g g' ->
  Forall2 (fun q i => read_question g i = Some (kept_question ex q)) qs idxs ->
  Forall2 (fun q i => read_question g' i = Some (kept_question ex q)) qs idxs.
Proof.
  intros Hg Hall. eapply Forall2_impl; [exact Hall |]. intros q i.
  apply read_question_grow. exact Hg.
Qed.

Lemma Forall2_read_resource_grow (g g' : ExtendedWriter)
    (ex : HintsExcluded) (rs : list DNSResource) (idxs : list nat) :
  eg_tables_grow g g' ->
  Forall2 (fun r i => read_resource g i = Some (kept_resource ex r)) rs idxs ->
  Forall2 (fun r i => read_resource g' i = Some (kept_resource ex r)) rs idxs.
Proof.
  intros Hg Hall. eapply Forall2_impl; [exact Hall |]. intros r i.
  apply read_resource_grow. exact Hg.
Qed.

Lemma write_group_effect (side : ExtraInfoSide) (g : ExtendedWriter)
    (m : MessageSections) :
  exists g' info' qi ai ui di,
    write_group side g m = Some g'
    /\ eg_tables_grow g g'
    /\ extra_info side g' = Some info'
    /\ (forall side', side' <> side ->
        extra_info side' g' = extra_info side' g)
    /\ Forall2 (fun q i => read_question g' i
                  = Some (kept_question (exclude_hints (eg_config g)) q))
         (sec_questions m) qi
    /\ Forall2 (fun r i => read_resource g' i
                  = Some (kept_resource (exclude_hints (eg_config g)) r))
         (sec_answers m) ai
    /\ Forall2 (fun r i => read_resource g' i
                  = Some (kept_resource (exclude_hints (eg_config g)) r))
         (sec_authority m) ui
    /\ Forall2 (fun r i => read_resource g' i
                  = Some (kept_resource (exclude_hints (eg_config g)) r))
         (sec_additional m) di
    /\ stored (extra_questions_ g ++ qi)
         (questions_list (default empty_extra_info (extra_info side g)))
         (questions_list info') (eg_questions_lists g')
    /\ stored (extra_answers_ g ++ ai)
         (answers_list (default empty_extra_info (extra_info side g)))
         (answers_list info') (eg_rrs_lists g')
    /\ stored (extra_authority_ g ++ ui)
         (authority_list (default empty_extra_info (extra_info side g)))
         (authority_list info') (eg_rrs_lists g')
    /\ stored (extra_additional_ g ++ di)
         (additional_list (default empty_extra_info (extra_info side g)))
         (additional_list info') (eg_rrs_lists g')
    /\ extra_questions_ g' = [] /\ extra_answers_ g' = []
    /\ extra_authority_ g' = [] /\ extra_additional_ g' = [].
Proof.
  unfold write_group.
  destruct (startExtendedGroup_effect side g)
    as (G0 & P0 & I0 & O0 & Q0 & S0).
  set (g0 := startExtendedGroup side g) in *.
  destruct (write_questions_effect (sec_questions m) g0)
    as (G1 & (qi & Hqi & Aq) & A1 & U1 & D1 & IQ1 & IR1 & P1 & R1).
  set (g1 := write_questions g0 (sec_questions m)) in *.
  destruct (set_ext_rr_effect ExtraAnswers g1)
    as (G2 & R2 & P2 & IQ2 & IR2 & Q2 & S2).
  destruct (write_resources_effect (sec_answers m) _ _ R2)
    as (g3 & ai & W3 & G3 & Hai & Aa & S3 & Q3 & IQ3 & IR3 & P3 & R3).
  destruct (set_ext_rr_effect ExtraAuthority g3)
    as (G4 & R4 & P4 & IQ4 & IR4 & Q4 & S4).
  destruct (write_resources_effect (sec_authority m) _ _ R4)
    as (g5 & ui & W5 & G5 & Hui & Au & S5 & Q5 & IQ5 & IR5 & P5 & R5).
  destruct (set_ext_rr_effect ExtraAdditional g5)
    as (G6 & R6 & P6 & IQ6 & IR6 & Q6 & S6).
  destruct (write_resources_effect (sec_additional m) _ _ R6)
    as (g7 & di & W7 & G7 & Hdi & Ad & S7 & Q7 & IQ7 & IR7 & P7 & R7).
  assert (E7 : forall sd, extra_info sd g7 = extra_info sd g0).
  { intros sd.
    rewrite (extra_info_eq sd _ _ IQ7 IR7), (extra_info_eq sd _ _ IQ6 IR6),
      (extra_info_eq sd _ _ IQ5 IR5), (extra_info_eq sd _ _ IQ4 IR4),
      (extra_info_eq sd _ _ IQ3 IR3), (extra_info_eq sd _ _ IQ2 IR2).
    apply extra_info_eq; assumption. }
  assert (PG7 : ext_group_ g7 = Some side) by congruence.
  destruct (endExtendedGroup_effect g7 side _ PG7
              (eq_trans (E7 side) I0))
    as (g' & info' & W & G & I & O & TQ & TA & TU & TD & Z1 & Z2 & Z3 & Z4).
  assert (C0 : eg_config g0 = eg_config g) by apply G0.
  assert (C1 : eg_config g1 = eg_config g) by (destruct G1; congruence).
  assert (C3 : eg_config g3 = eg_config g)
    by (destruct G2, G3; congruence).
  assert (C5 : eg_config g5 = eg_config g)
    by (destruct G4, G5; congruence).
  assert (G37 : eg_tables_grow g3 g').
  { eapply eg_tables_grow_trans; [exact G4 |].
    eapply eg_tables_grow_trans; [exact G5 |].
    eapply eg_tables_grow_trans; [exact G6 |].
    eapply eg_tables_grow_trans; [exact G7 | exact G]. }
  assert (G57 : eg_tables_grow g5 g').
  { eapply eg_tables_grow_trans; [exact G6 |].
    eapply eg_tables_grow_trans; [exact G7 | exact G]. }
  assert (G17 : eg_tables_grow g1 g').
  { eapply eg_tables_grow_trans; [exact G2 |].
    eapply eg_tables_grow_trans; [exact G3 | exact G37]. }
  exists g', info', qi, ai, ui, di.
  split.
  { cbv zeta.
    unfold startAnswersSection, startAuthoritySection,
      startAdditionalSection.
    fold g0. fold g1. rewrite W3. cbn [mbind option_bind].
    rewrite W5. cbn [mbind option_bind]. rewrite W7. exact W. }
  split.
  { eapply eg_tables_grow_trans; [exact G0 |].
    eapply eg_tables_grow_trans; [exact G1 | exact G17]. }
  split; [exact I |].
  split; [intros sd Hne; rewrite (O sd Hne), E7; apply O0; exact Hne |].
  split.
  { rewrite <- C0. exact (Forall2_read_question_grow _ _ _ _ _ G17 Aq). }
  split.
  { rewrite <- C1. exact (Forall2_read_resource_grow _ _ _ _ _ G37 Aa). }
  split.
  { rewrite <- C3. exact (Forall2_read_resource_grow _ _ _ _ _ G57 Au). }
  split.
  { rewrite <- C5. exact (Forall2_read_resource_grow _ _ _ _ _ G Ad). }
  assert (SQ : extra_questions_ g7 = extra_questions_ g ++ qi).
  { rewrite Q7, Q6, Q5, Q4, Q3, Q2, Hqi, Q0. reflexivity. }
  assert (SA : extra_answers_ g7 = extra_answers_ g ++ ai).
  { change (extra_answers_ g7) with (rr_scratch ExtraAnswers g7).
    rewrite (S7 ExtraAnswers) by discriminate.
    rewrite S6. rewrite (S5 ExtraAnswers) by discriminate.
    rewrite S4, Hai, S2. cbn [rr_scratch]. rewrite A1.
    apply (f_equal (fun l => l ++ ai)). apply (S0 ExtraAnswers). }
  assert (SU : extra_authority_ g7 = extra_authority_ g ++ ui).
  { change (extra_authority_ g7) with (rr_scratch ExtraAuthority g7).
    rewrite (S7 ExtraAuthority) by discriminate.
    rewrite S6, Hui, S4. rewrite (S3 ExtraAuthority) by discriminate.
    rewrite S2. cbn [rr_scratch]. rewrite U1.
    apply (f_equal (fun l => l ++ ui)). apply (S0 ExtraAuthority). }
  assert (SD : extra_additional_ g7 = extra_additional_ g ++ di).
  { change (extra_additional_ g7) with (rr_scratch ExtraAdditional g7).
    rewrite Hdi, S6. rewrite (S5 ExtraAdditional) by discriminate.
    rewrite S4. rewrite (S3 ExtraAdditional) by discriminate.
    rewrite S2. cbn [rr_scratch]. rewrite D1.
    apply (f_equal (fun l => l ++ di)). apply (S0 ExtraAdditional). }
  rewrite <- SQ, <- SA, <- SU, <- SD.
  repeat apply conj; assumption.
Qed.

Lemma stored_read_questions (g' : ExtendedWriter) (ex : HintsExcluded)
    (qs : list DNSQuery) (idxs : list nat) (new : option nat) :
  stored idxs None new (eg_questions_lists g') ->
  Forall2 (fun q i => read_question g' i = Some (kept_question ex q))
    qs idxs ->
  read_questions_list g' new = Some (kept_question ex <$> qs)
  /\ (new = None <-> qs = []).
Proof.
  intros Hst Hall. destruct Hall as [| q i qs idxs Hq Hall].
  - simpl in Hst. subst new. split; [reflexivity | tauto].
  - destruct Hst as (k & -> & Hk). split; [| split; discriminate].
    unfold read_questions_list, read_rrs_list. rewrite Hk.
    cbn [mbind option_bind]. apply mapM_Some.
    apply Forall2_fmap_r, Forall2_flip. constructor; assumption.
Qed.

Lemma stored_read_rrs (g' : ExtendedWriter) (ex : HintsExcluded)
    (rs : list DNSResource) (idxs : list nat) (new : option nat) :
  stored idxs None new (eg_rrs_lists g') ->
  Forall2 (fun r i => read_resource g' i = Some (kept_resource ex r))
    rs idxs ->
  read_rrs_list g' new = Some (kept_resource ex <$> rs)
  /\ (new = None <-> rs = []).
Proof.
  intros Hst Hall. destruct Hall as [| r i rs idxs Hr Hall].
  - simpl in Hst. subst new. split; [reflexivity | tauto].
  - destruct Hst as (k & -> & Hk). split; [| split; discriminate].
    unfold read_questions_list, read_rrs_list. rewrite Hk.
    cbn [mbind option_bind]. apply mapM_Some.
    apply Forall2_fmap_r, Forall2_flip. constructor; assumption.
Qed.

Lemma read_questions_list_grow (g g' : ExtendedWriter) (oi : option nat)
    (x : list (option byte_string * option ClassType)) :
  eg_tables_grow g g' -> read_questions_list g oi = Some x ->
  read_questions_list g' oi = Some x.
Proof.
  intros Hg. destruct oi as [i |]; simpl; [| trivial].
  destruct (eg_questions_lists g !! i) as [l |] eqn:Hi; simpl;
    [| discriminate].
  assert (Hp : eg_questions_lists g `prefix_of` eg_questions_lists g')
    by apply Hg.
  rewrite (prefix_lookup_Some _ _ _ _ Hi Hp). simpl.
  rewrite !mapM_Some. intros Hall. eapply Forall2_impl; [exact Hall |].
  intros k y. apply read_question_grow. exact Hg.
Qed.

Lemma read_rrs_list_grow (g g' : ExtendedWriter) (oi : option nat)
    (x : list (option byte_string * option ClassType * option Z *
               option byte_string)) :
  eg_tables_grow g g' -> read_rrs_list g oi = Some x ->
  read_rrs_list g' oi = Some x.
Proof.
  intros Hg. destruct oi as [i |]; simpl; [| trivial].
  destruct (eg_rrs_lists g !! i) as [l |] eqn:Hi; simpl; [| discriminate].
  assert (Hp : eg_rrs_lists g `prefix_of` eg_rrs_lists g') by apply Hg.
  rewrite (prefix_lookup_Some _ _ _ _ Hi Hp). simpl.
  rewrite !mapM_Some. intros Hall. eapply Forall2_impl; [exact Hall |].
  intros k y. apply read_resource_grow. exact Hg.
Qed.

(** An extended group reads back. From empty scratch lists and no extra
    info yet on that side (as after the constructor), the calls for one
    message, [startExtendedQueryGroup] or [startExtendedResponseGroup], the
    questions, the three sections of resource records and
    [endExtendedGroup], succeed, and the extra info of that side then names
    lists whose entries resolve, through the tables of the block, to the
    questions and records written, in order, less the fields the hints
    exclude (the name of a resource record goes by the [query_name] hint). A
    list is absent exactly when its section is empty, and the scratch lists
    are empty again. *)
Theorem write_group_reads_back (side : ExtraInfoSide) (g : ExtendedWriter)
    (m : MessageSections) :
  extra_questions_ g = [] -> extra_answers_ g = [] ->
  extra_authority_ g = [] -> extra_additional_ g = [] ->
  extra_info side g = None ->
  exists g' info,
    write_group side g m = Some g'
    /\ extra_info side g' = Some info
    /\ read_questions_list g' (questions_list info)
       = Some (kept_question (exclude_hints (eg_config g))
                 <$> sec_questions m)
    /\ read_rrs_list g' (answers_list info)
       = Some (kept_resource (exclude_hints (eg_config g)) <$> sec_answers m)
    /\ read_rrs_list g' (authority_list info)
       = Some (kept_resource (exclude_hints (eg_config g))
                 <$> sec_authority m)
    /\ read_rrs_list g' (additional_list info)
       = Some (kept_resource (exclude_hints (eg_config g))
                 <$> sec_additional m)
    /\ (questions_list info = None <-> sec_questions m = [])
    /\ (answers_list info = None <-> sec_answers m = [])
    /\ (authority_list info = None <-> sec_authority m = [])
    /\ (additional_list info = None <-> sec_additional m = [])
    /\ extra_questions_ g' = [] /\ extra_answers_ g' = []
    /\ extra_authority_ g' = [] /\ extra_additional_ g' = [].
Proof.
  intros Hq Ha Hu Hd Hi.
  destruct (write_group_effect side g m)
    as (g' & info & qi & ai & ui & di & W & G & I & O & Aq & Aa & Au & Ad
        & TQ & TA & TU & TD & Z).
  rewrite Hq, Hi in TQ. rewrite Ha, Hi in TA. rewrite Hu, Hi in TU.
  rewrite Hd, Hi in TD. cbn in TQ, TA, TU, TD.
  destruct (stored_read_questions _ _ _ _ _ TQ Aq) as [RQ NQ].
  destruct (stored_read_rrs _ _ _ _ _ TA Aa) as [RA NA].
  destruct (stored_read_rrs _ _ _ _ _ TU Au) as [RU NU].
  destruct (stored_read_rrs _ _ _ _ _ TD Ad) as [RD ND].
  exists g', info.
  split; [exact W |]. split; [exact I |].
  split; [exact RQ |]. split; [exact RA |]. split; [exact RU |].
  split; [exact RD |]. split; [exact NQ |]. split; [exact NA |].
  split; [exact NU |]. split; [exact ND |]. exact Z.
Qed.

(** The calls of an extended group always succeed and disturb nothing that
    is stored: the extra info of the other side is as it was, every list
    that could be read back before reads back the same, and the names and
    class types of the block keep their indices. *)
Theorem write_group_keeps_stored (side : ExtraInfoSide) (g : ExtendedWriter)
    (m : MessageSections) :
  exists g',
    write_group side g m = Some g'
    /\ (forall side', side' <> side ->
        extra_info side' g' = extra_info side' g)
    /\ (forall oi x, read_questions_list g oi = Some x ->
        read_questions_list g' oi = Some x)
    /\ (forall oi x, read_rrs_list g oi = Some x ->
        read_rrs_list g' oi = Some x)
    /\ names_rdatas (eg_data g) `prefix_of` names_rdatas (eg_data g')
    /\ class_types (eg_data g) `prefix_of` class_types (eg_data g').
Proof.
  destruct (write_group_effect side g m)
    as (g' & info & qi & ai & ui & di & W & G & I & O & _).
  exists g'. split; [exact W |]. split; [exact O |].
  split; [intros oi x; apply read_questions_list_grow; exact G |].
  split; [intros oi x; apply read_rrs_list_grow; exact G |].
  split; apply G.
Qed.

(** ** The properties at concrete inputs *)

Lemma startRecord_flushes_full_block_witness :
  exists B,
    calls (enc_ (startRecord full_writer (QueryOnly (example_message 2300 0 0))))
    = calls (enc_ full_writer) ++ [WriteBlock B]
    /\ end_time B = Some 2300
    /\ query_response_items B = query_response_items (data_ full_writer)
    /\ start_time
         (data_ (startRecord full_writer (QueryOnly (example_message 2300 0 0))))
       = Some 2300.
Proof.
  assert (Hfull : is_full (config_ full_writer) (data_ full_writer) = true)
    by (vm_compute; reflexivity).
  destruct (startRecord_flushes_full_block full_writer
              (QueryOnly (example_message 2300 0 0)))
    as (_ & Hflush & _).
  destruct (Hflush Hfull)
    as (B & Hcalls & _ & Hend & Hitems & _ & _ & Hstart).
  exists B. split; [exact Hcalls |]. split; [exact Hend |].
  split; [exact Hitems | exact Hstart].
Defined.

(** Against C5 as stated: a file rotation flushes the first block, whose
    last statistics are the counters of its one record, and the close that
    follows flushes the next block before any call has updated the
    statistics; that block starts from zero, not from the counters the first
    block ended with. *)
Lemma rotation_then_close_statistics :
  start_packet_statistics
    <$> flushed
          (run no_flags no_flags no_flags one_record_writer
             [CheckForRotation 2500 0 true 2500; CloseFile 3000])
  = [default_statistics; default_statistics]
  /\ last_packet_statistics
       <$> flushed
             (run no_flags no_flags no_flags one_record_writer
                [CheckForRotation 2500 0 true 2500; CloseFile 3000])
     = [example_statistics 1; example_statistics 1]
  /\ default_statistics <> example_statistics 1.
Proof.
  split; [vm_compute; reflexivity |].
  split; [vm_compute; reflexivity | discriminate].
Qed.

Lemma consecutive_blocks_statistics_witness :
  start_packet_statistics
    (block_at 1
       (call no_flags no_flags no_flags
          (run no_flags no_flags no_flags
             (call no_flags no_flags no_flags one_record_writer
                (CheckForRotation 2500 0 true 2500))
             (record_calls 2500 2))
          (CloseFile 3000)))
  = last_packet_statistics
      (block_at 0
         (call no_flags no_flags no_flags one_record_writer
            (CheckForRotation 2500 0 true 2500))).
Proof.
  apply (consecutive_blocks_statistics no_flags no_flags no_flags
           one_record_writer (CheckForRotation 2500 0 true 2500)
           (CloseFile 3000) (record_calls 2500 2)).
  - vm_compute. reflexivity.
  - apply Exists_cons_tl, Exists_cons_hd. exact I.
  - vm_compute. reflexivity.
  - vm_compute. reflexivity.
Defined.

(** Against C6 as stated: a live writer built at clock reading 1000 gives
    its first block [start_time] 1000; after one record with timestamp 2000
    and [start_end_times_from_data] set, [start_time] is still 1000, not the
    minimum 2000 of the record timestamps. Likewise, without live mode, the
    first block of a file opened by a rotation at time 1500 keeps
    [start_time] 1500. *)
Lemma live_block_start_time :
  leading_timestamps
    [(QueryOnly (example_message 2000 0 0), example_statistics 1)] = [2000]
  /\ query_response_items (data_ (example_writer no_hints true true)) = []
  /\ start_time
       (data_ (add_records no_flags no_flags no_flags
                 (example_writer no_hints true true)
                 [(QueryOnly (example_message 2000 0 0),
                   example_statistics 1)]))
     = Some 1000
  /\ start_time
       (data_ (add_records no_flags no_flags no_flags
                 (checkForRotation
                    (checkForRotation (example_writer no_hints true false)
                       1200 0 false 1200)
                    1500 0 true 1500)
                 [(QueryOnly (example_message 2000 0 0),
                   example_statistics 1)]))
     = Some 1500.
Proof. repeat split; vm_compute; reflexivity. Qed.

Lemma block_time_bounds_witness :
  start_time
    (data_ (add_records no_flags no_flags no_flags
              (example_writer no_hints true false)
              [(QueryOnly (example_message 2100 0 0), example_statistics 1);
               (QueryOnly (example_message 2000 0 0), example_statistics 2);
               (QueryOnly (example_message 2200 0 0), example_statistics 3)]))
  = Some 2000
  /\ end_time
       (data_ (add_records no_flags no_flags no_flags
                 (example_writer no_hints true false)
                 [(QueryOnly (example_message 2100 0 0), example_statistics 1);
                  (QueryOnly (example_message 2000 0 0), example_statistics 2);
                  (QueryOnly (example_message 2200 0 0), example_statistics 3)]))
     = Some 2200.
Proof.
  destruct (block_time_bounds no_flags no_flags no_flags
              (example_writer no_hints true false)
              (QueryOnly (example_message 2100 0 0)) (example_statistics 1)
              [(QueryOnly (example_message 2000 0 0), example_statistics 2);
               (QueryOnly (example_message 2200 0 0), example_statistics 3)]
              eq_refl)
    as (_ & _ & _ & Hfresh).
  exact (Hfresh eq_refl eq_refl eq_refl).
Defined.

(** Against C7 as stated: a file opened and closed at once holds one block
    between the array header and the break, so its blocks section is not the
    two items array header (0x9f), break (0xff). *)
Lemma empty_file_holds_a_block :
  file_blocks
    <$> closed_files
          (enc_ (close
                   (checkForRotation (example_writer no_hints false false)
                      2000 0 false 2000)
                   3000))
  = [[WriteArrayHeader None; WriteBlock new_BlockData; WriteBreak]]
  /\ [WriteArrayHeader None; WriteBlock new_BlockData; WriteBreak]
     <> [WriteArrayHeader None; WriteBreak].
Proof. split; [vm_compute; reflexivity | discriminate]. Qed.

Lemma checkForRotation_idle_witness :
  checkForRotation one_record_writer 2400 5000 false 2400
  = one_record_writer.
Proof.
  apply (checkForRotation_idle one_record_writer 2400 5000 2400).
  - vm_compute. reflexivity.
  - left. vm_compute. discriminate.
Defined.

Lemma checkForRotation_opens_witness :
  checkForRotation (example_writer no_hints false false) 2000 0 false 2000
  = set_enc_
      {| is_open := true;
         calls := calls (enc_ (example_writer no_hints false false))
                  ++ Open :: file_preamble ++ [WriteArrayHeader None] |}
      (example_writer no_hints false false).
Proof.
  apply (checkForRotation_opens (example_writer no_hints false false)
           2000 0 false 2000).
  vm_compute. reflexivity.
Defined.

Lemma checkForRotation_rotates_witness :
  exists B,
    calls (enc_ (checkForRotation one_record_writer 2500 0 true 2500))
    = calls (enc_ one_record_writer)
      ++ [WriteBlock B; WriteBreak; Close; Open]
      ++ file_preamble ++ [WriteArrayHeader None]
    /\ end_time B = Some 2500
    /\ query_response_items B
       = query_response_items (data_ one_record_writer)
    /\ data_ (checkForRotation one_record_writer 2500 0 true 2500)
       = set_start_time_if true (Some 2500) (clear B).
Proof.
  destruct (checkForRotation_rotates one_record_writer 2500 0 true 2500)
    as (B & Hcalls & _ & Hend & _ & Hitems & _ & Hdata & _).
  - vm_compute. reflexivity.
  - left. reflexivity.
  - exists B. split; [exact Hcalls |]. split; [exact Hend |].
    split; [exact Hitems | exact Hdata].
Defined.

Lemma close_twice_witness :
  close (close one_record_writer 3000) 4000 = close one_record_writer 3000
  /\ close (example_writer no_hints false false) 3000
     = example_writer no_hints false false
  /\ exists B,
       calls (enc_ (close one_record_writer 3000))
       = calls (enc_ one_record_writer) ++ [WriteBlock B; WriteBreak; Close]
       /\ query_response_items B
          = query_response_items (data_ one_record_writer).
Proof.
  split; [apply (close_twice one_record_writer 3000 4000) |].
  split.
  - apply (close_twice (example_writer no_hints false false) 3000 3000).
    vm_compute. reflexivity.
  - destruct (close_twice one_record_writer 3000 4000) as (_ & _ & _ & Hopen).
    destruct (Hopen ltac:(vm_compute; reflexivity)) as (B & Hcalls & Hitems & _).
    exists B. split; [exact Hcalls | exact Hitems].
Defined.

Lemma flushed_block_last_statistics_witness :
  last_packet_statistics
    (block_at 0
       (call no_flags no_flags no_flags
          (run no_flags no_flags no_flags
             (call no_flags no_flags no_flags open_writer
                (WriteBasic (QueryOnly (example_message 2000 0 0))
                   (example_statistics 7)))
             [EndRecord; CheckForRotation 2100 0 false 2100])
          (CloseFile 3000)))
  = example_statistics 7.
Proof.
  apply (flushed_block_last_statistics no_flags no_flags no_flags
           open_writer
           (WriteBasic (QueryOnly (example_message 2000 0 0))
              (example_statistics 7))
           (CloseFile 3000) [EndRecord; CheckForRotation 2100 0 false 2100]).
  - reflexivity.
  - repeat constructor.
  - vm_compute. reflexivity.
Defined.

Lemma start_statistics_set_once_witness :
  start_packet_statistics
    (data_ (run no_flags no_flags no_flags
              (call no_flags no_flags no_flags open_writer
                 (WriteAE (example_event 1 3) (example_statistics 4)))
              (record_calls 2100 9)))
  = start_packet_statistics
      (data_ (call no_flags no_flags no_flags open_writer
                (WriteAE (example_event 1 3) (example_statistics 4))))
  /\ need_start_block_stats_
       (run no_flags no_flags no_flags
          (call no_flags no_flags no_flags open_writer
             (WriteAE (example_event 1 3) (example_statistics 4)))
          (record_calls 2100 9))
     = false.
Proof.
  apply (start_statistics_set_once no_flags no_flags no_flags open_writer
           (WriteAE (example_event 1 3) (example_statistics 4))
           (record_calls 2100 9)).
  - exact I.
  - vm_compute. reflexivity.
Defined.

Lemma record_cycles_fill_blocks_witness :
  exists new,
    flushed (record_cycles no_flags no_flags no_flags open_writer
               [example_record 2000 1; example_record 2100 2;
                example_record 2200 3; example_record 2300 4;
                example_record 2400 5])
    = flushed open_writer ++ new
    /\ Forall (fun B => length (query_response_items B) = 2%nat) new
    /\ (0 + 5 = 2 * length new
        + length (query_response_items
                    (data_ (record_cycles no_flags no_flags no_flags
                              open_writer
                              [example_record 2000 1; example_record 2100 2;
                               example_record 2200 3; example_record 2300 4;
                               example_record 2400 5]))))%nat.
Proof.
  destruct (record_cycles_fill_blocks no_flags no_flags no_flags 2
              [example_record 2000 1; example_record 2100 2;
               example_record 2200 3; example_record 2300 4;
               example_record 2400 5] open_writer)
    as (new & Hnew & Hfull & _ & Hcount & _).
  - vm_compute. reflexivity.
  - lia.
  - vm_compute. lia.
  - exists new. split; [exact Hnew |]. split; [exact Hfull | exact Hcount].
Defined.

Lemma writeBasic_signature_and_delay_witness :
  (exists i,
     qri_signature
       (item_of no_flags no_flags no_flags open_writer
          (QueryAndResponse (example_message 2000 0 0)
             (example_message 2005 0 0))
          (example_statistics 1))
     = Some i
     /\ query_response_signatures
          (block_of no_flags no_flags no_flags open_writer
             (QueryAndResponse (example_message 2000 0 0)
                (example_message 2005 0 0))
             (example_statistics 1)) !! i
        = Some (signature_of no_flags no_flags no_flags open_writer
                  (QueryAndResponse (example_message 2000 0 0)
                     (example_message 2005 0 0))
                  (example_statistics 1)))
  /\ qri_response_delay
       (item_of no_flags no_flags no_flags open_writer
          (QueryAndResponse (example_message 2000 0 0)
             (example_message 2005 0 0))
          (example_statistics 1))
     = Some 5.
Proof.
  destruct (writeBasic_signature_and_delay no_flags no_flags no_flags
              open_writer
              (QueryAndResponse (example_message 2000 0 0)
                 (example_message 2005 0 0))
              (example_statistics 1)) as [Hsig Hdelay].
  split; [apply Hsig; reflexivity | exact Hdelay].
Defined.

Lemma writeBasic_excluded_not_interned_witness :
  addresses
    (block_of no_flags no_flags no_flags
       (example_writer all_hints false false)
       (QueryOnly (example_message 2000 0 0)) (example_statistics 1))
  = []
  /\ names_rdatas
       (block_of no_flags no_flags no_flags
          (example_writer all_hints false false)
          (QueryOnly (example_message 2000 0 0)) (example_statistics 1))
     = []
  /\ query_response_signatures
       (block_of no_flags no_flags no_flags
          (example_writer all_hints false false)
          (QueryOnly (example_message 2000 0 0)) (example_statistics 1))
     = [].
Proof.
  destruct (writeBasic_excluded_not_interned no_flags no_flags no_flags
              (example_writer all_hints false false)
              (QueryOnly (example_message 2000 0 0)) (example_statistics 1))
    as (Ha & _ & Hn & Hs).
  split; [exact (Ha eq_refl eq_refl) |].
  split; [exact (Hn eq_refl eq_refl) | exact (Hs eq_refl)].
Defined.

Lemma add_records_in_order_witness :
  qri_tstamp
    <$> query_response_items
          (data_ (add_records no_flags no_flags no_flags open_writer
                    [example_record 2100 1; example_record 2000 2;
                     example_record 2200 3]))
  = [Some 2100; Some 2000; Some 2200].
Proof.
  apply (add_records_in_order no_flags no_flags no_flags
           [example_record 2100 1; example_record 2000 2;
            example_record 2200 3] open_writer).
  reflexivity.
Defined.

Lemma addr_to_string_keeps_prefix_bits_witness :
  bit_at (addr_to_string (ipv4 198 51 111 5)
            (example_config no_hints false) true) 17
  = bit_at [198; 51; 111; 5] 17.
Proof.
  apply (addr_to_string_keeps_prefix_bits (ipv4 198 51 111 5)
           (example_config no_hints false) true 17).
  - vm_compute. split; discriminate.
  - vm_compute. split; [discriminate | reflexivity].
  - vm_compute. lia.
Defined.

Lemma addr_to_string_coarser_after_finer_witness :
  addr_to_string
    (with_bytes (ipv4 198 51 111 5)
       (addr_to_string (ipv4 198 51 111 5)
          (example_config no_hints false) false))
    (example_config no_hints false) true
  = addr_to_string (ipv4 198 51 111 5) (example_config no_hints false) true.
Proof.
  apply (addr_to_string_coarser_after_finer (ipv4 198 51 111 5)
           (example_config no_hints false) (example_config no_hints false)
           false true).
  - vm_compute. split; discriminate.
  - vm_compute. discriminate.
Defined.

Lemma addr_to_string_whole_address_witness :
  addr_to_string (ipv4 192 0 2 1) (example_config no_hints false) false
  = [192; 0; 2; 1].
Proof.
  apply (addr_to_string_whole_address (ipv4 192 0 2 1)
           (example_config no_hints false) false).
  - reflexivity.
  - vm_compute. lia.
  - repeat constructor; discriminate.
Defined.

Lemma addr_to_string_pads_short_address_witness :
  addr_to_string (ipv4 198 51 100 5) long_prefix_config true !! 4%nat
  = Some 0.
Proof.
  apply (addr_to_string_pads_short_address (ipv4 198 51 100 5)
           long_prefix_config true 4).
  - vm_compute. split; discriminate.
  - vm_compute. lia.
  - vm_compute. reflexivity.
Defined.

Lemma write_group_reads_back_witness :
  exists g' info,
    write_group ResponseSide
      (new_ExtendedWriter (example_config no_hints false)) example_sections
    = Some g'
    /\ extra_info ResponseSide g' = Some info
    /\ read_questions_list g' (questions_list info)
       = Some [(Some example_name, Some {| qtype := 1; qclass := 1 |})]
    /\ read_rrs_list g' (answers_list info)
       = Some [(Some example_name, Some {| qtype := 1; qclass := 1 |},
                Some 300, Some [192; 0; 2; 10]);
               (Some example_name, Some {| qtype := 1; qclass := 1 |},
                Some 300, Some [192; 0; 2; 11])]
    /\ authority_list info = None.
Proof.
  destruct (write_group_reads_back ResponseSide
              (new_ExtendedWriter (example_config no_hints false))
              example_sections eq_refl eq_refl eq_refl eq_refl eq_refl)
    as (g' & info & Hw & Hi & Hq & Ha & _ & _ & _ & _ & Hu & _).
  exists g', info. split; [exact Hw |]. split; [exact Hi |].
  split; [exact Hq |]. split; [exact Ha |]. apply Hu. reflexivity.
Defined.

Lemma records_reach_the_file_witness :
  exists new,
    flushed (close
               (record_cycles no_flags no_flags no_flags open_writer
                  [example_record 2000 1; example_record 2100 2;
                   example_record 2200 3])
               3000)
    = flushed open_writer ++ new
    /\ qri_tstamp <$> (new ≫= query_response_items)
       = [Some 2000; Some 2100; Some 2200].
Proof.
  destruct (records_reach_the_file no_flags no_flags no_flags
              [example_record 2000 1; example_record 2100 2;
               example_record 2200 3] open_writer 3000)
    as (new & Hnew & _ & Hts & _).
  - vm_compute. reflexivity.
  - exists new. split; [exact Hnew |]. apply Hts. reflexivity.
Defined.


Lemma flushed_block_address_events_witness :
  event_count (1, 0, [203; 0; 112], false)
    (block_at 0
       (call no_flags no_flags no_flags
          (run no_flags no_flags no_flags open_writer event_calls)
          (CloseFile 3000)))
  = 3
  /\ event_count (1, 0, [198; 51; 96], false)
       (block_at 0
          (call no_flags no_flags no_flags
             (run no_flags no_flags no_flags open_writer event_calls)
             (CloseFile 3000)))
     = 1
  /\ length
       (address_event_counts
          (block_at 0
             (call no_flags no_flags no_flags
                (run no_flags no_flags no_flags open_writer event_calls)
                (CloseFile 3000))))
     = 2%nat.
Proof.
  destruct (flushed_block_address_events no_flags no_flags no_flags
              open_writer event_calls (CloseFile 3000)
              (block_at 0
                 (call no_flags no_flags no_flags
                    (run no_flags no_flags no_flags open_writer event_calls)
                    (CloseFile 3000))))
    as (Hcount & _).
  - vm_compute. reflexivity.
  - vm_compute. reflexivity.
  - vm_compute. reflexivity.
  - split; [rewrite Hcount; vm_compute; reflexivity |].
    split; [rewrite Hcount; vm_compute; reflexivity |].
    vm_compute. reflexivity.
Defined.
